(** * FireBridgeCAM geometry import: DXF and SVG loaders

    A shallow embedding of [plasma_core/parsers/dxf_parser.py],
    [plasma_core/parsers/svg_parser.py], [plasma_core/parsers/__init__.py]
    and the loading step of [on_open_file] in [main.py], with the
    properties of the unified path records they return.

    Conventions.
    - A Python [float] is a binary64 value of [PrimFloat]; [==], [<] are
      [PrimFloat.eqb], [PrimFloat.ltb] (so [nan == nan] is false and
      [0.0 == -0.0] is true), arithmetic is the primitive arithmetic.
    - A Python [str] is a [string] whose characters are read as the code
      points U+0000..U+00FF; [strip], [lower], [upper] and the regular
      expression classes are Python's on that range.
    - A call that can raise returns a [result]; [try/except Exception] is
      [catch].  Objects of the third-party libraries (ezdxf entities,
      svgpathtools paths) are records holding what each attribute read or
      method call yields.
    - The C library functions behind [math.cos] and [math.sin] are
      parameters.
    - The source files carry stray blanks after some dots.  In program
      text they are read without the blank: [1. 0] is the literal [1.0]
      (it is no Python otherwise) and [entity. flattening] is
      [entity.flattening].  The two regular expressions are string
      literals and are taken as written, blank included: [(? =[Mm])],
      which [re] refuses to compile, and [<path\s+([^>]+)/? >], which asks
      for a blank before the closing ['>'].
    - A point is a pair of float values and two points are compared
      coordinate by coordinate with [==].  Python's tuple comparison
      first asks whether the two coordinate objects are one and the same
      object; the two differ only for a NaN object shared by both
      points.  The coordinates the parsers compute are new objects; a
      statement that rests on the comparison of coordinates a library
      supplies assumes that the first point holds no NaN. *)

From Stdlib Require Import ZArith List String Ascii Bool Lia Floats.
From Stdlib Require Import DecimalString.
Import ListNotations.

#[local] Set Warnings "-inexact-float".
#[local] Open Scope string_scope.
#[local] Open Scope list_scope.

(* ================================================================== *)
(** ** The Python runtime the parsers rely on *)
(* ================================================================== *)

Module Py.

(** Exception classes that reach the parsers; all derive from [Exception]. *)
Inductive exn : Type :=
| ImportError
| OSError
| ValueError
| OverflowError
| AttributeError
| IndexError
| TypeError
| DXFError
| ReError.

Inductive result (A : Type) : Type :=
| Ok (a : A)
| Raise (e : exn).

Arguments Ok {A} a.
Arguments Raise {A} e.

Definition bind {A B : Type} (r : result A) (k : A -> result B) : result B :=
  match r with
  | Ok a => k a
  | Raise e => Raise e
  end.

(** [try: body  except Exception: handler] *)
Definition catch {A : Type} (body : result A) (handler : A) : A :=
  match body with
  | Ok a => a
  | Raise _ => handler
  end.

(** What a [for] loop sees of an iterable: the items produced, then either
    normal exhaustion or an exception. *)
Record iteration (A : Type) : Type := {
  yielded : list A;
  failure : option exn
}.

Arguments yielded {A} i.
Arguments failure {A} i.

(** An iterable that gives the items [xs] and ends normally. *)
Definition whole {A : Type} (xs : list A) : iteration A :=
  {| yielded := xs; failure := None |}.

(** [for x in xs: ...] in a [result] context: the first exception stops. *)
Fixpoint for_each {A B : Type} (f : A -> result B) (xs : list A)
  : result (list B) :=
  match xs with
  | [] => Ok []
  | x :: xs' =>
      bind (f x) (fun y => bind (for_each f xs') (fun ys => Ok (y :: ys)))
  end.

(** [range(n)] *)
Definition range (n : Z) : list Z := map Z.of_nat (seq 0 (Z.to_nat n)).

(** *** Strings *)

Definition code (c : ascii) : nat := nat_of_ascii c.

(** [c.isspace()], the set [str.strip()] and the pattern [\s] use. *)
Definition isspace (c : ascii) : bool :=
  let n := code c in
  ((9 <=? n) && (n <=? 13) || (28 <=? n) && (n <=? 32)
   || (n =? 133) || (n =? 160))%nat.

Definition lower_char (c : ascii) : ascii :=
  let n := code c in
  if ((65 <=? n) && (n <=? 90)
      || (192 <=? n) && (n <=? 222) && negb (n =? 215))%nat
  then ascii_of_nat (n + 32) else c.

Fixpoint lower (s : string) : string :=
  match s with
  | EmptyString => EmptyString
  | String c s' => String (lower_char c) (lower s')
  end.

Fixpoint lstrip (s : string) : string :=
  match s with
  | EmptyString => EmptyString
  | String c s' => if isspace c then lstrip s' else s
  end.

Fixpoint rstrip (s : string) : string :=
  match s with
  | EmptyString => EmptyString
  | String c s' =>
      match rstrip s' with
      | EmptyString => if isspace c then EmptyString else String c EmptyString
      | r => String c r
      end
  end.

Definition strip (s : string) : string := rstrip (lstrip s).

(** [not s] *)
Definition is_empty (s : string) : bool :=
  match s with
  | EmptyString => true
  | String _ _ => false
  end.

(** [s.startswith(p)] *)
Definition startswith (s p : string) : bool := String.prefix p s.

Fixpoint last_char (s : string) : option ascii :=
  match s with
  | EmptyString => None
  | String c EmptyString => Some c
  | String _ s' => last_char s'
  end.

(** [s.upper().endswith("Z")]: of the code points below U+0100 only [z]
    and [Z] have an upper-case form that ends in [Z]. *)
Definition upper_endswith_Z (s : string) : bool :=
  match last_char s with
  | Some c => (code c =? 90)%nat || (code c =? 122)%nat
  | None => false
  end.

(** [x in (a, b, ...)] for strings *)
Definition str_in (x : string) (xs : list string) : bool :=
  existsb (String.eqb x) xs.

(** [str(n)] for an [int] *)
Definition str_of_int (n : Z) : string :=
  NilEmpty.string_of_int (Z.to_int n).

(** *** Floats *)

#[local] Open Scope float_scope.

(** [float(n)] for an [int]: the nearest binary64 value. *)
Definition float_of_int (n : Z) : float :=
  SF2Prim (binary_normalize prec emax n 0 false).

(** [int(x)]: truncation towards zero; [int(inf)] raises [OverflowError]
    and [int(nan)] raises [ValueError]. *)
Definition int_of_float (x : float) : result Z :=
  match Prim2SF x with
  | S754_nan => Raise ValueError
  | S754_infinity _ => Raise OverflowError
  | S754_zero _ => Ok 0%Z
  | S754_finite s m e =>
      let a := if (0 <=? e)%Z then Z.shiftl (Zpos m) e
               else Z.shiftr (Zpos m) (- e) in
      Ok (if s then (- a)%Z else a)
  end.

(** [max(a, b)] on floats: the builtin keeps [a] unless [b > a]. *)
Definition max_float (a b : float) : float := if a <? b then b else a.

(** [i / n] for ints [i], [n] (true division); exact for operands below
    2^53, which covers every call with a loop that can run to its end. *)
Definition int_truediv (i n : Z) : float := float_of_int i / float_of_int n.

(** [math.pi] *)
Definition pi : float := 0x1.921fb54442d18p+1.

(** [math.radians(x)] is [x * (pi / 180.0)]. *)
Definition radians (x : float) : float := x * (pi / 180).

(** The wrapper of the [math] module around a one-argument C function:
    a NaN result for a non-NaN argument, or an infinite result for a
    finite argument, raises [ValueError]. *)
Definition math_1 (func : float -> float) (x : float) : result float :=
  let r := func x in
  if is_nan r && negb (is_nan x) then Raise ValueError
  else if is_infinity r && is_finite x then Raise ValueError
  else Ok r.

(** The C library. *)
Record Libm : Type := {
  c_cos : float -> float;
  c_sin : float -> float
}.

Definition math_cos (libm : Libm) : float -> result float :=
  math_1 (c_cos libm).
Definition math_sin (libm : Libm) : float -> result float :=
  math_1 (c_sin libm).

End Py.

Export Py.

Notation "x <- e ;; k" := (bind e (fun x => k))
  (at level 61, e at next level, right associativity).

(* ================================================================== *)
(** ** The unified output record *)
(* ================================================================== *)

Definition Point : Type := float * float.

(** Python's [p == q] on two coordinate tuples: [==] on each pair of
    floats.  (Python first tests each pair for object identity, which
    matters only for a NaN held twice by one float object; the coordinates
    compared here are separate objects, each computed or converted on its
    own.) *)
Definition point_eqb (p q : Point) : bool :=
  (fst p =? fst q)%float && (snd p =? snd q)%float.

Inductive source_tag : Type := dxf | svg.

Record Path : Type := {
  points : list Point;
  closed : bool;
  layer : option string;
  color : option string;
  source : source_tag
}.

(** The only side effect of a load: which file it asked to read. *)
Inductive event : Type :=
| ReadDxf (filename : string)
| OpenText (filepath : string).

(** The records of a load that returned; none when it raised. *)
Definition emitted (r : result (list Path)) : list Path :=
  match r with
  | Ok ps => ps
  | Raise _ => []
  end.

(** Keep the [Some] results of a loop body, in order. *)
Fixpoint collect {A B : Type} (f : A -> option B) (xs : list A) : list B :=
  match xs with
  | [] => []
  | x :: xs' =>
      match f x with
      | Some y => y :: collect f xs'
      | None => collect f xs'
      end
  end.

(** [if pts[0] != pts[-1]: pts.append(pts[0])] on a non-empty list. *)
Definition append_first_if_open (p0 : Point) (pts : list Point) : list Point :=
  if negb (point_eqb p0 (last pts p0)) then pts ++ [p0] else pts.

(** [[(x * s, y * s) for x, y in pts]] *)
Definition scale_points (s : float) (pts : list Point) : list Point :=
  map (fun p => (fst p * s, snd p * s)%float) pts.

(* ================================================================== *)
(** ** dxf_parser.py *)
(* ================================================================== *)

Module DxfParser.

#[local] Open Scope float_scope.

(** An ezdxf [Vec3]. *)
Record Vec : Type := { vx : float; vy : float }.

(** The construction tool of an ELLIPSE or SPLINE entity. *)
Record Tool : Type := {
  approximate : Z -> iteration Point;
  evaluate : float -> result Point
}.

(** A POLYLINE vertex: [v.dxf.location]. *)
Record Vertex : Type := { dxf_location : result Vec }.

(** An entity of the modelspace, as the parser observes it. *)
Record Entity : Type := {
  dxftype : result string;
  flattening : float -> iteration Point;
  dxf_start : result Vec;
  dxf_end : result Vec;
  dxf_center : result Vec;
  dxf_radius : result float;
  dxf_start_angle : result float;
  dxf_end_angle : result float;
  construction_tool : result Tool;
  control_points : iteration Point;
  vertices : iteration Vertex;
  dxf_flags : result Z;
  closed_attr : result bool;
  dxf_layer : result string;
  dxf_color : result Z
}.

(** A drawing: [modelspace] is what [doc.modelspace()] gives, the layout
    as the [for e in msp] loop iterates it. *)
Record Document : Type := { modelspace : result (iteration Entity) }.

Record Ezdxf : Type := { readfile : string -> result Document }.

(** [ezdxf] is [None] when [import ezdxf] raised [ImportError]. *)
Record Env : Type := {
  ezdxf : option Ezdxf;
  libm : Libm
}.

Definition _HAS_EZDXF (env : Env) : bool :=
  match ezdxf env with
  | Some _ => true
  | None => false
  end.

Definition _unit_scale_to_mm (units : string) : float :=
  if is_empty units then 1.0
  else
    let u := lower (strip units) in
    if startswith u "in" then 25.4 else 1.0.

Section Flatten.

Variable m : Libm.

(** The ARC branch of [_flatten_entity]. *)
Definition flatten_arc (entity : Entity) (tol : float) : result (list Point) :=
  c <- dxf_center entity ;;
  r <- dxf_radius entity ;;
  a1 <- dxf_start_angle entity ;;
  a2 <- dxf_end_angle entity ;;
  let a2 := if a2 <? a1 then a2 + 360 else a2 in
  let sw := a2 - a1 in
  k <- int_of_float (sw / max_float tol 1e-4) ;;
  let n := Z.max 12 k in
  for_each
    (fun i =>
       let ang := radians (a1 + sw * float_of_int i / float_of_int n) in
       co <- math_cos m ang ;;
       si <- math_sin m ang ;;
       Ok (vx c + r * co, vy c + r * si))
    (range (n + 1)).

(** The CIRCLE branch. *)
Definition flatten_circle (entity : Entity) : result (list Point) :=
  c <- dxf_center entity ;;
  r <- dxf_radius entity ;;
  let n := 64%Z in
  for_each
    (fun i =>
       let ang := 2 * pi * float_of_int i / float_of_int n in
       co <- math_cos m ang ;;
       si <- math_sin m ang ;;
       Ok (vx c + r * co, vy c + r * si))
    (range (n + 1)).

(** The ELLIPSE branch. *)
Definition flatten_ellipse (entity : Entity) : result (list Point) :=
  tool <- construction_tool entity ;;
  let n := 64%Z in
  let run := approximate tool n in
  match failure run with
  | Some e => Raise e
  | None => Ok (yielded run)
  end.

(** The samples of the SPLINE branch that evaluate. *)
Definition spline_samples (tool : Tool) (n : Z) : list Point :=
  collect
    (fun i =>
       match evaluate tool (int_truediv i n) with
       | Ok pt => Some pt
       | Raise _ => None
       end)
    (range (n + 1)).

(** The SPLINE branch. *)
Definition flatten_spline (entity : Entity) : result (list Point) :=
  tool <- construction_tool entity ;;
  let n := 128%Z in
  let out := spline_samples tool n in
  match out with
  | _ :: _ => Ok out
  | [] => Ok (yielded (control_points entity))
  end.

(** The LWPOLYLINE / POLYLINE branch. *)
Definition flatten_polyline (entity : Entity) (tol : float)
  : result (list Point) :=
  let out := yielded (flattening entity tol) in
  match out with
  | _ :: _ => Ok out
  | [] =>
      Ok (collect
            (fun v =>
               match dxf_location v with
               | Ok loc => Some (vx loc, vy loc)
               | Raise _ => None
               end)
            (yielded (vertices entity)))
  end.

(** Entity-specific handling, after the adaptive flattening gave nothing. *)
Definition flatten_fallback (entity : Entity) (tol : float) : list Point :=
  match dxftype entity with
  | Raise _ => []
  | Ok t =>
      catch
        (if t =? "LINE" then
           s <- dxf_start entity ;;
           e <- dxf_end entity ;;
           Ok [(vx s, vy s); (vx e, vy e)]
         else if t =? "ARC" then flatten_arc entity tol
         else if t =? "CIRCLE" then flatten_circle entity
         else if t =? "ELLIPSE" then flatten_ellipse entity
         else if t =? "SPLINE" then flatten_spline entity
         else if str_in t ["LWPOLYLINE"; "POLYLINE"]
              then flatten_polyline entity tol
         else Ok [])%string
        []
  end.

Definition _flatten_entity (entity : Entity) (tol : float) : list Point :=
  let run := flattening entity tol in
  match failure run, yielded run with
  | None, (_ :: _) as pts => pts
  | _, _ => flatten_fallback entity tol
  end.

(** The closure stage of the loop body of [load_dxf]: the flag and the
    point list after a possible forced closing point. *)
Definition classify (e : Entity) (t : string) (p0 : Point) (pts : list Point)
  : bool * list Point :=
  let same := point_eqb p0 (last pts p0) in
  if str_in t ["CIRCLE"; "ELLIPSE"] then
    (true, append_first_if_open p0 pts)
  else if str_in t ["LWPOLYLINE"; "POLYLINE"] then
    let closed := catch (flags <- dxf_flags e ;;
                         Ok (negb (Z.land flags 1 =? 0)%Z))
                        same in
    (closed, if closed then append_first_if_open p0 pts else pts)
  else if (t =? "SPLINE")%string then
    let closed := catch (closed_attr e) same in
    (closed, if closed then append_first_if_open p0 pts else pts)
  else
    (same, pts).

(** One iteration of the [for e in msp] loop; [None] is [continue]. *)
Definition load_dxf_entity (scale tol : float) (e : Entity) : option Path :=
  match dxftype e with
  | Raise _ => None
  | Ok t =>
      match _flatten_entity e tol with
      | [] | [_] => None
      | (p0 :: _ :: _) as pts =>
          let '(closed, pts) := classify e t p0 pts in
          let layer := catch (dxf_layer e) "0"%string in
          let color :=
            catch (col <- dxf_color e ;;
                   Ok (if (0 <? col)%Z then Some (str_of_int col) else None))
                  None in
          Some {| points := scale_points scale pts;
                  closed := closed;
                  layer := Some layer;
                  color := color;
                  source := dxf |}
      end
  end.

End Flatten.

Definition load_dxf (env : Env) (filename units : string)
  : list event * result (list Path) :=
  match ezdxf env with
  | None => ([], Ok [])
  | Some lib =>
      let scale := _unit_scale_to_mm units in
      let tol := 0.25 / scale in
      ([ReadDxf filename],
       match (doc <- readfile lib filename ;; modelspace doc) with
       | Raise _ => Ok []
       | Ok msp =>
           match failure msp with
           | Some e => Raise e
           | None =>
               Ok (collect (load_dxf_entity (libm env) scale tol)
                           (yielded msp))
           end
       end)
  end.

End DxfParser.

(* ================================================================== *)
(** ** svg_parser.py *)
(* ================================================================== *)

Module SvgParser.

#[local] Open Scope float_scope.

(** A parsed svgpathtools [Path]: [path_len] is [len(path)], [length] is
    [path.length(error=1e-4)], [point t] is [path.point(t)] as the pair
    (real part, imaginary part). *)
Record PathObj : Type := {
  path_len : Z;
  length : result float;
  point : float -> result Point;
  isclosed : result bool
}.

Record Svgpathtools : Type := {
  parse_path : string -> result (option PathObj)
}.

(** [svgpathtools] is [None] when its import raised [ImportError];
    [qsettings_units] is [None] when PyQt6 is missing and otherwise what
    [QSettings(...).value("units", "metric")] gives; [read_text] is
    [open(filepath, 'r', encoding='utf-8')] followed by [f.read()]. *)
Record Env : Type := {
  svgpathtools : option Svgpathtools;
  qsettings_units : option (result string);
  read_text : string -> result string
}.

Definition _HAS_SVGTOOLS (env : Env) : bool :=
  match svgpathtools env with
  | Some _ => true
  | None => false
  end.

Definition _unit_scale_to_mm (unit : option string) : float :=
  match unit with
  | None => 1.0
  | Some unit =>
      if is_empty unit then 1.0
      else
        let u := lower (strip unit) in
        if str_in u ["mm"; "millimeter"; "millimeters"] then 1.0
        else if str_in u ["inch"; "inches"; "in"] then 25.4
        else if str_in u ["cm"; "centimeter"; "centimeters"] then 10.0
        else if str_in u ["px"; "pixels"; "pixel"] then 25.4 / 96.0
        else 1.0
  end.

Definition _flatten_path_points (has_svgtools : bool) (path : option PathObj)
    (tol_mm : float) : result (list Point) :=
  match has_svgtools, path with
  | true, Some path =>
      let length := catch (l <- length path ;; Ok (max_float l 1e-3)) 1.0 in
      k <- int_of_float ((length * 1.0) / max_float tol_mm 1e-3) ;;
      let segs := Z.max 64 k in
      Ok (collect
            (fun i =>
               let t := int_truediv i segs in
               match point path t with
               | Ok p => Some p
               | Raise _ => None
               end)
            (range (segs + 1)))
  | _, _ => Ok []
  end.

(** *** The regular expressions *)

(** [re.split(r'(? =[Mm])', s)].  [re] compiles the pattern before it
    looks at [s], and the pattern does not compile: it opens a group with
    [(?] followed by a blank, and a blank is no group extension.  The call
    raises [re.error] for every [s]. *)
Definition re_split_moves (s : string) : result (list string) :=
  Raise ReError.

Definition _split_path_by_moves (d_string : string)
  : result (list string) :=
  if is_empty d_string then Ok []
  else
    parts <- re_split_moves (strip d_string) ;;
    Ok (map strip (filter (fun p => negb (is_empty (strip p))) parts)).

Fixpoint take_while (p : ascii -> bool) (s : string) : string :=
  match s with
  | EmptyString => EmptyString
  | String c s' => if p c then String c (take_while p s') else EmptyString
  end.

Fixpoint drop_while (p : ascii -> bool) (s : string) : string :=
  match s with
  | EmptyString => EmptyString
  | String c s' => if p c then drop_while p s' else s
  end.

Definition is_char (a : ascii) (c : ascii) : bool := Ascii.eqb a c.

(** A string without its last character. *)
Fixpoint but_last (s : string) : string :=
  match s with
  | EmptyString => EmptyString
  | String c s' =>
      match s' with
      | EmptyString => EmptyString
      | String _ _ => String c (but_last s')
      end
  end.

Definition dquote : ascii := ascii_of_nat 34.

(** The pattern class [\w]. *)
Definition is_word (c : ascii) : bool :=
  let n := code c in
  ((48 <=? n) && (n <=? 57) || (65 <=? n) && (n <=? 90) || (n =? 95)
   || (97 <=? n) && (n <=? 122) || (n =? 170) || (n =? 178) || (n =? 179)
   || (n =? 181) || (n =? 185) || (n =? 186) || (188 <=? n) && (n <=? 190)
   || (192 <=? n) && (n <=? 214) || (216 <=? n) && (n <=? 246)
   || (248 <=? n))%nat.

(** A match of [<path\s+([^>]+)/? >] (ignoring case) at the start of [s]:
    group 1 and the length of the match.  The match ends at the first
    ['>'] after the tag, which must come right after a blank.  The greedy
    group takes all that lies between the white space after the tag and
    that blank, a slash included, so that [/?] matches nothing.  When
    only white space lies between the tag and the ['>'], [\s+] gives two
    characters back: one for the group and the blank. *)
Definition match_path_at (s : string) : option (string * nat) :=
  match s with
  | String c0 (String c1 (String c2 (String c3 (String c4 rest)))) =>
      if is_char "<" c0 && is_char "p" (lower_char c1)
         && is_char "a" (lower_char c2) && is_char "t" (lower_char c3)
         && is_char "h" (lower_char c4)
      then
        let ws := take_while isspace rest in
        let r := drop_while isspace rest in
        let body := take_while (fun c => negb (is_char ">" c)) r in
        match drop_while (fun c => negb (is_char ">" c)) r, ws with
        | String _ _, String _ _ =>
            match body with
            | String _ (String _ _) =>
                match last_char body with
                | Some c =>
                    if is_char " " c
                    then Some (but_last body,
                               5 + String.length ws + String.length body + 1)%nat
                    else None
                | None => None
                end
            | String _ EmptyString => None
            | EmptyString =>
                match ws, last_char ws, last_char (but_last ws) with
                | String _ (String _ (String _ _)), Some c, Some g =>
                    if is_char " " c
                    then Some (String g EmptyString,
                               5 + String.length ws + 1)%nat
                    else None
                | _, _, _ => None
                end
            end
        | _, _ => None
        end
      else None
  | _ => None
  end.

(** A scan that tries a match at every position and resumes after it;
    [skip] counts the characters of the current match still to pass. *)
Fixpoint scan {A : Type} (match_at : string -> option (A * nat))
    (skip : nat) (s : string) : list A :=
  match s with
  | EmptyString => []
  | String _ s' =>
      match skip with
      | S k => scan match_at k s'
      | O =>
          match match_at s with
          | Some (a, len) => a :: scan match_at (Nat.pred len) s'
          | None => scan match_at 0 s'
          end
      end
  end.

(** [path_pattern.findall(svg_content)] *)
Definition findall_path (svg_content : string) : list string :=
  scan match_path_at 0 svg_content.

(** A match of [attr_pattern] at the start of [s]: a run of word
    characters (group 1), an equals sign between optional white space,
    and a double-quoted run of non-quote characters (group 2); with the
    two groups comes the length of the match. *)
Definition match_attr_at (s : string) : option (string * string * nat) :=
  let key := take_while is_word s in
  let s1 := drop_while is_word s in
  let w1 := take_while isspace s1 in
  match key, drop_while isspace s1 with
  | String _ _, String c s2 =>
      if is_char "=" c then
        let w2 := take_while isspace s2 in
        match drop_while isspace s2 with
        | String q s3 =>
            if is_char dquote q then
              let v := take_while (fun c => negb (is_char dquote c)) s3 in
              match drop_while (fun c => negb (is_char dquote c)) s3 with
              | String _ _ =>
                  Some (key, v,
                        String.length key + String.length w1 + 1
                        + String.length w2 + 1 + String.length v + 1)%nat
              | EmptyString => None
              end
            else None
        | EmptyString => None
        end
      else None
  | _, _ => None
  end.

(** The [attrs] dictionary: one binding per key, the latest one. *)
Definition dict : Type := list (string * string).

Definition dict_set (k v : string) (d : dict) : dict :=
  (k, v) :: filter (fun kv => negb (fst kv =? k)%string) d.

Fixpoint dict_get (k : string) (d : dict) : option string :=
  match d with
  | [] => None
  | (k', v) :: d' => if (k' =? k)%string then Some v else dict_get k d'
  end.

(** The [for match in attr_pattern.finditer(...)] loop. *)
Definition parse_attrs (path_attrs_str : string) : dict :=
  fold_left (fun d kv => dict_set (fst kv) (snd kv) d)
            (scan match_attr_at 0 path_attrs_str) [].

(** *** The loader *)

(** The closure stage for one subpath. *)
Definition subpath_closed (subpath_str : string) (path_obj : PathObj)
    (p0 : Point) (pts : list Point) : bool :=
  if upper_endswith_Z (strip subpath_str) then true
  else
    let pn := last pts p0 in
    let dx := abs (fst p0 - fst pn) in
    let dy := abs (snd p0 - snd pn) in
    catch (isclosed path_obj) ((dx <? 1e-6) && (dy <? 1e-6)).

(** The body of the [for subpath_str in subpath_strings] loop; [Ok None]
    is [continue]. *)
Definition load_svg_subpath (lib : Svgpathtools) (tol_mm : float)
    (attrs : dict) (subpath_str : string) : result (option Path) :=
  if is_empty (strip subpath_str) then Ok None
  else
    match parse_path lib subpath_str with
    | Raise _ => Ok None
    | Ok None => Ok None
    | Ok (Some path_obj) =>
        if (path_len path_obj =? 0)%Z then Ok None
        else
          pts <- _flatten_path_points true (Some path_obj) tol_mm ;;
          match pts with
          | [] | [_] => Ok None
          | p0 :: _ :: _ =>
              let closed := subpath_closed subpath_str path_obj p0 pts in
              let pts := if closed then append_first_if_open p0 pts else pts in
              let mm_pts :=
                map (fun p => (fst p * _unit_scale_to_mm (Some "px"),
                               snd p * _unit_scale_to_mm (Some "px")))
                    pts in
              let layer := dict_get "id" attrs in
              let color :=
                match dict_get "stroke" attrs with
                | Some c => if str_in c ["none"; EmptyString] then None else Some c
                | None => None
                end in
              Ok (Some {| points := mm_pts;
                          closed := closed;
                          layer := layer;
                          color := color;
                          source := svg |})
          end
    end.

(** The [Some] results of a loop, in order. *)
Definition somes {A : Type} (xs : list (option A)) : list A :=
  collect (fun x => x) xs.

(** The body of the [for path_attrs_str in path_matches] loop. *)
Definition load_svg_element (lib : Svgpathtools) (tol_mm : float)
    (path_attrs_str : string) : result (list Path) :=
  let attrs := parse_attrs path_attrs_str in
  let d_attr := match dict_get "d" attrs with Some d => d | None => EmptyString end in
  if is_empty d_attr then Ok []
  else
    subpath_strings <- _split_path_by_moves d_attr ;;
    rs <- for_each (load_svg_subpath lib tol_mm attrs) subpath_strings ;;
    Ok (somes rs).

(** [current_units] after the guarded read of the settings, and the
    tolerance chosen from it. *)
Definition current_units (env : Env) : option string :=
  match qsettings_units env with
  | None => None
  | Some (Ok v) => Some v
  | Some (Raise _) => Some "metric"
  end.

Definition tolerance (env : Env) : float :=
  let u := match current_units env with
           | Some (String c s) => String c s
           | _ => "metric"
           end in
  if startswith u "met" then 0.05 else 0.002.

Definition load_svg (env : Env) (filepath : string)
  : list event * result (list Path) :=
  match svgpathtools env with
  | None => ([], Ok [])
  | Some lib =>
      ([OpenText filepath],
       match read_text env filepath with
       | Raise _ => Ok []
       | Ok svg_content =>
           let path_matches := findall_path svg_content in
           let tol_mm := tolerance env in
           ps <- for_each (load_svg_element lib tol_mm) path_matches ;;
           Ok (List.concat ps)
       end)
  end.

End SvgParser.

(* ================================================================== *)
(** ** parsers/__init__.py *)
(* ================================================================== *)

Module Parsers.

(** What [from .dxf_parser import load_dxf] and
    [from .svg_parser import load_svg] give: the imported module with its
    environment, or the exception the import raised. *)
Record Env : Type := {
  import_dxf_parser : result DxfParser.Env;
  import_svg_parser : result SvgParser.Env
}.

Definition _HAS_DXF (env : Env) : bool :=
  match import_dxf_parser env with Ok _ => true | Raise _ => false end.

Definition _HAS_SVG (env : Env) : bool :=
  match import_svg_parser env with Ok _ => true | Raise _ => false end.

Definition load_dxf (env : Env) (filename units : string)
  : list event * result (list Path) :=
  match import_dxf_parser env with
  | Ok m => DxfParser.load_dxf m filename units
  | Raise _ => ([], Ok [])
  end.

Definition load_svg (env : Env) (filepath : string)
  : list event * result (list Path) :=
  match import_svg_parser env with
  | Ok m => SvgParser.load_svg m filepath
  | Raise _ => ([], Ok [])
  end.

End Parsers.

(* ================================================================== *)
(** ** Concrete environments *)
(* ================================================================== *)

Module Examples.

#[local] Open Scope float_scope.

(** Values of the C library's [cos] and [sin] (glibc, x86-64) at the
    arguments the examples evaluate: the 65 circle angles [2*pi*i/64] and
    [radians(30)].  Each row is (argument, (cosine, sine)).  Outside the
    table [sample] answers NaN; no example asks there. *)
Definition libm_samples : list (float * (float * float)) := [
  (0, (0x1.0000000000000p+0, 0));
  (0x1.921fb54442d18p-4, (0x1.fd88da3d12526p-1, 0x1.917a6bc29b42cp-4));
  (0x1.921fb54442d18p-3, (0x1.f6297cff75cb0p-1, 0x1.8f8b83c69a60ap-3));
  (0x1.2d97c7f3321d2p-2, (0x1.e9f4156c62ddap-1, 0x1.294062ed59f05p-2));
  (0x1.921fb54442d18p-2, (0x1.d906bcf328d46p-1, 0x1.87de2a6aea963p-2));
  (0x1.f6a7a2955385ep-2, (0x1.c38b2f180bdb1p-1, 0x1.e2b5d3806f63bp-2));
  (0x1.2d97c7f3321d2p-1, (0x1.a9b66290ea1a3p-1, 0x1.1c73b39ae68c8p-1));
  (0x1.5fdbbe9bba775p-1, (0x1.8bc806b151741p-1, 0x1.44cf325091dd6p-1));
  (0x1.921fb54442d18p-1, (0x1.6a09e667f3bcdp-1, 0x1.6a09e667f3bccp-1));
  (0x1.c463abeccb2bbp-1, (0x1.44cf325091dd6p-1, 0x1.8bc806b151741p-1));
  (0x1.f6a7a2955385ep-1, (0x1.1c73b39ae68c9p-1, 0x1.a9b66290ea1a3p-1));
  (0x1.1475cc9eedf00p+0, (0x1.e2b5d3806f63ep-2, 0x1.c38b2f180bdb0p-1));
  (0x1.2d97c7f3321d2p+0, (0x1.87de2a6aea964p-2, 0x1.d906bcf328d46p-1));
  (0x1.46b9c347764a4p+0, (0x1.294062ed59f05p-2, 0x1.e9f4156c62ddbp-1));
  (0x1.5fdbbe9bba775p+0, (0x1.8f8b83c69a60dp-3, 0x1.f6297cff75cb0p-1));
  (0x1.78fdb9effea46p+0, (0x1.917a6bc29b438p-4, 0x1.fd88da3d12525p-1));
  (0x1.921fb54442d18p+0, (0x1.1a62633145c07p-54, 0x1.0000000000000p+0));
  (0x1.ab41b09886feap+0, (-0x1.917a6bc29b42fp-4, 0x1.fd88da3d12526p-1));
  (0x1.c463abeccb2bbp+0, (-0x1.8f8b83c69a608p-3, 0x1.f6297cff75cb0p-1));
  (0x1.dd85a7410f58cp+0, (-0x1.294062ed59f02p-2, 0x1.e9f4156c62ddbp-1));
  (0x1.f6a7a2955385ep+0, (-0x1.87de2a6aea962p-2, 0x1.d906bcf328d46p-1));
  (0x1.07e4cef4cbd98p+1, (-0x1.e2b5d3806f63cp-2, 0x1.c38b2f180bdb1p-1));
  (0x1.1475cc9eedf00p+1, (-0x1.1c73b39ae68c6p-1, 0x1.a9b66290ea1a5p-1));
  (0x1.2106ca4910069p+1, (-0x1.44cf325091dd5p-1, 0x1.8bc806b151742p-1));
  (0x1.2d97c7f3321d2p+1, (-0x1.6a09e667f3bccp-1, 0x1.6a09e667f3bcdp-1));
  (0x1.3a28c59d5433bp+1, (-0x1.8bc806b151741p-1, 0x1.44cf325091dd6p-1));
  (0x1.46b9c347764a4p+1, (-0x1.a9b66290ea1a4p-1, 0x1.1c73b39ae68c8p-1));
  (0x1.534ac0f19860cp+1, (-0x1.c38b2f180bdb0p-1, 0x1.e2b5d3806f63fp-2));
  (0x1.5fdbbe9bba775p+1, (-0x1.d906bcf328d46p-1, 0x1.87de2a6aea965p-2));
  (0x1.6c6cbc45dc8dep+1, (-0x1.e9f4156c62ddap-1, 0x1.294062ed59f06p-2));
  (0x1.78fdb9effea46p+1, (-0x1.f6297cff75cb0p-1, 0x1.8f8b83c69a617p-3));
  (0x1.858eb79a20bafp+1, (-0x1.fd88da3d12525p-1, 0x1.917a6bc29b43cp-4));
  (0x1.921fb54442d18p+1, (-0x1.0000000000000p+0, 0x1.1a62633145c07p-53));
  (0x1.9eb0b2ee64e81p+1, (-0x1.fd88da3d12526p-1, -0x1.917a6bc29b42bp-4));
  (0x1.ab41b09886feap+1, (-0x1.f6297cff75cb0p-1, -0x1.8f8b83c69a60ep-3));
  (0x1.b7d2ae42a9152p+1, (-0x1.e9f4156c62ddbp-1, -0x1.294062ed59f01p-2));
  (0x1.c463abeccb2bbp+1, (-0x1.d906bcf328d47p-1, -0x1.87de2a6aea961p-2));
  (0x1.d0f4a996ed424p+1, (-0x1.c38b2f180bdb1p-1, -0x1.e2b5d3806f63bp-2));
  (0x1.dd85a7410f58cp+1, (-0x1.a9b66290ea1a5p-1, -0x1.1c73b39ae68c6p-1));
  (0x1.ea16a4eb316f5p+1, (-0x1.8bc806b151742p-1, -0x1.44cf325091dd4p-1));
  (0x1.f6a7a2955385ep+1, (-0x1.6a09e667f3bcep-1, -0x1.6a09e667f3bccp-1));
  (0x1.019c501fbace3p+2, (-0x1.44cf325091ddap-1, -0x1.8bc806b15173ep-1));
  (0x1.07e4cef4cbd98p+2, (-0x1.1c73b39ae68c8p-1, -0x1.a9b66290ea1a3p-1));
  (0x1.0e2d4dc9dce4cp+2, (-0x1.e2b5d3806f63fp-2, -0x1.c38b2f180bdb0p-1));
  (0x1.1475cc9eedf00p+2, (-0x1.87de2a6aea96dp-2, -0x1.d906bcf328d44p-1));
  (0x1.1abe4b73fefb5p+2, (-0x1.294062ed59f07p-2, -0x1.e9f4156c62ddap-1));
  (0x1.2106ca4910069p+2, (-0x1.8f8b83c69a619p-3, -0x1.f6297cff75cafp-1));
  (0x1.274f491e2111ep+2, (-0x1.917a6bc29b421p-4, -0x1.fd88da3d12526p-1));
  (0x1.2d97c7f3321d2p+2, (-0x1.a79394c9e8a0ap-53, -0x1.0000000000000p+0));
  (0x1.33e046c843286p+2, (0x1.917a6bc29b407p-4, -0x1.fd88da3d12526p-1));
  (0x1.3a28c59d5433bp+2, (0x1.8f8b83c69a60cp-3, -0x1.f6297cff75cb0p-1));
  (0x1.40714472653efp+2, (0x1.294062ed59f00p-2, -0x1.e9f4156c62ddbp-1));
  (0x1.46b9c347764a4p+2, (0x1.87de2a6aea967p-2, -0x1.d906bcf328d45p-1));
  (0x1.4d02421c87558p+2, (0x1.e2b5d3806f63ap-2, -0x1.c38b2f180bdb1p-1));
  (0x1.534ac0f19860cp+2, (0x1.1c73b39ae68c5p-1, -0x1.a9b66290ea1a5p-1));
  (0x1.59933fc6a96c1p+2, (0x1.44cf325091dd7p-1, -0x1.8bc806b151740p-1));
  (0x1.5fdbbe9bba775p+2, (0x1.6a09e667f3bcbp-1, -0x1.6a09e667f3bcep-1));
  (0x1.66243d70cb829p+2, (0x1.8bc806b15173ep-1, -0x1.44cf325091ddap-1));
  (0x1.6c6cbc45dc8dep+2, (0x1.a9b66290ea1a3p-1, -0x1.1c73b39ae68c8p-1));
  (0x1.72b53b1aed992p+2, (0x1.c38b2f180bdafp-1, -0x1.e2b5d3806f640p-2));
  (0x1.78fdb9effea46p+2, (0x1.d906bcf328d44p-1, -0x1.87de2a6aea96ep-2));
  (0x1.7f4638c50fafbp+2, (0x1.e9f4156c62ddap-1, -0x1.294062ed59f08p-2));
  (0x1.858eb79a20bafp+2, (0x1.f6297cff75cafp-1, -0x1.8f8b83c69a61bp-3));
  (0x1.8bd7366f31c64p+2, (0x1.fd88da3d12526p-1, -0x1.917a6bc29b425p-4));
  (0x1.921fb54442d18p+2, (0x1.0000000000000p+0, -0x1.1a62633145c07p-52));
  (0x1.0c152382d7365p-1, (0x1.bb67ae8584cabp-1, 0x1.fffffffffffffp-2))
].

Fixpoint sample (x : float) (tbl : list (float * (float * float)))
  : float * float :=
  match tbl with
  | [] => (nan, nan)
  | (a, cs) :: tbl' => if Leibniz.eqb a x then cs else sample x tbl'
  end.

Definition glibc : Libm := {|
  c_cos := fun x => fst (sample x libm_samples);
  c_sin := fun x => snd (sample x libm_samples)
|}.

(** An iterable that cannot even be obtained. *)
Definition unavailable {A : Type} : iteration A :=
  {| yielded := []; failure := Some AttributeError |}.

(** An entity of type [t] on which every other read raises. *)
Definition bare_entity (t : string) : DxfParser.Entity := {|
  DxfParser.dxftype := Ok t;
  DxfParser.flattening := fun _ => unavailable;
  DxfParser.dxf_start := Raise AttributeError;
  DxfParser.dxf_end := Raise AttributeError;
  DxfParser.dxf_center := Raise AttributeError;
  DxfParser.dxf_radius := Raise AttributeError;
  DxfParser.dxf_start_angle := Raise AttributeError;
  DxfParser.dxf_end_angle := Raise AttributeError;
  DxfParser.construction_tool := Raise AttributeError;
  DxfParser.control_points := unavailable;
  DxfParser.vertices := unavailable;
  DxfParser.dxf_flags := Raise AttributeError;
  DxfParser.closed_attr := Raise AttributeError;
  DxfParser.dxf_layer := Raise AttributeError;
  DxfParser.dxf_color := Raise AttributeError
|}.

Definition vec (x y : float) : DxfParser.Vec :=
  {| DxfParser.vx := x; DxfParser.vy := y |}.

(** A LINE from [s] to [e] without adaptive flattening. *)
Definition line_entity (s e : DxfParser.Vec) : DxfParser.Entity := {|
  DxfParser.dxftype := Ok "LINE";
  DxfParser.flattening := fun _ => unavailable;
  DxfParser.dxf_start := Ok s;
  DxfParser.dxf_end := Ok e;
  DxfParser.dxf_center := Raise AttributeError;
  DxfParser.dxf_radius := Raise AttributeError;
  DxfParser.dxf_start_angle := Raise AttributeError;
  DxfParser.dxf_end_angle := Raise AttributeError;
  DxfParser.construction_tool := Raise AttributeError;
  DxfParser.control_points := unavailable;
  DxfParser.vertices := unavailable;
  DxfParser.dxf_flags := Raise AttributeError;
  DxfParser.closed_attr := Raise AttributeError;
  DxfParser.dxf_layer := Ok "0";
  DxfParser.dxf_color := Ok 7%Z
|}.

(** A CIRCLE or ARC (by [t]) whose adaptive flattening yields [flat]. *)
Definition round_entity (t : string) (flat : iteration Point)
    (c : DxfParser.Vec) (r a1 a2 : float) : DxfParser.Entity := {|
  DxfParser.dxftype := Ok t;
  DxfParser.flattening := fun _ => flat;
  DxfParser.dxf_start := Raise AttributeError;
  DxfParser.dxf_end := Raise AttributeError;
  DxfParser.dxf_center := Ok c;
  DxfParser.dxf_radius := Ok r;
  DxfParser.dxf_start_angle := Ok a1;
  DxfParser.dxf_end_angle := Ok a2;
  DxfParser.construction_tool := Raise AttributeError;
  DxfParser.control_points := unavailable;
  DxfParser.vertices := unavailable;
  DxfParser.dxf_flags := Raise AttributeError;
  DxfParser.closed_attr := Raise AttributeError;
  DxfParser.dxf_layer := Ok "0";
  DxfParser.dxf_color := Ok 256%Z
|}.

(** The circle of centre (0,0) and radius 10, flattened by the fallback. *)
Definition circle10 : DxfParser.Entity :=
  round_entity "CIRCLE" unavailable (vec 0 0) 10 0 0.

(** A circle of infinite radius, flattened by the fallback: its first
    point is (inf, inf * sin(0)) = (inf, nan). *)
Definition circle_inf_radius : DxfParser.Entity :=
  round_entity "CIRCLE" unavailable (vec 0 0) infinity 0 0.

(** A circle whose adaptive flattening yields a NaN abscissa. *)
Definition circle_nan : DxfParser.Entity :=
  round_entity "CIRCLE"
    {| yielded := [(nan, 0); (1, 0)]; failure := None |} (vec nan 0) 1 0 0.

(** Arcs with equal start and end angle: at 30 degrees with radius 5;
    at an infinite angle; and at 0 degrees with an infinite radius. *)
Definition arc30 : DxfParser.Entity :=
  round_entity "ARC" unavailable (vec 0 0) 5 30 30.
Definition arc_inf_angle : DxfParser.Entity :=
  round_entity "ARC" unavailable (vec 0 0) 5 infinity infinity.
Definition arc_inf_radius : DxfParser.Entity :=
  round_entity "ARC" unavailable (vec 0 0) infinity 0 0.




(** An installation with ezdxf in which every file holds [msp]. *)
Definition dxf_env (msp : list DxfParser.Entity) : DxfParser.Env := {|
  DxfParser.ezdxf :=
    Some {| DxfParser.readfile :=
              fun _ => Ok {| DxfParser.modelspace := Ok (whole msp) |} |};
  DxfParser.libm := glibc
|}.

(** Installations without ezdxf, and with ezdxf but no readable file. *)
Definition dxf_env_no_ezdxf : DxfParser.Env :=
  {| DxfParser.ezdxf := None; DxfParser.libm := glibc |}.
Definition dxf_env_unreadable : DxfParser.Env := {|
  DxfParser.ezdxf := Some {| DxfParser.readfile := fun _ => Raise OSError |};
  DxfParser.libm := glibc
|}.

(** The paths svgpathtools builds for three subpaths: the segment from
    (0,0) to (10,0); the one from (20,0) to (30,0) and back, closed by Z;
    and two segments that return to within 1e-9 of their start, which
    svgpathtools does not report as closed. *)
Definition segment (x0 x1 : float) (is_closed : bool) : SvgParser.PathObj := {|
  SvgParser.path_len := 1;
  SvgParser.length := Ok (abs (x1 - x0));
  SvgParser.point := fun t => Ok (x0 + t * (x1 - x0), 0);
  SvgParser.isclosed := Ok is_closed
|}.

Definition parse_path_sample (d : string) : result (option SvgParser.PathObj) :=
  if (d =? "M0,0 L10,0")%string then Ok (Some (segment 0 10 false))
  else if (d =? "M20,0 L30,0 Z")%string then
    Ok (Some {| SvgParser.path_len := 2;
                SvgParser.length := Ok 20;
                SvgParser.point :=
                  fun t => Ok (if t <? 0.5 then 20 + 2 * t * 10
                               else 30 - (2 * t - 1) * 10, 0);
                SvgParser.isclosed := Ok true |})
  else if (d =? "M0,0 L5,0 L0,1e-9")%string then
    Ok (Some {| SvgParser.path_len := 2;
                SvgParser.length := Ok 10;
                SvgParser.point :=
                  fun t => Ok (if t <? 0.5 then 2 * t * 5
                               else 5 - (2 * t - 1) * 5,
                               if t <? 0.5 then 0 else (2 * t - 1) * 1e-9);
                SvgParser.isclosed := Ok false |})
  else Raise ValueError.

(** An installation with svgpathtools, without PyQt6, in which every
    file holds [content]. *)
Definition svg_env (content : string) : SvgParser.Env := {|
  SvgParser.svgpathtools := Some {| SvgParser.parse_path := parse_path_sample |};
  SvgParser.qsettings_units := None;
  SvgParser.read_text := fun _ => Ok content
|}.

Definition svg_env_no_svgpathtools : SvgParser.Env := {|
  SvgParser.svgpathtools := None;
  SvgParser.qsettings_units := None;
  SvgParser.read_text := fun _ => Ok EmptyString
|}.

Definition svg_env_unreadable : SvgParser.Env := {|
  SvgParser.svgpathtools := Some {| SvgParser.parse_path := parse_path_sample |};
  SvgParser.qsettings_units := None;
  SvgParser.read_text := fun _ => Raise OSError
|}.

(** Attribute values are written between [q]s, the double quote. *)
Definition q : string := String SvgParser.dquote EmptyString.

(** A document with one path element, written with a blank before the
    closing ['>']. *)
Definition svg_two_subpaths : string :=
  "<svg><path id=" ++ q ++ "a" ++ q ++ " d=" ++ q
  ++ "M0,0 L10,0 M20,0 L30,0 Z" ++ q ++ " ></svg>".

(** The record the subpath loop of [load_svg] builds, when it builds
    one; [subpath_record] is the one for a command string, with the
    sample paths and no attribute. *)
Definition record_of (r : result (option Path)) : Path :=
  match r with
  | Ok (Some p) => p
  | _ => {| points := []; closed := false; layer := None; color := None;
            source := svg |}
  end.

Definition subpath_record (tol_mm : float) (subpath_str : string) : Path :=
  record_of (SvgParser.load_svg_subpath
               {| SvgParser.parse_path := parse_path_sample |} tol_mm []
               subpath_str).

(** The first record of a load, for the examples that emit one. *)
Definition first_path (r : list event * result (list Path)) : Path :=
  hd {| points := []; closed := false; layer := None; color := None;
        source := dxf |}
     (emitted (snd r)).

Definition first_point (p : Path) : Point := hd (0, 0)%float (points p).
Definition last_point (p : Path) : Point := last (points p) (0, 0)%float.

(** Packages: one whose parser modules loaded without their dependency,
    one whose imports of the parser modules failed. *)
Definition pkg_without_dependencies : Parsers.Env := {|
  Parsers.import_dxf_parser := Ok dxf_env_no_ezdxf;
  Parsers.import_svg_parser := Ok svg_env_no_svgpathtools
|}.

Definition pkg_import_failed : Parsers.Env := {|
  Parsers.import_dxf_parser := Raise ImportError;
  Parsers.import_svg_parser := Raise ImportError
|}.

End Examples.

(* ================================================================== *)
(** ** Predicates the properties are stated with *)
(* ================================================================== *)

(** Two coordinates agree: equal under [==], or both NaN. *)
Definition same_float (a b : float) : bool :=
  (a =? b)%float || (is_nan a && is_nan b).

Definition same_point (p q : Point) : bool :=
  same_float (fst p) (fst q) && same_float (snd p) (snd q).

Definition has_nan (p : Point) : bool := is_nan (fst p) || is_nan (snd p).

(** The adaptive flattening of an entity is unavailable (it raises) or
    empty. *)
Definition no_adaptive_flattening (e : DxfParser.Entity) (tol : float) : Prop :=
  failure (DxfParser.flattening e tol) <> None
  \/ yielded (DxfParser.flattening e tol) = [].



(** The parameters and the points of the CIRCLE fallback. *)
Definition circle_angle (i : Z) : float :=
  (2 * pi * float_of_int i / float_of_int 64)%float.

Definition circle_sample (m : Libm) (c : DxfParser.Vec) (r : float) (i : Z)
  : Point :=
  (DxfParser.vx c + r * c_cos m (circle_angle i),
   DxfParser.vy c + r * c_sin m (circle_angle i))%float.

(** The C library returns finite values at the arguments [xs]. *)
Definition libm_finite_on (m : Libm) (xs : list float) : bool :=
  forallb (fun x => is_finite (c_cos m x) && is_finite (c_sin m x)) xs.

(** A float is a zero when it is [0.0] or [-0.0]. *)
Definition is_a_zero (x : float) : Prop := (x = 0 \/ x = -0)%float.

(* ================================================================== *)
(** ** main.py: the loading step of on_open_file *)
(* ================================================================== *)

Module Main.

(** An entry of the [errors] list: which loader raised, and what. *)
Inductive load_error : Type :=
| DxfLoadFailed (e : exn)
| SvgLoadFailed (e : exn).

(** [try: paths = load(...) or []  except Exception as e: errors.append(...)]
    for one loader: the file events, the paths and the new errors. *)
Definition attempt (mk : exn -> load_error)
    (r : list event * result (list Path))
  : list event * (list Path * list load_error) :=
  match snd r with
  | Ok ps => (fst r, (ps, []))
  | Raise e => (fst r, ([], [mk e]))
  end.

(** The dispatch on [suffix = file_path.suffix.lower()] in [on_open_file]:
    the file events, the paths handed to the canvas and the errors kept
    for the message box. *)
Definition on_open_file_paths (env : Parsers.Env) (suffix file_path : string)
  : list event * (list Path * list load_error) :=
  if (suffix =? ".dxf")%string then
    attempt DxfLoadFailed (Parsers.load_dxf env file_path "mm")
  else if (suffix =? ".svg")%string then
    attempt SvgLoadFailed (Parsers.load_svg env file_path)
  else
    let '(ev1, (paths, errors)) :=
      attempt DxfLoadFailed (Parsers.load_dxf env file_path "mm") in
    match paths with
    | _ :: _ => (ev1, (paths, errors))
    | [] =>
        let '(ev2, (paths, errors2)) :=
          attempt SvgLoadFailed (Parsers.load_svg env file_path) in
        (ev1 ++ ev2, (paths, errors ++ errors2))
    end.

End Main.

(* ================================================================== *)
(** ** Further predicates *)
(* ================================================================== *)

(** The entry that a guarded call of a loader leaves in the error list
    of [on_open_file]. *)
Definition errors_of (mk : exn -> Main.load_error) (r : result (list Path))
  : list Main.load_error :=
  match r with
  | Ok _ => []
  | Raise e => [mk e]
  end.

(** Every character of a string satisfies [p]. *)
Fixpoint all_chars (p : ascii -> bool) (s : string) : bool :=
  match s with
  | String c s' => p c && all_chars p s'
  | EmptyString => true
  end.

(** The quotient [(length * 1.0) / max(tol_mm, 1e-3)] that
    [_flatten_path_points] converts to an [int]. *)
Definition length_quotient (path : SvgParser.PathObj) (tol_mm : float) : float :=
  (catch (l <- SvgParser.length path ;; Ok (max_float l 1e-3)) 1.0 * 1.0
   / max_float tol_mm 1e-3)%float.

(** The latest pair with key [k] of a list of matches. *)
Definition latest (k : string) (matches : list (string * string))
  : option string :=
  option_map snd (find (fun kv => (fst kv =? k)%string) (rev matches)).

(** The type tags with a closure rule of their own. *)
Definition ring_types : list string := ["CIRCLE"; "ELLIPSE"].
Definition polyline_types : list string := ["LWPOLYLINE"; "POLYLINE"].

(** The distance of a point from the origin, as binary64 computes
    [sqrt(x*x + y*y)], and closeness of two floats. *)
Definition distance_from_origin (p : Point) : float :=
  sqrt (fst p * fst p + snd p * snd p)%float.

Definition within (eps x y : float) : bool := (abs (x - y) <=? eps)%float.

(** Two C libraries return the same cosine and sine at the arguments
    [xs]. *)
Definition libm_agree_on (m m' : Libm) (xs : list float) : bool :=
  forallb (fun x => Leibniz.eqb (c_cos m x) (c_cos m' x)
                    && Leibniz.eqb (c_sin m x) (c_sin m' x)) xs.

(** The path elements of a document whose [d] attribute is not empty:
    the ones [load_svg] hands to the splitter. *)
Definition has_path_data (path_attrs_str : string) : bool :=
  match SvgParser.dict_get "d" (SvgParser.parse_attrs path_attrs_str) with
  | Some d => negb (is_empty d)
  | None => false
  end.

(** The type tags [_flatten_entity] has a fallback for. *)
Definition fallback_types : list string :=
  ["LINE"; "ARC"; "CIRCLE"; "ELLIPSE"; "SPLINE"; "LWPOLYLINE"; "POLYLINE"].

(* ================================================================== *)
(** ** Further concrete environments *)
(* ================================================================== *)

Module MoreExamples.

#[local] Open Scope float_scope.

(** A polyline with the closed bit set whose adaptive flattening raises
    after three points. *)
Definition polyline_partial : DxfParser.Entity := {|
  DxfParser.dxftype := Ok "LWPOLYLINE";
  DxfParser.flattening :=
    fun _ => {| yielded := [(0, 0); (1, 0); (1, 1)];
                failure := Some ValueError |};
  DxfParser.dxf_start := Raise AttributeError;
  DxfParser.dxf_end := Raise AttributeError;
  DxfParser.dxf_center := Raise AttributeError;
  DxfParser.dxf_radius := Raise AttributeError;
  DxfParser.dxf_start_angle := Raise AttributeError;
  DxfParser.dxf_end_angle := Raise AttributeError;
  DxfParser.construction_tool := Raise AttributeError;
  DxfParser.control_points := Examples.unavailable;
  DxfParser.vertices := Examples.unavailable;
  DxfParser.dxf_flags := Ok 1%Z;
  DxfParser.closed_attr := Raise AttributeError;
  DxfParser.dxf_layer := Ok "outline";
  DxfParser.dxf_color := Ok 0%Z
|}.

(** The line from (0,0) to (10,0). *)
Definition line10 : DxfParser.Entity :=
  Examples.line_entity (Examples.vec 0 0) (Examples.vec 10 0).

(** An installation with ezdxf holding three files, and a fourth whose
    model space raises after its first entity. *)
Definition dxf_env_files : DxfParser.Env := {|
  DxfParser.ezdxf :=
    Some {| DxfParser.readfile :=
              fun f =>
                if (f =? "a.dxf")%string then
                  Ok {| DxfParser.modelspace := Ok (whole [line10]) |}
                else if (f =? "b.dxf")%string then
                  Ok {| DxfParser.modelspace :=
                          Ok (whole [polyline_partial;
                                     Examples.arc_inf_angle]) |}
                else if (f =? "ab.dxf")%string then
                  Ok {| DxfParser.modelspace :=
                          Ok (whole [line10; polyline_partial;
                                     Examples.arc_inf_angle]) |}
                else if (f =? "torn.dxf")%string then
                  Ok {| DxfParser.modelspace :=
                          Ok {| yielded := [line10];
                                failure := Some DXFError |} |}
                else Raise OSError |};
  DxfParser.libm := Examples.glibc
|}.

(** A package whose parser modules loaded with their dependencies, over
    the three DXF files and an SVG text. *)
Definition pkg (content : string) : Parsers.Env := {|
  Parsers.import_dxf_parser := Ok dxf_env_files;
  Parsers.import_svg_parser := Ok (Examples.svg_env content)
|}.

(** A document with two path elements: an upper-case tag, a stroke of
    [none], white space around an equals sign and a repeated attribute. *)
Definition svg_styled : string :=
  "<svg><PATH id=" ++ Examples.q ++ "cut" ++ Examples.q
  ++ " stroke=" ++ Examples.q ++ "none" ++ Examples.q
  ++ " d=" ++ Examples.q ++ "M0,0 L10,0" ++ Examples.q ++ " >"
  ++ "<path stroke=" ++ Examples.q ++ "#f00" ++ Examples.q
  ++ " d = " ++ Examples.q ++ " M20,0 L30,0 Z " ++ Examples.q
  ++ " stroke=" ++ Examples.q ++ "red" ++ Examples.q ++ " ></svg>".

(** An ELLIPSE without adaptive flattening whose construction tool
    yields [run] when asked for an approximation. *)
Definition ellipse_entity (run : iteration Point) : DxfParser.Entity := {|
  DxfParser.dxftype := Ok "ELLIPSE";
  DxfParser.flattening := fun _ => Examples.unavailable;
  DxfParser.dxf_start := Raise AttributeError;
  DxfParser.dxf_end := Raise AttributeError;
  DxfParser.dxf_center := Raise AttributeError;
  DxfParser.dxf_radius := Raise AttributeError;
  DxfParser.dxf_start_angle := Raise AttributeError;
  DxfParser.dxf_end_angle := Raise AttributeError;
  DxfParser.construction_tool :=
    Ok {| DxfParser.approximate := fun _ => run;
          DxfParser.evaluate := fun _ => Raise ValueError |};
  DxfParser.control_points := Examples.unavailable;
  DxfParser.vertices := Examples.unavailable;
  DxfParser.dxf_flags := Raise AttributeError;
  DxfParser.closed_attr := Raise AttributeError;
  DxfParser.dxf_layer := Ok "0";
  DxfParser.dxf_color := Ok 7%Z
|}.

Definition ellipse_whole : DxfParser.Entity :=
  ellipse_entity {| yielded := [(2, 0); (0, 1); (-2, 0); (0, -1); (2, 0)];
                    failure := None |}.

Definition ellipse_broken : DxfParser.Entity :=
  ellipse_entity {| yielded := [(2, 0); (0, 1); (-2, 0)];
                    failure := Some ValueError |}.

End MoreExamples.


(* ================================================================== *)
(** ** Facts about binary64 arithmetic *)
(* ================================================================== *)

Section FloatFacts.

#[local] Open Scope float_scope.

Lemma SFcompare_refl (f : spec_float) :
  f <> S754_nan -> SFcompare f f = Some Eq.
Proof.
  destruct f as [s|s| |s m e]; simpl; try congruence; intros _.
  - destruct s; reflexivity.
  - destruct s; rewrite Z.compare_refl, Pos.compare_cont_refl; reflexivity.
Qed.

Lemma is_nan_Prim2SF (x : float) :
  is_nan x = true <-> Prim2SF x = S754_nan.
Proof.
  unfold is_nan. rewrite eqb_spec. unfold SFeqb. split.
  - intros H. destruct (Prim2SF x) eqn:E; try reflexivity;
      rewrite SFcompare_refl in H by congruence; discriminate H.
  - intros ->. reflexivity.
Qed.

Lemma is_nan_eq (x y : float) :
  is_nan x = true -> is_nan y = true -> x = y.
Proof.
  rewrite !is_nan_Prim2SF. intros Hx Hy.
  apply Prim2SF_inj. congruence.
Qed.

(** [x == y] holds for identical values and for two zeros only. *)
Lemma eqb_cases (x y : float) :
  (x =? y) = true ->
  x = y \/ exists s1 s2, Prim2SF x = S754_zero s1 /\ Prim2SF y = S754_zero s2.
Proof.
  rewrite eqb_spec. unfold SFeqb.
  destruct (Prim2SF x) as [s1|s1| |s1 m1 e1] eqn:Ex;
    destruct (Prim2SF y) as [s2|s2| |s2 m2 e2] eqn:Ey; simpl; intros H;
    first [ discriminate H
          | solve [right; eauto]
          | solve [destruct s1; discriminate H]
          | solve [destruct s2; discriminate H]
          | solve [destruct s1, s2; try discriminate H;
                   left; apply Prim2SF_inj; congruence]
          | idtac ].
  left. apply Prim2SF_inj. rewrite Ex, Ey.
  destruct s1, s2; try discriminate;
    destruct (Z.compare e1 e2) eqn:Ee; try discriminate;
    apply Z.compare_eq in Ee; subst e2;
    destruct (Pos.compare_cont Eq m1 m2) eqn:Em; try discriminate;
    apply Pos.compare_eq in Em; subst m2; reflexivity.
Qed.

Lemma same_float_refl (x : float) : same_float x x = true.
Proof.
  unfold same_float, is_nan. destruct (x =? x); reflexivity.
Qed.

Lemma same_point_refl (p : Point) : same_point p p = true.
Proof.
  unfold same_point. now rewrite !same_float_refl.
Qed.

Lemma eqb_same_float (x y : float) : (x =? y) = true -> same_float x y = true.
Proof.
  unfold same_float. intros ->. reflexivity.
Qed.

Lemma point_eqb_same_point (p q : Point) :
  point_eqb p q = true -> same_point p q = true.
Proof.
  unfold point_eqb, same_point. rewrite !andb_true_iff.
  intros [H1 H2]. now rewrite !eqb_same_float.
Qed.

(** Away from NaN, agreement is [==]. *)
Lemma same_float_eqb (x y : float) :
  same_float x y = true -> is_nan x = false -> (x =? y) = true.
Proof.
  unfold same_float. intros H Hx. rewrite Hx in H. simpl in H.
  now rewrite orb_false_r in H.
Qed.

Lemma same_point_eqb (p q : Point) :
  same_point p q = true -> has_nan p = false -> point_eqb p q = true.
Proof.
  unfold same_point, has_nan, point_eqb.
  rewrite !andb_true_iff, orb_false_iff. intros [H1 H2] [N1 N2].
  split; apply same_float_eqb; assumption.
Qed.

(** Multiplying both sides by one factor keeps agreement. *)
Lemma same_float_mul (x y s : float) :
  same_float x y = true -> same_float (x * s) (y * s) = true.
Proof.
  unfold same_float. rewrite orb_true_iff, andb_true_iff.
  intros [H | [Hx Hy]].
  - destruct (eqb_cases _ _ H) as [-> | (s1 & s2 & Hx & Hy)].
    + apply same_float_refl.
    + unfold is_nan. rewrite !eqb_spec, !mul_spec, Hx, Hy.
      destruct (Prim2SF s) as [ss|ss| |ss ms es]; reflexivity.
  - rewrite (is_nan_eq _ _ Hx Hy). apply same_float_refl.
Qed.

End FloatFacts.

(* ================================================================== *)
(** ** Facts about the loops *)
(* ================================================================== *)

Section LoopFacts.

Context {A B : Type}.

Lemma in_collect (f : A -> option B) (xs : list A) (y : B) :
  In y (collect f xs) <-> exists x, In x xs /\ f x = Some y.
Proof.
  induction xs as [|x xs IH]; simpl.
  - split; [intros [] | intros (x & [] & _)].
  - destruct (f x) as [y'|] eqn:E; simpl; rewrite IH; split.
    + intros [<- | (x' & Hin & Hx')]; eauto.
    + intros (x' & [<- | Hin] & Hx'); [left; congruence | right; eauto].
    + intros (x' & Hin & Hx'); eauto.
    + intros (x' & [<- | Hin] & Hx'); [congruence | eauto].
Qed.

Lemma collect_length (f : A -> option B) (xs : list A) :
  (List.length (collect f xs) <= List.length xs)%nat.
Proof.
  induction xs as [|x xs IH]; simpl; [lia|].
  destruct (f x); simpl; lia.
Qed.

Lemma collect_all (f : A -> option B) (g : A -> B) (xs : list A) :
  (forall x, In x xs -> f x = Some (g x)) -> collect f xs = map g xs.
Proof.
  induction xs as [|x xs IH]; simpl; intros H; [reflexivity|].
  rewrite (H x) by auto. f_equal. apply IH. auto.
Qed.

Lemma collect_none (f : A -> option B) (xs : list A) :
  (forall x, In x xs -> f x = None) -> collect f xs = [].
Proof.
  induction xs as [|x xs IH]; simpl; intros H; [reflexivity|].
  rewrite (H x) by auto. apply IH. auto.
Qed.

Lemma collect_filter (f : A -> option B) (keep : A -> bool) (xs : list A) :
  (forall x, keep x = false -> f x = None) ->
  collect f (filter keep xs) = collect f xs.
Proof.
  intros H. induction xs as [|x xs IH]; simpl; [reflexivity|].
  destruct (keep x) eqn:K; simpl.
  - now rewrite IH.
  - now rewrite (H x K).
Qed.

Lemma for_each_all (f : A -> result B) (g : A -> B) (xs : list A) :
  (forall x, In x xs -> f x = Ok (g x)) -> for_each f xs = Ok (map g xs).
Proof.
  induction xs as [|x xs IH]; simpl; intros H; [reflexivity|].
  rewrite (H x) by auto. simpl. rewrite IH by auto. reflexivity.
Qed.

End LoopFacts.

Lemma range_length (n : Z) : List.length (range n) = Z.to_nat n.
Proof.
  unfold range. now rewrite length_map, length_seq.
Qed.

Lemma in_range (n i : Z) : In i (range n) <-> (0 <= i < n)%Z.
Proof.
  unfold range. rewrite in_map_iff. split.
  - intros (k & <- & Hk). apply in_seq in Hk. lia.
  - intros H. exists (Z.to_nat i). split; [lia|]. apply in_seq. lia.
Qed.

Lemma last_map {A B : Type} (f : A -> B) (xs : list A) (d : A) :
  last (map f xs) (f d) = f (last xs d).
Proof.
  induction xs as [|x [|x' xs] IH]; simpl in *; auto.
Qed.

Lemma last_app_one {A : Type} (xs : list A) (x d : A) :
  last (xs ++ [x]) d = x.
Proof.
  apply last_last.
Qed.

(* ================================================================== *)
(** ** The closure stage and the scaling *)
(* ================================================================== *)

Lemma append_first_if_open_cases (p0 : Point) (pts : list Point) :
  append_first_if_open p0 pts = pts /\ point_eqb p0 (last pts p0) = true
  \/ append_first_if_open p0 pts = pts ++ [p0]
     /\ point_eqb p0 (last pts p0) = false.
Proof.
  unfold append_first_if_open.
  destruct (point_eqb p0 (last pts p0)); simpl; auto.
Qed.

Lemma append_first_if_open_agree (p0 : Point) (pts : list Point) :
  same_point p0 (last (append_first_if_open p0 pts) p0) = true.
Proof.
  destruct (append_first_if_open_cases p0 pts) as [[-> H] | [-> _]].
  - now apply point_eqb_same_point.
  - rewrite last_app_one. apply same_point_refl.
Qed.

Lemma append_first_if_open_head (p0 : Point) (tail : list Point) :
  exists tail', append_first_if_open p0 (p0 :: tail) = p0 :: tail'.
Proof.
  destruct (append_first_if_open_cases p0 (p0 :: tail)) as [[-> _] | [-> _]].
  - eauto.
  - exists (tail ++ [p0]). reflexivity.
Qed.

Lemma append_first_if_open_length (p0 : Point) (pts : list Point) :
  (List.length pts <= List.length (append_first_if_open p0 pts))%nat.
Proof.
  destruct (append_first_if_open_cases p0 pts) as [[-> _] | [-> _]];
    rewrite ?length_app; simpl; lia.
Qed.

Lemma scale_points_length (s : float) (pts : list Point) :
  List.length (scale_points s pts) = List.length pts.
Proof. apply length_map. Qed.

Lemma same_point_scale (s : float) (p q : Point) :
  same_point p q = true ->
  same_point (fst p * s, snd p * s)%float (fst q * s, snd q * s)%float = true.
Proof.
  unfold same_point. rewrite !andb_true_iff. simpl.
  intros [H1 H2]. split; apply same_float_mul; assumption.
Qed.

(** The scaled list starts with the scaled first point, and its ends agree
    when the ends of the unscaled list do. *)
Lemma scale_points_ends (s : float) (p0 : Point) (tail : list Point) :
  same_point p0 (last (p0 :: tail) p0) = true ->
  exists q0 rest,
    scale_points s (p0 :: tail) = q0 :: rest
    /\ same_point q0 (last (scale_points s (p0 :: tail)) q0) = true.
Proof.
  intros H. exists (fst p0 * s, snd p0 * s)%float, (scale_points s tail).
  split; [reflexivity|].
  unfold scale_points.
  set (f := fun p : Point => (fst p * s, snd p * s)%float).
  change (same_point (f p0) (last (map f (p0 :: tail)) (f p0)) = true).
  rewrite last_map. now apply same_point_scale.
Qed.

(** What the closure stage of [load_dxf] returns. *)
Lemma classify_spec (e : DxfParser.Entity) (t : string) (p0 : Point)
    (tail : list Point) :
  let r := DxfParser.classify e t p0 (p0 :: tail) in
  (exists tail', snd r = p0 :: tail')
  /\ (List.length (p0 :: tail) <= List.length (snd r))%nat
  /\ (fst r = true -> same_point p0 (last (snd r) p0) = true).
Proof.
  unfold DxfParser.classify.
  pose proof (append_first_if_open_head p0 tail) as Hh.
  pose proof (append_first_if_open_length p0 (p0 :: tail)) as Hl.
  pose proof (append_first_if_open_agree p0 (p0 :: tail)) as Ha.
  assert (Hs : point_eqb p0 (last (p0 :: tail) p0) = true ->
               same_point p0 (last (p0 :: tail) p0) = true)
    by apply point_eqb_same_point.
  destruct (str_in t ["CIRCLE"; "ELLIPSE"]); [cbn [fst snd]; auto|].
  destruct (str_in t ["LWPOLYLINE"; "POLYLINE"]).
  { destruct (catch _ _); cbn [fst snd]; repeat split; eauto; discriminate. }
  destruct (t =? "SPLINE")%string.
  { destruct (catch _ _); cbn [fst snd]; repeat split; eauto; discriminate. }
  cbn [fst snd]. repeat split; eauto.
Qed.

(** What an iteration of the [load_dxf] loop that emits a record did. *)
Lemma load_dxf_entity_some (m : Libm) (scale tol : float)
    (e : DxfParser.Entity) (p : Path) :
  DxfParser.load_dxf_entity m scale tol e = Some p ->
  exists t p0 p1 rest,
    DxfParser.dxftype e = Ok t
    /\ DxfParser._flatten_entity m e tol = p0 :: p1 :: rest
    /\ closed p = fst (DxfParser.classify e t p0 (p0 :: p1 :: rest))
    /\ points p
       = scale_points scale
           (snd (DxfParser.classify e t p0 (p0 :: p1 :: rest))).
Proof.
  unfold DxfParser.load_dxf_entity.
  destruct (DxfParser.dxftype e) as [t|]; [|discriminate].
  destruct (DxfParser._flatten_entity m e tol) as [|p0 [|p1 rest]];
    try discriminate.
  destruct (DxfParser.classify e t p0 (p0 :: p1 :: rest)) as [c pts] eqn:E.
  intros H. injection H as <-. exists t, p0, p1, rest.
  rewrite E. simpl. auto.
Qed.

Lemma load_dxf_emitted (env : DxfParser.Env) (filename units : string)
    (p : Path) :
  In p (emitted (snd (DxfParser.load_dxf env filename units))) ->
  exists e,
    DxfParser.load_dxf_entity (DxfParser.libm env)
      (DxfParser._unit_scale_to_mm units)
      (0.25 / DxfParser._unit_scale_to_mm units) e = Some p.
Proof.
  unfold DxfParser.load_dxf.
  destruct (DxfParser.ezdxf env) as [lib|]; simpl; [|intros []].
  destruct (DxfParser.readfile lib filename) as [doc|]; simpl; [|intros []].
  destruct (DxfParser.modelspace doc) as [msp|]; simpl; [|intros []].
  destruct (failure msp); simpl; [intros []|].
  rewrite in_collect. intros (e & _ & H). eauto.
Qed.

(** What an iteration of the subpath loop of [load_svg] that emits a record
    did. *)
Lemma load_svg_subpath_some (lib : SvgParser.Svgpathtools) (tol_mm : float)
    (attrs : SvgParser.dict) (subpath_str : string) (p : Path) :
  SvgParser.load_svg_subpath lib tol_mm attrs subpath_str = Ok (Some p) ->
  exists path_obj p0 p1 rest,
    SvgParser.parse_path lib subpath_str = Ok (Some path_obj)
    /\ SvgParser._flatten_path_points true (Some path_obj) tol_mm
       = Ok (p0 :: p1 :: rest)
    /\ closed p
       = SvgParser.subpath_closed subpath_str path_obj p0 (p0 :: p1 :: rest)
    /\ points p
       = scale_points (SvgParser._unit_scale_to_mm (Some "px"))
           (if closed p then append_first_if_open p0 (p0 :: p1 :: rest)
            else p0 :: p1 :: rest).
Proof.
  unfold SvgParser.load_svg_subpath.
  destruct (is_empty (strip subpath_str)); [discriminate|].
  destruct (SvgParser.parse_path lib subpath_str) as [[path_obj|]|];
    try discriminate.
  destruct (SvgParser.path_len path_obj =? 0)%Z; [discriminate|].
  destruct (SvgParser._flatten_path_points true (Some path_obj) tol_mm)
    as [[|p0 [|p1 rest]]|] eqn:Ef; cbn [bind]; try discriminate.
  intros H. injection H as <-. exists path_obj, p0, p1, rest.
  cbn [points closed]. auto.
Qed.

(** The splitter, as the source has it: nothing for the empty string, an
    exception for every other. *)
Lemma split_path_by_moves_cases (d : string) :
  d = EmptyString /\ SvgParser._split_path_by_moves d = Ok []
  \/ d <> EmptyString /\ SvgParser._split_path_by_moves d = Raise ReError.
Proof.
  destruct d as [|c d]; [left | right]; split; try reflexivity. discriminate.
Qed.

(** One round of the element loop of [load_svg]: no record, or the
    exception of the splitter. *)
Lemma load_svg_element_cases (lib : SvgParser.Svgpathtools) (tol_mm : float)
    (path_attrs_str : string) :
  has_path_data path_attrs_str = false
  /\ SvgParser.load_svg_element lib tol_mm path_attrs_str = Ok []
  \/ has_path_data path_attrs_str = true
     /\ SvgParser.load_svg_element lib tol_mm path_attrs_str = Raise ReError.
Proof.
  unfold SvgParser.load_svg_element, has_path_data. cbv zeta.
  destruct (SvgParser.dict_get "d" (SvgParser.parse_attrs path_attrs_str))
    as [[|c d]|]; [left | right | left]; split; reflexivity.
Qed.

Lemma for_each_no_items {A B : Type} (f : A -> result (list B)) (xs : list A)
    (ps : list (list B)) :
  (forall x ys, f x = Ok ys -> ys = []) ->
  for_each f xs = Ok ps -> List.concat ps = [].
Proof.
  intros H. revert ps. induction xs as [|x xs IH]; simpl; intros ps E.
  - injection E as <-. reflexivity.
  - destruct (f x) as [ys|] eqn:Ex; simpl in E; [|discriminate].
    destruct (for_each f xs) as [ps'|]; simpl in E; [|discriminate].
    injection E as <-. simpl. rewrite (H _ _ Ex). now apply IH.
Qed.

(** [load_svg] never returns a record. *)
Lemma load_svg_emits_nothing (env : SvgParser.Env) (filepath : string) :
  emitted (snd (SvgParser.load_svg env filepath)) = [].
Proof.
  unfold SvgParser.load_svg.
  destruct (SvgParser.svgpathtools env) as [lib|]; simpl; [|reflexivity].
  destruct (SvgParser.read_text env filepath) as [content|]; simpl;
    [|reflexivity].
  destruct (for_each _ _) as [ps|] eqn:E; simpl; [|reflexivity].
  refine (for_each_no_items _ _ _ _ E).
  intros s ys Hs.
  destruct (load_svg_element_cases lib (SvgParser.tolerance env) s)
    as [(_ & H) | (_ & H)]; congruence.
Qed.

(* ================================================================== *)
(** ** Invariants of the emitted records *)
(* ================================================================== *)

(** C1, as amended.  On every record that [load_dxf] or [load_svg] emits
    with [closed = true], and on every such record that the subpath loop
    of [load_svg] builds, the last point agrees with the first one on
    both coordinates, where two coordinates agree when they are equal
    under [==] or are both NaN; so [points[0] == points[-1]] holds
    whenever the first point has no NaN coordinate. *)
Theorem closed_path_ends_agree :
  forall (denv : DxfParser.Env) (senv : SvgParser.Env)
         (filename units filepath : string) (p : Path),
    In p (emitted (snd (DxfParser.load_dxf denv filename units)))
    \/ In p (emitted (snd (SvgParser.load_svg senv filepath)))
    \/ (exists lib tol_mm attrs subpath_str,
           SvgParser.load_svg_subpath lib tol_mm attrs subpath_str
           = Ok (Some p)) ->
    closed p = true ->
    exists p0 rest,
      points p = p0 :: rest
      /\ same_point p0 (last (points p) p0) = true
      /\ (has_nan p0 = false -> point_eqb p0 (last (points p) p0) = true).
Proof.
  intros denv senv filename units filepath p Hin Hc.
  assert (H : exists p0 rest,
             points p = p0 :: rest
             /\ same_point p0 (last (points p) p0) = true).
  { destruct Hin as [Hin | [Hin | (lib & tol_mm & attrs & sub & Hs)]].
    - destruct (load_dxf_emitted _ _ _ _ Hin) as (e & He).
      destruct (load_dxf_entity_some _ _ _ _ _ He)
        as (t & p0 & p1 & rest & _ & _ & Hcl & Hpts).
      destruct (classify_spec e t p0 (p1 :: rest)) as ((tail' & Hs) & _ & Ha).
      rewrite Hpts, Hs. apply scale_points_ends.
      rewrite <- Hs. apply Ha. congruence.
    - rewrite load_svg_emits_nothing in Hin. destruct Hin.
    - destruct (load_svg_subpath_some _ _ _ _ _ Hs)
        as (po & p0 & p1 & rest & _ & _ & _ & Hpts).
      rewrite Hc in Hpts. rewrite Hpts.
      destruct (append_first_if_open_head p0 (p1 :: rest)) as (tail' & Hh).
      rewrite Hh. apply scale_points_ends. rewrite <- Hh.
      apply append_first_if_open_agree. }
  destruct H as (p0 & rest & Hp & Hs). exists p0, rest.
  repeat split; auto. intros Hn. now apply same_point_eqb.
Qed.

Lemma closed_path_ends_agree_witness :
  (exists p0 rest,
      points (Examples.first_path
                (DxfParser.load_dxf (Examples.dxf_env [Examples.circle10])
                   "circle.dxf" "mm")) = p0 :: rest
      /\ same_point p0
           (last (points (Examples.first_path
                            (DxfParser.load_dxf
                               (Examples.dxf_env [Examples.circle10])
                               "circle.dxf" "mm"))) p0) = true
      /\ (has_nan p0 = false ->
          point_eqb p0
            (last (points (Examples.first_path
                             (DxfParser.load_dxf
                                (Examples.dxf_env [Examples.circle10])
                                "circle.dxf" "mm"))) p0) = true))
  /\ exists p0 rest,
       points (Examples.subpath_record 0.05 "M20,0 L30,0 Z") = p0 :: rest
       /\ same_point p0
            (last (points (Examples.subpath_record 0.05 "M20,0 L30,0 Z")) p0)
          = true
       /\ (has_nan p0 = false ->
           point_eqb p0
             (last (points (Examples.subpath_record 0.05 "M20,0 L30,0 Z")) p0)
           = true).
Proof.
  split.
  - apply (closed_path_ends_agree (Examples.dxf_env [Examples.circle10])
             Examples.svg_env_unreadable "circle.dxf" "mm" "none.svg").
    + left. vm_compute. left. reflexivity.
    + vm_compute. reflexivity.
  - apply (closed_path_ends_agree (Examples.dxf_env [Examples.circle10])
             Examples.svg_env_unreadable "circle.dxf" "mm" "none.svg").
    + right. right.
      exists {| SvgParser.parse_path := Examples.parse_path_sample |},
             0.05%float, [], "M20,0 L30,0 Z".
      vm_compute. reflexivity.
    + vm_compute. reflexivity.
Defined.

(** C1 as stated fails: a CIRCLE whose flattening starts at a NaN
    coordinate (handed over by the adaptive flattening, or computed by the
    fallback for an infinite radius) is emitted closed, with the first
    point appended at the end, and [points[0] == points[-1]] is false. *)
Lemma closed_path_ends_not_equal :
  closed (Examples.first_path
            (DxfParser.load_dxf (Examples.dxf_env [Examples.circle_nan])
               "nan.dxf" "mm")) = true
  /\ points (Examples.first_path
               (DxfParser.load_dxf (Examples.dxf_env [Examples.circle_nan])
                  "nan.dxf" "mm"))
     = [(nan, 0); (1, 0); (nan, 0)]%float
  /\ closed (Examples.first_path
               (DxfParser.load_dxf
                  (Examples.dxf_env [Examples.circle_inf_radius])
                  "inf.dxf" "mm")) = true
  /\ Examples.first_point
       (Examples.first_path
          (DxfParser.load_dxf (Examples.dxf_env [Examples.circle_inf_radius])
             "inf.dxf" "mm"))
     = (infinity, nan)
  /\ Examples.last_point
       (Examples.first_path
          (DxfParser.load_dxf (Examples.dxf_env [Examples.circle_inf_radius])
             "inf.dxf" "mm"))
     = (infinity, nan)
  /\ point_eqb (infinity, nan) (infinity, nan) = false
  /\ point_eqb
       (Examples.first_point
          (Examples.first_path
             (DxfParser.load_dxf (Examples.dxf_env [Examples.circle_nan])
                "nan.dxf" "mm")))
       (Examples.last_point
          (Examples.first_path
             (DxfParser.load_dxf (Examples.dxf_env [Examples.circle_nan])
                "nan.dxf" "mm"))) = false.
Proof.
  repeat split; vm_compute; reflexivity.
Qed.

(** C2.  Every record that [load_dxf] or [load_svg] emits, and every
    record that the subpath loop of [load_svg] builds, has at least two
    points; an entity whose flattening has fewer than two points, and a
    subpath whose flattening has fewer than two points, give no record: the
    output of [load_dxf] is the output for the modelspace without those
    entities. *)
Theorem emitted_paths_have_two_points :
  forall (denv : DxfParser.Env) (senv : SvgParser.Env)
         (filename units filepath : string),
    (forall p,
        In p (emitted (snd (DxfParser.load_dxf denv filename units)))
        \/ In p (emitted (snd (SvgParser.load_svg senv filepath)))
        \/ (exists lib tol_mm attrs subpath_str,
               SvgParser.load_svg_subpath lib tol_mm attrs subpath_str
               = Ok (Some p)) ->
        (2 <= List.length (points p))%nat)
    /\ (forall scale tol e,
           (List.length (DxfParser._flatten_entity (DxfParser.libm denv) e tol)
            < 2)%nat ->
           DxfParser.load_dxf_entity (DxfParser.libm denv) scale tol e = None)
    /\ (forall lib doc msp,
           DxfParser.ezdxf denv = Some lib ->
           DxfParser.readfile lib filename = Ok doc ->
           DxfParser.modelspace doc = Ok (whole msp) ->
           let scale := DxfParser._unit_scale_to_mm units in
           let tol := (0.25 / scale)%float in
           snd (DxfParser.load_dxf denv filename units)
           = Ok (collect
                   (DxfParser.load_dxf_entity (DxfParser.libm denv) scale tol)
                   (filter
                      (fun e =>
                         (2 <=? List.length
                                  (DxfParser._flatten_entity
                                     (DxfParser.libm denv) e tol))%nat)
                      msp)))
    /\ (forall lib tol_mm attrs subpath_str path_obj pts,
           SvgParser.parse_path lib subpath_str = Ok (Some path_obj) ->
           SvgParser._flatten_path_points true (Some path_obj) tol_mm = Ok pts ->
           (List.length pts < 2)%nat ->
           SvgParser.load_svg_subpath lib tol_mm attrs subpath_str = Ok None).
Proof.
  intros denv senv filename units filepath.
  assert (Hdrop : forall scale tol e,
             (List.length
                (DxfParser._flatten_entity (DxfParser.libm denv) e tol)
              < 2)%nat ->
             DxfParser.load_dxf_entity (DxfParser.libm denv) scale tol e
             = None).
  { intros scale tol e H. unfold DxfParser.load_dxf_entity.
    destruct (DxfParser.dxftype e); [|reflexivity].
    destruct (DxfParser._flatten_entity _ e tol) as [|p0 [|p1 rest]];
      try reflexivity.
    simpl in H. lia. }
  split; [|split; [exact Hdrop|split]].
  - intros p [Hin | [Hin | (lib & tol_mm & attrs & sub & Hs)]].
    + destruct (load_dxf_emitted _ _ _ _ Hin) as (e & He).
      destruct (load_dxf_entity_some _ _ _ _ _ He)
        as (t & p0 & p1 & rest & _ & _ & _ & Hpts).
      destruct (classify_spec e t p0 (p1 :: rest)) as (_ & Hl & _).
      rewrite Hpts, scale_points_length. simpl in *. lia.
    + rewrite load_svg_emits_nothing in Hin. destruct Hin.
    + destruct (load_svg_subpath_some _ _ _ _ _ Hs)
        as (po & p0 & p1 & rest & _ & _ & _ & Hpts).
      rewrite Hpts, scale_points_length.
      destruct (closed p); [|simpl; lia].
      pose proof (append_first_if_open_length p0 (p0 :: p1 :: rest)) as Hl.
      simpl in *. lia.
  - intros lib doc msp Hlib Hdoc Hmsp scale tol.
    unfold DxfParser.load_dxf. rewrite Hlib. simpl. rewrite Hdoc. simpl.
    rewrite Hmsp. cbn [whole failure yielded]. f_equal. symmetry.
    apply collect_filter.
    intros e He. apply Hdrop.
    assert (Hlt : forall n : nat,
               match n with S (S _) => true | _ => false end = false ->
               (n < 2)%nat)
      by (intros [|[|n]]; [lia | lia | discriminate]).
    apply Hlt, He.
  - intros lib tol_mm attrs sub po pts Hp Hf Hlen.
    unfold SvgParser.load_svg_subpath. rewrite Hp, Hf.
    destruct (is_empty (strip sub)); [reflexivity|].
    destruct (SvgParser.path_len po =? 0)%Z; [reflexivity|].
    destruct pts as [|p0 [|p1 rest]]; try reflexivity. simpl in Hlen. lia.
Qed.

Lemma emitted_paths_have_two_points_witness :
  (2 <= List.length
          (points (Examples.first_path
                     (DxfParser.load_dxf
                        (Examples.dxf_env [Examples.arc_inf_angle;
                                           Examples.circle10])
                        "arc.dxf" "mm"))))%nat
  /\ (2 <= List.length (points (Examples.subpath_record 0.05 "M0,0 L10,0")))%nat
  /\ DxfParser.load_dxf_entity Examples.glibc 1 0.25 Examples.arc_inf_angle
     = None.
Proof.
  destruct (emitted_paths_have_two_points
              (Examples.dxf_env [Examples.arc_inf_angle; Examples.circle10])
              (Examples.svg_env Examples.svg_two_subpaths)
              "arc.dxf" "mm" "two.svg") as (H1 & H2 & _).
  split; [|split].
  - apply H1. left. vm_compute. left. reflexivity.
  - apply H1. right. right.
    exists {| SvgParser.parse_path := Examples.parse_path_sample |},
           0.05%float, [], "M0,0 L10,0".
    vm_compute. reflexivity.
  - apply H2. vm_compute. lia.
Defined.

(* ================================================================== *)
(** ** Unit conversion *)
(* ================================================================== *)

Lemma str_in_In (x : string) (xs : list string) :
  str_in x xs = true <-> In x xs.
Proof.
  unfold str_in. rewrite existsb_exists. split.
  - intros (y & Hy & E). apply String.eqb_eq in E. now subst.
  - intros H. exists x. split; [exact H | apply String.eqb_refl].
Qed.

Lemma str_in_not_In (x : string) (xs : list string) :
  str_in x xs = false <-> ~ In x xs.
Proof.
  rewrite <- str_in_In. destruct (str_in x xs); split; congruence.
Qed.

Lemma is_empty_true (s : string) : is_empty s = true -> s = EmptyString.
Proof. destruct s; [reflexivity | discriminate]. Qed.

(** C3, as amended.  Both converters are total.  The one of the SVG
    loader, after trimming white space and lower-casing the token, maps
    mm/millimeter(s) to 1.0, in/inch(es) to 25.4, cm/centimeter(s) to
    10.0, px/pixel(s) to 25.4/96 and every other or absent token to 1.0.
    The one of the DXF loader maps a token that, trimmed and lower-cased,
    starts with [in] to 25.4 and every other token to 1.0. *)
Theorem unit_scale_tables :
  forall unit : string,
    let t := lower (strip unit) in
    (In t ["mm"; "millimeter"; "millimeters"] ->
     SvgParser._unit_scale_to_mm (Some unit) = 1.0%float)
    /\ (In t ["inch"; "inches"; "in"] ->
        SvgParser._unit_scale_to_mm (Some unit) = 25.4%float)
    /\ (In t ["cm"; "centimeter"; "centimeters"] ->
        SvgParser._unit_scale_to_mm (Some unit) = 10.0%float)
    /\ (In t ["px"; "pixels"; "pixel"] ->
        SvgParser._unit_scale_to_mm (Some unit) = (25.4 / 96.0)%float)
    /\ (~ In t ["mm"; "millimeter"; "millimeters"; "inch"; "inches"; "in";
                "cm"; "centimeter"; "centimeters"; "px"; "pixels"; "pixel"] ->
        SvgParser._unit_scale_to_mm (Some unit) = 1.0%float)
    /\ SvgParser._unit_scale_to_mm None = 1.0%float
    /\ (startswith t "in" = true ->
        DxfParser._unit_scale_to_mm unit = 25.4%float)
    /\ (startswith t "in" = false ->
        DxfParser._unit_scale_to_mm unit = 1.0%float).
Proof.
  intros unit t.
  assert (Hkey : forall k v,
             t = k -> k <> EmptyString ->
             (let u := k in
              if str_in u ["mm"; "millimeter"; "millimeters"] then 1.0
              else if str_in u ["inch"; "inches"; "in"] then 25.4
              else if str_in u ["cm"; "centimeter"; "centimeters"] then 10.0
              else if str_in u ["px"; "pixels"; "pixel"] then 25.4 / 96.0
              else 1.0)%float = v ->
             SvgParser._unit_scale_to_mm (Some unit) = v).
  { intros k v Hk Hne Hv. unfold SvgParser._unit_scale_to_mm.
    destruct (is_empty unit) eqn:E.
    - apply is_empty_true in E. subst unit. subst t. simpl in Hk. congruence.
    - fold t. rewrite Hk. exact Hv. }
  repeat split.
  - intros [H | [H | [H | []]]]; symmetry in H;
      apply (Hkey _ _ H); first [discriminate | reflexivity].
  - intros [H | [H | [H | []]]]; symmetry in H;
      apply (Hkey _ _ H); first [discriminate | reflexivity].
  - intros [H | [H | [H | []]]]; symmetry in H;
      apply (Hkey _ _ H); first [discriminate | reflexivity].
  - intros [H | [H | [H | []]]]; symmetry in H;
      apply (Hkey _ _ H); first [discriminate | reflexivity].
  - intros H. unfold SvgParser._unit_scale_to_mm.
    destruct (is_empty unit); [reflexivity|]. fold t.
    destruct (str_in t ["mm"; "millimeter"; "millimeters"]) eqn:E1;
      [reflexivity|].
    destruct (str_in t ["inch"; "inches"; "in"]) eqn:E2.
    { exfalso. apply H. apply str_in_In in E2. simpl in *. tauto. }
    destruct (str_in t ["cm"; "centimeter"; "centimeters"]) eqn:E3.
    { exfalso. apply H. apply str_in_In in E3. simpl in *. tauto. }
    destruct (str_in t ["px"; "pixels"; "pixel"]) eqn:E4.
    { exfalso. apply H. apply str_in_In in E4. simpl in *. tauto. }
    reflexivity.
  - intros H. unfold DxfParser._unit_scale_to_mm.
    destruct (is_empty unit) eqn:E.
    + apply is_empty_true in E. subst unit. subst t. discriminate H.
    + fold t. now rewrite H.
  - intros H. unfold DxfParser._unit_scale_to_mm.
    destruct (is_empty unit); [reflexivity|]. fold t. now rewrite H.
Qed.

Lemma unit_scale_tables_witness :
  SvgParser._unit_scale_to_mm (Some " Inches ") = 25.4%float
  /\ SvgParser._unit_scale_to_mm (Some "CM") = 10.0%float
  /\ SvgParser._unit_scale_to_mm (Some "furlong") = 1.0%float
  /\ DxfParser._unit_scale_to_mm " Inches " = 25.4%float
  /\ DxfParser._unit_scale_to_mm "CM" = 1.0%float.
Proof.
  destruct (unit_scale_tables " Inches ") as (_ & Hi & _ & _ & _ & _ & Hd & _).
  destruct (unit_scale_tables "CM") as (_ & _ & Hc & _ & _ & _ & _ & Hd').
  destruct (unit_scale_tables "furlong") as (_ & _ & _ & _ & Ho & _).
  refine (conj _ (conj _ (conj _ (conj _ _)))).
  - apply Hi. vm_compute. tauto.
  - apply Hc. vm_compute. tauto.
  - apply Ho. vm_compute. intros H.
    repeat (destruct H as [H | H]; [discriminate H|]). exact H.
  - apply Hd. reflexivity.
  - apply Hd'. reflexivity.
Defined.

(** C3 as stated fails for the converter of the DXF loader: [cm] and [px]
    are taken for millimetres, and a token that merely starts with [in]
    counts as inches. *)
Lemma dxf_unit_scale_differs :
  DxfParser._unit_scale_to_mm "cm" = 1.0%float
  /\ SvgParser._unit_scale_to_mm (Some "cm") = 10.0%float
  /\ DxfParser._unit_scale_to_mm "px" = 1.0%float
  /\ SvgParser._unit_scale_to_mm (Some "px") = (25.4 / 96.0)%float
  /\ DxfParser._unit_scale_to_mm "inside" = 25.4%float
  /\ SvgParser._unit_scale_to_mm (Some "inside") = 1.0%float
  /\ (1.0 =? 10.0)%float = false
  /\ (1.0 =? 25.4 / 96.0)%float = false
  /\ (25.4 =? 1.0)%float = false.
Proof.
  repeat split; vm_compute; reflexivity.
Qed.

(* ================================================================== *)
(** ** The subpath splitter *)
(* ================================================================== *)

(** C8.  The splitter does not cut anything: its pattern does not
    compile, so that for every string but the empty one the call of
    [re.split] raises [re.error]; for the empty string the guard before
    the call returns the empty list.  The splitter therefore never
    returns a fragment; on the command string of two subpaths
    [M0,0 L10,0 M20,0 L30,0 Z] it raises. *)
Theorem split_path_by_moves_raises :
  (forall d : string,
      d <> EmptyString -> SvgParser._split_path_by_moves d = Raise ReError)
  /\ SvgParser._split_path_by_moves EmptyString = Ok []
  /\ (forall (d : string) (fragments : list string),
         SvgParser._split_path_by_moves d = Ok fragments -> fragments = [])
  /\ SvgParser._split_path_by_moves "M0,0 L10,0 M20,0 L30,0 Z"
     = Raise ReError.
Proof.
  split; [|split; [|split]].
  - intros d Hd.
    destruct (split_path_by_moves_cases d) as [(E & _) | (_ & H)];
      [contradiction | exact H].
  - reflexivity.
  - intros d fragments H.
    destruct (split_path_by_moves_cases d) as [(_ & E) | (_ & E)];
      congruence.
  - reflexivity.
Qed.

(* ================================================================== *)
(** ** Closure of SVG subpaths *)
(* ================================================================== *)






(* ================================================================== *)
(** ** Missing dependencies and unreadable documents *)
(* ================================================================== *)

(** [load_dxf] raises exactly when iterating the model space raises, and
    then with that exception. *)
Lemma load_dxf_raise (env : DxfParser.Env) (filename units : string)
    (e : exn) :
  snd (DxfParser.load_dxf env filename units) = Raise e
  <-> exists lib doc msp,
        DxfParser.ezdxf env = Some lib
        /\ DxfParser.readfile lib filename = Ok doc
        /\ DxfParser.modelspace doc = Ok msp
        /\ failure msp = Some e.
Proof.
  unfold DxfParser.load_dxf. split.
  - destruct (DxfParser.ezdxf env) as [lib|]; simpl; [|discriminate].
    destruct (DxfParser.readfile lib filename) as [doc|] eqn:Ed; simpl;
      [|discriminate].
    destruct (DxfParser.modelspace doc) as [msp|] eqn:Em; simpl;
      [|discriminate].
    destruct (failure msp) as [e'|] eqn:Ef; [|discriminate].
    intros [= <-]. exists lib, doc, msp. auto.
  - intros (lib & doc & msp & -> & Hd & Hm & Hf). simpl.
    rewrite Hd. simpl. now rewrite Hm, Hf.
Qed.

Lemma load_dxf_unreadable (env : DxfParser.Env) (lib : DxfParser.Ezdxf)
    (filename units : string) (e : exn) :
  DxfParser.ezdxf env = Some lib ->
  DxfParser.readfile lib filename = Raise e ->
  DxfParser.load_dxf env filename units = ([ReadDxf filename], Ok []).
Proof.
  intros Hl Hr. unfold DxfParser.load_dxf. now rewrite Hl, Hr.
Qed.

Lemma load_svg_unreadable (env : SvgParser.Env) (lib : SvgParser.Svgpathtools)
    (filepath : string) (e : exn) :
  SvgParser.svgpathtools env = Some lib ->
  SvgParser.read_text env filepath = Raise e ->
  SvgParser.load_svg env filepath = ([OpenText filepath], Ok []).
Proof.
  intros Hl Hr. unfold SvgParser.load_svg. now rewrite Hl, Hr.
Qed.

Lemma collect_app {A B : Type} (f : A -> option B) (xs ys : list A) :
  collect f (xs ++ ys) = collect f xs ++ collect f ys.
Proof.
  induction xs as [|x xs IH]; simpl; [reflexivity|].
  destruct (f x); simpl; now rewrite IH.
Qed.

(** An entity of a readable document that fails (unreadable type, no
    usable flattening) is skipped; the entities before and after it are
    processed as if it were not there. *)
Lemma load_dxf_skips_entity (env : DxfParser.Env) (lib : DxfParser.Ezdxf)
    (doc : DxfParser.Document) (before after : list DxfParser.Entity)
    (e : DxfParser.Entity) (filename units : string) :
  DxfParser.ezdxf env = Some lib ->
  DxfParser.readfile lib filename = Ok doc ->
  DxfParser.modelspace doc = Ok (whole (before ++ e :: after)) ->
  DxfParser.load_dxf_entity (DxfParser.libm env)
    (DxfParser._unit_scale_to_mm units)
    (0.25 / DxfParser._unit_scale_to_mm units) e = None ->
  snd (DxfParser.load_dxf env filename units)
  = Ok (collect
          (DxfParser.load_dxf_entity (DxfParser.libm env)
             (DxfParser._unit_scale_to_mm units)
             (0.25 / DxfParser._unit_scale_to_mm units))
          (before ++ after)).
Proof.
  intros Hl Hr Hm He. unfold DxfParser.load_dxf. rewrite Hl. simpl.
  rewrite Hr. simpl. rewrite Hm. cbn [whole failure yielded]. f_equal.
  rewrite !collect_app. simpl. now rewrite He.
Qed.

(** The element loop of [load_svg]: it ends with the exception of the
    splitter as soon as one element has path data, and without a record
    otherwise. *)
Lemma load_svg_elements (lib : SvgParser.Svgpathtools) (tol_mm : float)
    (path_matches : list string) :
  (ps <- for_each (SvgParser.load_svg_element lib tol_mm) path_matches ;;
   Ok (List.concat ps))
  = if existsb has_path_data path_matches then Raise ReError else Ok [].
Proof.
  induction path_matches as [|s xs IH]; [reflexivity|].
  cbn [for_each existsb].
  destruct (load_svg_element_cases lib tol_mm s) as [(-> & ->) | (-> & ->)];
    [|reflexivity].
  cbn [bind orb].
  destruct (for_each _ xs) as [ps|e]; cbn [bind] in *; [|exact IH].
  cbn [List.concat app]. exact IH.
Qed.

Lemma load_svg_result (env : SvgParser.Env) (lib : SvgParser.Svgpathtools)
    (filepath content : string) :
  SvgParser.svgpathtools env = Some lib ->
  SvgParser.read_text env filepath = Ok content ->
  SvgParser.load_svg env filepath
  = ([OpenText filepath],
     if existsb has_path_data (SvgParser.findall_path content)
     then Raise ReError else Ok []).
Proof.
  intros Hl Hr. unfold SvgParser.load_svg. rewrite Hl, Hr. cbv zeta.
  now rewrite load_svg_elements.
Qed.

(** C9.  Without ezdxf, [load_dxf] returns the empty sequence for every
    file name and unit token and asks for no file; without svgpathtools,
    [load_svg] does the same; so do the package-level functions, both when
    the parser module loaded without its dependency and when its import
    failed and the fallback definition stands in.  The result is the one of
    an unreadable document. *)
Theorem missing_dependency_returns_empty :
  forall (denv : DxfParser.Env) (senv : SvgParser.Env) (penv : Parsers.Env)
         (filename units filepath : string),
    (DxfParser._HAS_EZDXF denv = false ->
     DxfParser.load_dxf denv filename units = ([], Ok []))
    /\ (SvgParser._HAS_SVGTOOLS senv = false ->
        SvgParser.load_svg senv filepath = ([], Ok []))
    /\ (match Parsers.import_dxf_parser penv with
        | Ok m => DxfParser._HAS_EZDXF m = false
        | Raise _ => True
        end ->
        Parsers.load_dxf penv filename units = ([], Ok []))
    /\ (match Parsers.import_svg_parser penv with
        | Ok m => SvgParser._HAS_SVGTOOLS m = false
        | Raise _ => True
        end ->
        Parsers.load_svg penv filepath = ([], Ok []))
    /\ (forall denv' lib e,
           DxfParser._HAS_EZDXF denv = false ->
           DxfParser.ezdxf denv' = Some lib ->
           DxfParser.readfile lib filename = Raise e ->
           snd (DxfParser.load_dxf denv filename units)
           = snd (DxfParser.load_dxf denv' filename units))
    /\ (forall senv' lib e,
           SvgParser._HAS_SVGTOOLS senv = false ->
           SvgParser.svgpathtools senv' = Some lib ->
           SvgParser.read_text senv' filepath = Raise e ->
           snd (SvgParser.load_svg senv filepath)
           = snd (SvgParser.load_svg senv' filepath)).
Proof.
  intros denv senv penv filename units filepath.
  assert (Hd : forall env, DxfParser._HAS_EZDXF env = false ->
                           DxfParser.load_dxf env filename units = ([], Ok [])).
  { intros env. unfold DxfParser._HAS_EZDXF, DxfParser.load_dxf.
    destruct (DxfParser.ezdxf env); [discriminate | reflexivity]. }
  assert (Hs : forall env, SvgParser._HAS_SVGTOOLS env = false ->
                           SvgParser.load_svg env filepath = ([], Ok [])).
  { intros env. unfold SvgParser._HAS_SVGTOOLS, SvgParser.load_svg.
    destruct (SvgParser.svgpathtools env); [discriminate | reflexivity]. }
  refine (conj (Hd denv) (conj (Hs senv) (conj _ (conj _ (conj _ _))))).
  - unfold Parsers.load_dxf.
    destruct (Parsers.import_dxf_parser penv); [apply Hd | reflexivity].
  - unfold Parsers.load_svg.
    destruct (Parsers.import_svg_parser penv); [apply Hs | reflexivity].
  - intros denv' lib e H Hl Hr.
    rewrite (Hd denv H), (load_dxf_unreadable denv' lib _ _ e Hl Hr).
    reflexivity.
  - intros senv' lib e H Hl Hr.
    rewrite (Hs senv H), (load_svg_unreadable senv' lib _ e Hl Hr).
    reflexivity.
Qed.

Lemma missing_dependency_returns_empty_witness :
  DxfParser.load_dxf Examples.dxf_env_no_ezdxf "part.dxf" "mm" = ([], Ok [])
  /\ SvgParser.load_svg Examples.svg_env_no_svgpathtools "part.svg"
     = ([], Ok [])
  /\ Parsers.load_dxf Examples.pkg_without_dependencies "part.dxf" "mm"
     = ([], Ok [])
  /\ Parsers.load_svg Examples.pkg_import_failed "part.svg" = ([], Ok [])
  /\ snd (DxfParser.load_dxf Examples.dxf_env_no_ezdxf "part.dxf" "mm")
     = snd (DxfParser.load_dxf Examples.dxf_env_unreadable "part.dxf" "mm")
  /\ snd (SvgParser.load_svg Examples.svg_env_no_svgpathtools "part.svg")
     = snd (SvgParser.load_svg Examples.svg_env_unreadable "part.svg").
Proof.
  destruct (missing_dependency_returns_empty Examples.dxf_env_no_ezdxf
              Examples.svg_env_no_svgpathtools
              Examples.pkg_without_dependencies "part.dxf" "mm" "part.svg")
    as (H1 & H2 & H3 & _ & H5 & H6).
  destruct (missing_dependency_returns_empty Examples.dxf_env_no_ezdxf
              Examples.svg_env_no_svgpathtools
              Examples.pkg_import_failed "part.dxf" "mm" "part.svg")
    as (_ & _ & _ & H4 & _).
  refine (conj (H1 _) (conj (H2 _) (conj (H3 _) (conj (H4 _)
            (conj (H5 Examples.dxf_env_unreadable _ OSError _ _ _)
                  (H6 Examples.svg_env_unreadable _ OSError _ _ _))))));
    reflexivity.
Defined.

(* ================================================================== *)
(** ** Exceptions *)
(* ================================================================== *)

(** C4 fails on the code.  Both loaders let exceptions escape.  In
    [load_svg] the splitter is called outside every [try] and raises
    [re.error] for every path element whose [d] attribute is not empty,
    so that a document with such an element makes the whole load raise.
    In [load_dxf] the [for] loop over the model space is outside every
    [try], so that an exception raised while the layout is iterated
    escapes, and the records of the entities seen before are lost. *)
Theorem loader_exceptions_escape :
  (forall (env : SvgParser.Env) (lib : SvgParser.Svgpathtools)
          (filepath content : string),
      SvgParser.svgpathtools env = Some lib ->
      SvgParser.read_text env filepath = Ok content ->
      existsb has_path_data (SvgParser.findall_path content) = true ->
      SvgParser.load_svg env filepath = ([OpenText filepath], Raise ReError))
  /\ SvgParser.load_svg (Examples.svg_env Examples.svg_two_subpaths) "two.svg"
     = ([OpenText "two.svg"], Raise ReError)
  /\ (forall (env : DxfParser.Env) (lib : DxfParser.Ezdxf)
             (doc : DxfParser.Document) (msp : iteration DxfParser.Entity)
             (filename units : string) (e : exn),
         DxfParser.ezdxf env = Some lib ->
         DxfParser.readfile lib filename = Ok doc ->
         DxfParser.modelspace doc = Ok msp ->
         failure msp = Some e ->
         DxfParser.load_dxf env filename units
         = ([ReadDxf filename], Raise e))
  /\ DxfParser.load_dxf MoreExamples.dxf_env_files "torn.dxf" "mm"
     = ([ReadDxf "torn.dxf"], Raise DXFError)
  /\ exists p,
       DxfParser.load_dxf_entity Examples.glibc 1 0.25 MoreExamples.line10
       = Some p.
Proof.
  split; [|split; [|split; [|split]]].
  - intros env lib filepath content Hl Hr Hd.
    rewrite (load_svg_result env lib filepath content Hl Hr). now rewrite Hd.
  - vm_compute. reflexivity.
  - intros env lib doc msp filename units e Hl Hd Hm Hf.
    unfold DxfParser.load_dxf. rewrite Hl. simpl. rewrite Hd. simpl.
    now rewrite Hm, Hf.
  - vm_compute. reflexivity.
  - eexists. vm_compute. reflexivity.
Qed.

(* ================================================================== *)
(** ** The fallback flattening *)
(* ================================================================== *)

Lemma flatten_entity_fallback (m : Libm) (e : DxfParser.Entity) (tol : float) :
  no_adaptive_flattening e tol ->
  DxfParser._flatten_entity m e tol = DxfParser.flatten_fallback m e tol.
Proof.
  unfold no_adaptive_flattening, DxfParser._flatten_entity.
  destruct (failure (DxfParser.flattening e tol)) as [x|];
    destruct (yielded (DxfParser.flattening e tol));
    intros [H | H]; congruence.
Qed.


Lemma flatten_fallback_circle (m : Libm) (e : DxfParser.Entity) (tol : float) :
  DxfParser.dxftype e = Ok "CIRCLE" ->
  DxfParser.flatten_fallback m e tol = catch (DxfParser.flatten_circle m e) [].
Proof.
  intros H. unfold DxfParser.flatten_fallback. rewrite H. reflexivity.
Qed.

Lemma flatten_fallback_arc (m : Libm) (e : DxfParser.Entity) (tol : float) :
  DxfParser.dxftype e = Ok "ARC" ->
  DxfParser.flatten_fallback m e tol = catch (DxfParser.flatten_arc m e tol) [].
Proof.
  intros H. unfold DxfParser.flatten_fallback. rewrite H. reflexivity.
Qed.




Lemma is_finite_parts (x : float) :
  is_finite x = true -> is_nan x = false /\ is_infinity x = false.
Proof.
  unfold is_finite. rewrite negb_true_iff, orb_false_iff. tauto.
Qed.

Lemma math_1_finite (func : float -> float) (x : float) :
  is_finite (func x) = true -> math_1 func x = Ok (func x).
Proof.
  intros H. destruct (is_finite_parts _ H) as [Hn Hi].
  unfold math_1. now rewrite Hn, Hi.
Qed.

Lemma libm_finite_on_in (m : Libm) (xs : list float) (x : float) :
  libm_finite_on m xs = true -> In x xs ->
  math_cos m x = Ok (c_cos m x) /\ math_sin m x = Ok (c_sin m x).
Proof.
  unfold libm_finite_on. rewrite forallb_forall. intros H Hin.
  specialize (H x Hin). apply andb_true_iff in H. destruct H as [Hc Hs].
  split; apply math_1_finite; assumption.
Qed.

Lemma classify_circle (e : DxfParser.Entity) (p0 : Point) (pts : list Point) :
  DxfParser.classify e "CIRCLE" p0 pts = (true, append_first_if_open p0 pts).
Proof. reflexivity. Qed.

Lemma range_65 : range 65 = 0%Z :: 1%Z :: skipn 2 (range 65).
Proof. reflexivity. Qed.

Lemma range_65_last : last (range 65) 0%Z = 64%Z.
Proof. reflexivity. Qed.

(** The CIRCLE branch, when the C library is finite on the 65 angles. *)
Lemma flatten_circle_samples (m : Libm) (e : DxfParser.Entity)
    (c : DxfParser.Vec) (r : float) :
  DxfParser.dxf_center e = Ok c ->
  DxfParser.dxf_radius e = Ok r ->
  libm_finite_on m (map circle_angle (range 65)) = true ->
  DxfParser.flatten_circle m e = Ok (map (circle_sample m c r) (range 65)).
Proof.
  intros Hc Hr Hm. unfold DxfParser.flatten_circle. rewrite Hc, Hr.
  cbn [bind]. apply for_each_all. intros i Hi.
  destruct (libm_finite_on_in m _ (circle_angle i) Hm (in_map _ _ _ Hi))
    as [Hcos Hsin].
  fold (circle_angle i). rewrite Hcos, Hsin. reflexivity.
Qed.

Lemma libm_agree_on_in (m m' : Libm) (xs : list float) (x : float) :
  libm_agree_on m m' xs = true -> In x xs ->
  c_cos m x = c_cos m' x /\ c_sin m x = c_sin m' x.
Proof.
  unfold libm_agree_on. rewrite forallb_forall. intros H Hin.
  specialize (H x Hin). apply andb_true_iff in H. destruct H as [Hc Hs].
  split; now apply Leibniz.eqb_spec.
Qed.

Lemma circle_samples_agree (m m' : Libm) (c : DxfParser.Vec) (r : float) :
  libm_agree_on m m' (map circle_angle (range 65)) = true ->
  map (circle_sample m c r) (range 65) = map (circle_sample m' c r) (range 65).
Proof.
  intros H. apply map_ext_in. intros i Hi. unfold circle_sample.
  destruct (libm_agree_on_in m m' _ (circle_angle i) H (in_map _ _ _ Hi))
    as [-> ->].
  reflexivity.
Qed.

(** The ring of the circle of centre (0,0) and radius 10 with glibc's
    cosine and sine: 66 points, each within 1e-14 of distance 10. *)
Lemma glibc_ring_at_distance_10 :
  let samples := map (circle_sample Examples.glibc (Examples.vec 0 0) 10)
                     (range 65) in
  let ring := scale_points 1 (samples ++ [hd (0, 0)%float samples]) in
  point_eqb (circle_sample Examples.glibc (Examples.vec 0 0) 10 0)
            (circle_sample Examples.glibc (Examples.vec 0 0) 10 64) = false
  /\ List.length ring = 66%nat
  /\ forallb (fun pt => within 1e-14 (distance_from_origin pt) 10) ring = true.
Proof.
  repeat split; vm_compute; reflexivity.
Qed.

(** C5, as amended.  For a CIRCLE entity without adaptive flattening whose
    centre and radius are readable, on a C library that is finite at the
    sample angles, the fallback produces exactly 65 points: sample [i],
    [i = 0..64], is centre + radius * (cos, sin) at the angle
    [2*pi*i/64], so the 64 uniform steps include both ends of the
    revolution.  The record emitted has [closed = true]; its points are
    the scaled samples, 65 of them when the last sample equals the first
    under [==], and otherwise 66, a copy of the first sample closing the
    ring.  For the circle of centre (0,0) and radius 10 in millimetres,
    on a C library that returns glibc's cosines and sines at the sample
    angles, the record has 66 points and the distance of every point
    from the centre, [sqrt(x*x + y*y)], is within 1e-14 of 10. *)
Theorem circle_fallback_samples :
  forall (m : Libm) (e : DxfParser.Entity) (tol scale : float)
         (c : DxfParser.Vec) (r : float),
    DxfParser.dxftype e = Ok "CIRCLE" ->
    no_adaptive_flattening e tol ->
    DxfParser.dxf_center e = Ok c ->
    DxfParser.dxf_radius e = Ok r ->
    libm_finite_on m (map circle_angle (range 65)) = true ->
    let samples := map (circle_sample m c r) (range 65) in
    let first := circle_sample m c r 0 in
    let final := circle_sample m c r 64 in
    DxfParser._flatten_entity m e tol = samples
    /\ List.length samples = 65%nat
    /\ exists p,
         DxfParser.load_dxf_entity m scale tol e = Some p
         /\ closed p = true
         /\ points p
            = scale_points scale
                (if point_eqb first final then samples else samples ++ [first])
         /\ List.length (points p)
            = (if point_eqb first final then 65 else 66)%nat
         /\ (c = Examples.vec 0 0 -> r = 10%float -> scale = 1%float ->
             libm_agree_on m Examples.glibc (map circle_angle (range 65))
             = true ->
             List.length (points p) = 66%nat
             /\ Forall (fun pt => within 1e-14 (distance_from_origin pt) 10
                                  = true)
                       (points p)).
Proof.
  intros m e tol scale c r Ht Hf Hc Hr Hm samples first final.
  assert (Hfl : DxfParser._flatten_entity m e tol = samples).
  { rewrite (flatten_entity_fallback m e tol Hf).
    rewrite (flatten_fallback_circle m e tol Ht).
    now rewrite (flatten_circle_samples m e c r Hc Hr Hm). }
  assert (Hlen : List.length samples = 65%nat)
    by (unfold samples; rewrite length_map; reflexivity).
  assert (Hshape : samples
                   = first :: circle_sample m c r 1
                     :: map (circle_sample m c r) (skipn 2 (range 65))).
  { unfold samples. rewrite range_65 at 1. reflexivity. }
  assert (Hlast : last samples first = final).
  { unfold samples, first. rewrite last_map, range_65_last. reflexivity. }
  split; [exact Hfl|]. split; [exact Hlen|].
  unfold DxfParser.load_dxf_entity. rewrite Ht, Hfl, Hshape.
  rewrite classify_circle. rewrite <- Hshape.
  eexists. split; [reflexivity|]. cbn [closed points].
  unfold append_first_if_open. rewrite Hlast.
  assert (Hten : c = Examples.vec 0 0 -> r = 10%float ->
                 libm_agree_on m Examples.glibc (map circle_angle (range 65))
                 = true ->
                 point_eqb first final = false
                 /\ List.length (scale_points 1 (samples ++ [first])) = 66%nat
                 /\ Forall (fun pt => within 1e-14 (distance_from_origin pt) 10
                                      = true)
                           (scale_points 1 (samples ++ [first]))).
  { intros Ec Er Hg.
    pose proof glibc_ring_at_distance_10 as Hring. cbv zeta in Hring.
    destruct Hring as (Hne & Hl & Hd).
    assert (Hs : samples
                 = map (circle_sample Examples.glibc (Examples.vec 0 0) 10)
                       (range 65))
      by (unfold samples; rewrite Ec, Er; apply circle_samples_agree, Hg).
    assert (H0 : first = circle_sample Examples.glibc (Examples.vec 0 0) 10 0).
    { unfold first, circle_sample. rewrite Ec, Er.
      destruct (libm_agree_on_in m Examples.glibc _ (circle_angle 0) Hg)
        as [-> ->]; [|reflexivity].
      apply in_map, in_range. lia. }
    assert (H64 : final
                  = circle_sample Examples.glibc (Examples.vec 0 0) 10 64).
    { unfold final, circle_sample. rewrite Ec, Er.
      destruct (libm_agree_on_in m Examples.glibc _ (circle_angle 64) Hg)
        as [-> ->]; [|reflexivity].
      apply in_map, in_range. lia. }
    rewrite H0, H64, Hs.
    change (circle_sample Examples.glibc (Examples.vec 0 0) 10 0)
      with (hd (0, 0)%float
               (map (circle_sample Examples.glibc (Examples.vec 0 0) 10)
                    (range 65))) at 2 3.
    split; [exact Hne|]. split; [exact Hl|].
    apply Forall_forall. rewrite forallb_forall in Hd. exact Hd. }
  destruct (point_eqb first final) eqn:Epe; cbn [negb].
  - split; [reflexivity|]. split; [reflexivity|]. split.
    + now rewrite scale_points_length.
    + intros Ec Er _ Hg. destruct (Hten Ec Er Hg) as (Hne & _). discriminate.
  - split; [reflexivity|]. split; [reflexivity|]. split.
    + rewrite scale_points_length, length_app, Hlen. reflexivity.
    + intros Ec Er -> Hg. destruct (Hten Ec Er Hg) as (_ & Hl & Hd). auto.
Qed.

Lemma circle_fallback_samples_witness :
  DxfParser._flatten_entity Examples.glibc Examples.circle10 0.25
  = map (circle_sample Examples.glibc (Examples.vec 0 0) 10) (range 65)
  /\ List.length (map (circle_sample Examples.glibc (Examples.vec 0 0) 10)
                      (range 65)) = 65%nat
  /\ exists p,
       DxfParser.load_dxf_entity Examples.glibc 1 0.25 Examples.circle10
       = Some p
       /\ closed p = true
       /\ List.length (points p) = 66%nat
       /\ Forall (fun pt => within 1e-14 (distance_from_origin pt) 10 = true)
                 (points p).
Proof.
  pose proof (circle_fallback_samples Examples.glibc Examples.circle10 0.25 1
                (Examples.vec 0 0) 10 eq_refl) as H.
  cbv zeta in H.
  assert (Hf : no_adaptive_flattening Examples.circle10 0.25)
    by (left; discriminate).
  assert (Hm : libm_finite_on Examples.glibc (map circle_angle (range 65))
               = true) by (vm_compute; reflexivity).
  destruct (H Hf eq_refl eq_refl Hm) as (H1 & H2 & p & H3 & H4 & _ & _ & H7).
  refine (conj H1 (conj H2 _)). exists p.
  refine (conj H3 (conj H4 _)).
  apply H7; vm_compute; reflexivity.
Defined.

(** C5 as stated fails: the fallback produces 65 samples, not 64, and on
    the circle of centre (0,0) and radius 10 the last sample,
    (10, 10 * sin(2*pi)), differs from the first, (10, 0), so the record
    has 66 points. *)
Lemma circle_fallback_has_65_samples :
  List.length (DxfParser._flatten_entity Examples.glibc Examples.circle10 0.25)
  = 65%nat
  /\ map (fun p => (closed p, List.length (points p)))
         (emitted (snd (DxfParser.load_dxf
                          (Examples.dxf_env [Examples.circle10])
                          "circle.dxf" "mm")))
     = [(true, 66%nat)]
  /\ hd_error (DxfParser._flatten_entity Examples.glibc Examples.circle10 0.25)
     = Some (10, 0)%float
  /\ last (DxfParser._flatten_entity Examples.glibc Examples.circle10 0.25)
          (0, 0)%float
     = (10, -2.4492935982947065e-15)%float.
Proof.
  repeat split; vm_compute; reflexivity.
Qed.

(* ================================================================== *)
(** ** Arcs of zero sweep *)
(* ================================================================== *)

Section ZeroSweep.

#[local] Open Scope float_scope.

Lemma is_finite_cases (x : float) :
  is_finite x = true ->
  (exists s, Prim2SF x = S754_zero s)
  \/ (exists s m e, Prim2SF x = S754_finite s m e).
Proof.
  intros H. destruct (is_finite_parts x H) as [Hn Hi].
  destruct (Prim2SF x) as [s|s| |s m e] eqn:E; eauto.
  - exfalso. unfold is_infinity in Hi.
    rewrite eqb_spec, abs_spec, E in Hi. discriminate Hi.
  - exfalso. apply is_nan_Prim2SF in E. congruence.
Qed.

Lemma eqb_ltb_false (x y : float) : (x =? y) = true -> (x <? y) = false.
Proof.
  rewrite eqb_spec, ltb_spec. unfold SFeqb, SFltb.
  destruct (SFcompare (Prim2SF x) (Prim2SF y)) as [[]|]; congruence.
Qed.

Lemma zero_of_Prim2SF (x : float) (s : bool) :
  Prim2SF x = S754_zero s -> is_a_zero x.
Proof.
  intros H. rewrite <- (SF2Prim_Prim2SF x), H.
  destruct s; [right | left]; reflexivity.
Qed.

Lemma sub_self_finite (s : bool) (m : positive) (e : Z) :
  SF64sub (S754_finite s m e) (S754_finite s m e) = S754_zero false.
Proof.
  unfold SF64sub, SFsub. rewrite Z.min_id. unfold shl_align.
  rewrite Z.sub_diag. reflexivity.
Qed.

(** Equal finite angles have a zero sweep. *)
Lemma sub_equal_is_zero (a1 a2 : float) :
  (a2 =? a1) = true -> is_finite a1 = true -> is_a_zero (a2 - a1).
Proof.
  intros He Hf.
  destruct (eqb_cases _ _ He) as [-> | (s2 & s1 & H2 & H1)].
  - destruct (is_finite_cases a1 Hf) as [(s & E) | (s & m & e & E)].
    + apply (zero_of_Prim2SF _ false). rewrite sub_spec, E.
      destruct s; reflexivity.
    + apply (zero_of_Prim2SF _ false). rewrite sub_spec, E.
      apply sub_self_finite.
  - apply (zero_of_Prim2SF _ (if s2 then negb s1 else false)).
    rewrite sub_spec, H2, H1. destruct s2, s1; reflexivity.
Qed.

Lemma add_zero_eqb (a sw : float) :
  is_finite a = true -> is_a_zero sw -> (a + sw =? a) = true.
Proof.
  intros Hf Hz. rewrite eqb_spec, add_spec.
  assert (Hsw : exists s, Prim2SF sw = S754_zero s)
    by (destruct Hz as [-> | ->]; eexists; reflexivity).
  destruct Hsw as (s & ->).
  destruct (is_finite_cases a Hf) as [(s' & ->) | (s' & m & e & ->)].
  - destruct s', s; reflexivity.
  - change (SF64add (S754_finite s' m e) (S754_zero s))
      with (S754_finite s' m e).
    unfold SFeqb. rewrite SFcompare_refl by discriminate. reflexivity.
Qed.

(** A zero sweep gives the minimum of 12 steps. *)
Lemma zero_sweep_steps (sw tol : float) :
  is_a_zero sw -> is_nan tol = false ->
  int_of_float (sw / max_float tol 1e-4) = Ok 0%Z.
Proof.
  intros Hz Hn. unfold max_float.
  destruct (tol <? 1e-4) eqn:El.
  - destruct Hz as [-> | ->]; reflexivity.
  - assert (Hsw : exists s, Prim2SF sw = S754_zero s)
      by (destruct Hz as [-> | ->]; eexists; reflexivity).
    destruct Hsw as (s & Hsw).
    unfold int_of_float. rewrite div_spec, Hsw.
    rewrite ltb_spec in El.
    destruct (Prim2SF tol) as [st|st| |st mt et] eqn:Et.
    + discriminate El.
    + reflexivity.
    + apply is_nan_Prim2SF in Et. congruence.
    + reflexivity.
Qed.

(** Every step of a zero sweep adds the same zero to the start angle. *)
Lemma zero_sweep_step (sw : float) (i : Z) :
  is_a_zero sw -> In i (range 13) ->
  sw * float_of_int i / float_of_int 12 = sw.
Proof.
  intros Hz Hi.
  assert (H : forallb (fun i => Leibniz.eqb
                                  (sw * float_of_int i / float_of_int 12) sw)
                      (range 13) = true)
    by (destruct Hz as [-> | ->]; vm_compute; reflexivity).
  rewrite forallb_forall in H. apply Leibniz.eqb_spec. exact (H i Hi).
Qed.

Lemma point_eqb_self (p : Point) : point_eqb p p = negb (has_nan p).
Proof.
  unfold point_eqb, has_nan, is_nan. now rewrite negb_orb, !negb_involutive.
Qed.

Lemma last_repeat {A : Type} (x : A) (n : nat) : last (repeat x n) x = x.
Proof.
  induction n as [|[|n] IH]; simpl in *; auto.
Qed.

Lemma map_const {A B : Type} (y : B) (xs : list A) :
  map (fun _ => y) xs = repeat y (List.length xs).
Proof.
  induction xs; simpl; congruence.
Qed.

End ZeroSweep.

Lemma classify_arc (e : DxfParser.Entity) (p0 : Point) (pts : list Point) :
  DxfParser.classify e "ARC" p0 pts = (point_eqb p0 (last pts p0), pts).
Proof. reflexivity. Qed.

(** C10, as amended.  For an ARC entity without adaptive flattening whose
    centre, radius and angles are readable, whose end angle equals its
    start angle under [==] and is finite, flattened with a tolerance that
    is not NaN (as [load_dxf] always passes) where [math.cos] and
    [math.sin] return at that angle: the sweep is zero, the fallback makes
    12 steps and produces 13 identical points, all at the start angle; the
    entity is not dropped; and the record is emitted with [closed = true]
    exactly when the point has no NaN coordinate. *)
Theorem zero_sweep_arc :
  forall (m : Libm) (e : DxfParser.Entity) (tol scale : float)
         (c : DxfParser.Vec) (r a1 a2 co si : float),
    DxfParser.dxftype e = Ok "ARC" ->
    no_adaptive_flattening e tol ->
    DxfParser.dxf_center e = Ok c ->
    DxfParser.dxf_radius e = Ok r ->
    DxfParser.dxf_start_angle e = Ok a1 ->
    DxfParser.dxf_end_angle e = Ok a2 ->
    (a2 =? a1)%float = true ->
    is_finite a1 = true ->
    is_nan tol = false ->
    math_cos m (radians (a1 + (a2 - a1))) = Ok co ->
    math_sin m (radians (a1 + (a2 - a1))) = Ok si ->
    let P := (DxfParser.vx c + r * co, DxfParser.vy c + r * si)%float in
    (a1 + (a2 - a1) =? a1)%float = true
    /\ DxfParser._flatten_entity m e tol = repeat P 13
    /\ exists p,
         DxfParser.load_dxf_entity m scale tol e = Some p
         /\ points p = scale_points scale (repeat P 13)
         /\ closed p = negb (has_nan P).
Proof.
  intros m e tol scale c r a1 a2 co si Ht Hf Hc Hr H1 H2 Heq Hfin Hn
         Hcos Hsin P.
  pose proof (sub_equal_is_zero a1 a2 Heq Hfin) as Hz.
  assert (Harc : DxfParser.flatten_arc m e tol = Ok (repeat P 13)).
  { unfold DxfParser.flatten_arc. rewrite Hc, Hr, H1, H2. cbn [bind].
    rewrite (eqb_ltb_false _ _ Heq).
    rewrite (zero_sweep_steps _ tol Hz Hn). cbn [bind].
    change (Z.max 12 0) with 12%Z. change (12 + 1)%Z with 13%Z.
    rewrite (for_each_all _ (fun _ => P)).
    - rewrite map_const, range_length. reflexivity.
    - intros i Hi. rewrite (zero_sweep_step _ i Hz Hi).
      rewrite Hcos, Hsin. reflexivity. }
  assert (Hfl : DxfParser._flatten_entity m e tol = repeat P 13).
  { rewrite (flatten_entity_fallback m e tol Hf).
    rewrite (flatten_fallback_arc m e tol Ht). now rewrite Harc. }
  split; [now apply add_zero_eqb|]. split; [exact Hfl|].
  unfold DxfParser.load_dxf_entity. rewrite Ht, Hfl.
  change (repeat P 13) with (P :: P :: repeat P 11). cbv beta iota.
  rewrite classify_arc.
  change (P :: P :: repeat P 11) with (repeat P 13).
  eexists. split; [reflexivity|]. cbn [closed points].
  split; [reflexivity|]. rewrite last_repeat. apply point_eqb_self.
Qed.

(** The tolerance [load_dxf] passes is never NaN. *)
Lemma dxf_tolerance_not_nan (units : string) :
  is_nan (0.25 / DxfParser._unit_scale_to_mm units)%float = false.
Proof.
  unfold DxfParser._unit_scale_to_mm.
  destruct (is_empty units); [reflexivity|].
  destruct (startswith _ _); reflexivity.
Qed.

Lemma zero_sweep_arc_witness :
  (30 + (30 - 30) =? 30)%float = true
  /\ DxfParser._flatten_entity Examples.glibc Examples.arc30 0.25
     = repeat
         (DxfParser.vx (Examples.vec 0 0)
          + 5 * c_cos Examples.glibc (radians (30 + (30 - 30))),
          DxfParser.vy (Examples.vec 0 0)
          + 5 * c_sin Examples.glibc (radians (30 + (30 - 30))))%float
         13
  /\ exists p,
       DxfParser.load_dxf_entity Examples.glibc 1 0.25 Examples.arc30 = Some p
       /\ points p
          = scale_points 1
              (repeat
                 (DxfParser.vx (Examples.vec 0 0)
                  + 5 * c_cos Examples.glibc (radians (30 + (30 - 30))),
                  DxfParser.vy (Examples.vec 0 0)
                  + 5 * c_sin Examples.glibc (radians (30 + (30 - 30))))%float
                 13)
       /\ closed p
          = negb (has_nan
                    (DxfParser.vx (Examples.vec 0 0)
                     + 5 * c_cos Examples.glibc (radians (30 + (30 - 30))),
                     DxfParser.vy (Examples.vec 0 0)
                     + 5 * c_sin Examples.glibc (radians (30 + (30 - 30))))%float).
Proof.
  apply (zero_sweep_arc Examples.glibc Examples.arc30 0.25 1
           (Examples.vec 0 0) 5 30 30).
  - reflexivity.
  - left. discriminate.
  - reflexivity.
  - reflexivity.
  - reflexivity.
  - reflexivity.
  - vm_compute. reflexivity.
  - vm_compute. reflexivity.
  - vm_compute. reflexivity.
  - vm_compute. reflexivity.
  - vm_compute. reflexivity.
Defined.

(** C10 as stated fails outside the finite values: an ARC whose equal
    start and end angles are infinite has a NaN sweep and is dropped, and
    an ARC of infinite radius at 0 degrees gives 13 points (inf, nan) that
    do not compare equal, so it is emitted with [closed = false]. *)
Lemma zero_sweep_arc_not_finite :
  (infinity =? infinity)%float = true
  /\ DxfParser._flatten_entity Examples.glibc Examples.arc_inf_angle 0.25 = []
  /\ emitted (snd (DxfParser.load_dxf
                     (Examples.dxf_env [Examples.arc_inf_angle])
                     "arc.dxf" "mm")) = []
  /\ map (fun p => (List.length (points p), closed p))
         (emitted (snd (DxfParser.load_dxf
                          (Examples.dxf_env [Examples.arc_inf_radius])
                          "arc.dxf" "mm")))
     = [(13%nat, false)].
Proof.
  repeat split; vm_compute; reflexivity.
Qed.

(* ================================================================== *)
(** ** Further properties of dxf_parser.py *)
(* ================================================================== *)

Lemma for_each_length {A B : Type} (f : A -> result B) (xs : list A)
    (ys : list B) :
  for_each f xs = Ok ys -> List.length ys = List.length xs.
Proof.
  revert ys. induction xs as [|x xs IH]; simpl; intros ys H.
  - now injection H as <-.
  - destruct (f x); simpl in H; [|discriminate].
    destruct (for_each f xs) eqn:E; simpl in H; [|discriminate].
    injection H as <-. simpl. f_equal. now apply IH.
Qed.

(** X1.  [load_dxf] lets one kind of exception escape: the one raised while
    the model space is iterated, the [for] loop being outside every
    [try].  A failure of [ezdxf.readfile], of [doc.modelspace()] or of
    an entity is contained: the first two give the empty list.  Without
    ezdxf the loader returns the empty list and asks for no file;
    otherwise it asks for the named file once. *)
Theorem load_dxf_raises_only_on_iteration :
  forall (env : DxfParser.Env) (filename units : string),
    (DxfParser.ezdxf env = None ->
     DxfParser.load_dxf env filename units = ([], Ok []))
    /\ (forall lib,
           DxfParser.ezdxf env = Some lib ->
           fst (DxfParser.load_dxf env filename units) = [ReadDxf filename])
    /\ (forall e,
           snd (DxfParser.load_dxf env filename units) = Raise e
           <-> exists lib doc msp,
                 DxfParser.ezdxf env = Some lib
                 /\ DxfParser.readfile lib filename = Ok doc
                 /\ DxfParser.modelspace doc = Ok msp
                 /\ failure msp = Some e)
    /\ (forall lib err,
           DxfParser.ezdxf env = Some lib ->
           DxfParser.readfile lib filename = Raise err
           \/ (exists doc, DxfParser.readfile lib filename = Ok doc
                           /\ DxfParser.modelspace doc = Raise err) ->
           snd (DxfParser.load_dxf env filename units) = Ok []).
Proof.
  intros env filename units. split; [|split; [|split]].
  - intros H. unfold DxfParser.load_dxf. now rewrite H.
  - intros lib H. unfold DxfParser.load_dxf. now rewrite H.
  - intros e. apply load_dxf_raise.
  - intros lib err Hl H. unfold DxfParser.load_dxf. rewrite Hl. cbn [snd].
    destruct H as [-> | (doc & -> & Hm)]; [reflexivity|].
    cbn [bind]. now rewrite Hm.
Qed.

(** X2.  Entities are processed one by one and in order: the records of a
    document whose modelspace is the concatenation of two others are the
    records of the first followed by the records of the second, and a
    document gives at most one record per entity. *)
Theorem load_dxf_concatenation :
  forall (env : DxfParser.Env) (lib : DxfParser.Ezdxf)
         (f1 f2 f12 units : string) (d1 d2 d12 : DxfParser.Document)
         (msp1 msp2 : list DxfParser.Entity),
    DxfParser.ezdxf env = Some lib ->
    DxfParser.readfile lib f1 = Ok d1 ->
    DxfParser.modelspace d1 = Ok (whole msp1) ->
    DxfParser.readfile lib f2 = Ok d2 ->
    DxfParser.modelspace d2 = Ok (whole msp2) ->
    DxfParser.readfile lib f12 = Ok d12 ->
    DxfParser.modelspace d12 = Ok (whole (msp1 ++ msp2)) ->
    emitted (snd (DxfParser.load_dxf env f12 units))
    = emitted (snd (DxfParser.load_dxf env f1 units))
      ++ emitted (snd (DxfParser.load_dxf env f2 units))
    /\ (List.length (emitted (snd (DxfParser.load_dxf env f12 units)))
        <= List.length (msp1 ++ msp2))%nat.
Proof.
  intros env lib f1 f2 f12 units d1 d2 d12 msp1 msp2 Hl H1 M1 H2 M2 H12 M12.
  unfold DxfParser.load_dxf. rewrite Hl. cbn [snd bind].
  rewrite H1, H2, H12. cbn [bind]. rewrite M1, M2, M12.
  cbn [whole failure yielded emitted].
  split; [apply collect_app | apply collect_length].
Qed.

Lemma load_dxf_concatenation_witness :
  emitted (snd (DxfParser.load_dxf MoreExamples.dxf_env_files "ab.dxf" "in"))
  = emitted (snd (DxfParser.load_dxf MoreExamples.dxf_env_files "a.dxf" "in"))
    ++ emitted (snd (DxfParser.load_dxf MoreExamples.dxf_env_files
                       "b.dxf" "in"))
  /\ (List.length
        (emitted (snd (DxfParser.load_dxf MoreExamples.dxf_env_files
                         "ab.dxf" "in")))
      <= List.length
           ([MoreExamples.line10]
            ++ [MoreExamples.polyline_partial; Examples.arc_inf_angle]))%nat.
Proof.
  eapply (load_dxf_concatenation MoreExamples.dxf_env_files _
            "a.dxf" "b.dxf" "ab.dxf" "in"); reflexivity.
Defined.

Lemma land_1_odd (flags : Z) :
  negb (Z.land flags 1 =? 0)%Z = Z.odd flags.
Proof.
  change 1%Z with (Z.ones 1). rewrite Z.land_ones by lia.
  change (2 ^ 1)%Z with 2%Z. rewrite Zmod_odd.
  destruct (Z.odd flags); reflexivity.
Qed.

(** X3.  The closure rules of [load_dxf], by entity type, for an entity
    whose first flattened point holds no NaN (the comparison of the two
    end points is then the same whether or not their coordinates are one
    object).  A CIRCLE or ELLIPSE is always closed.  A polyline is closed
    exactly when bit 0 of its flags is set, and a SPLINE when its
    [closed] attribute says so, whatever the geometry; only when that
    datum is unreadable does the equality of first and last point decide.
    Every other type is closed exactly when its first and last point are
    equal.  A record closed by its type or its datum gets a copy of the
    first point appended when the ends differ; a record of the other
    types is never extended. *)
Theorem dxf_closure_rules :
  forall (m : Libm) (scale tol : float) (e : DxfParser.Entity) (p : Path)
         (p0 : Point) (rest : list Point),
    DxfParser.load_dxf_entity m scale tol e = Some p ->
    DxfParser._flatten_entity m e tol = p0 :: rest ->
    has_nan p0 = false ->
    exists t,
      DxfParser.dxftype e = Ok t
      /\ let pts := p0 :: rest in
         let same := point_eqb p0 (last pts p0) in
         let ring := if same then pts else pts ++ [p0] in
         (str_in t ring_types = true ->
          closed p = true /\ points p = scale_points scale ring)
         /\ (str_in t polyline_types = true ->
             (forall flags, DxfParser.dxf_flags e = Ok flags ->
                            closed p = Z.odd flags)
             /\ (forall err, DxfParser.dxf_flags e = Raise err ->
                             closed p = same)
             /\ points p = scale_points scale (if closed p then ring else pts))
         /\ (t = "SPLINE" ->
             (forall b, DxfParser.closed_attr e = Ok b -> closed p = b)
             /\ (forall err, DxfParser.closed_attr e = Raise err ->
                             closed p = same)
             /\ points p = scale_points scale (if closed p then ring else pts))
         /\ (str_in t (ring_types ++ polyline_types ++ ["SPLINE"]) = false ->
             closed p = same /\ points p = scale_points scale pts).
Proof.
  intros m scale tol e p q0 qs H Hq _.
  destruct (load_dxf_entity_some _ _ _ _ _ H)
    as (t & p0 & p1 & rest & Ht & Hf & Hc & Hp).
  rewrite Hf in Hq. injection Hq as <- <-.
  exists t. split; [exact Ht|].
  cbv zeta. set (pts := p0 :: p1 :: rest) in *.
  set (same := point_eqb p0 (last pts p0)).
  assert (Hring : append_first_if_open p0 pts
                  = if same then pts else pts ++ [p0]).
  { unfold append_first_if_open. fold same. now destruct same. }
  unfold DxfParser.classify in Hc, Hp. fold same in Hc, Hp.
  rewrite Hring in Hp. unfold ring_types, polyline_types.
  destruct (str_in t ["CIRCLE"; "ELLIPSE"]) eqn:E1.
  { cbn [fst snd] in Hc, Hp.
    assert (t = "CIRCLE" \/ t = "ELLIPSE") as Ht'
      by (apply str_in_In in E1; simpl in E1; intuition congruence).
    split; [intros _; auto|]. split; [|split].
    - intros Hx. destruct Ht' as [-> | ->]; discriminate Hx.
    - intros Hx. destruct Ht' as [-> | ->]; discriminate Hx.
    - intros Hx. destruct Ht' as [-> | ->]; discriminate Hx. }
  destruct (str_in t ["LWPOLYLINE"; "POLYLINE"]) eqn:E2.
  { assert (t = "LWPOLYLINE" \/ t = "POLYLINE") as Ht'
      by (apply str_in_In in E2; simpl in E2; intuition congruence).
    split; [discriminate|]. split.
    - intros _.
      destruct (DxfParser.dxf_flags e) as [flags|err]; cbn [bind catch] in Hc, Hp;
        cbn [fst snd] in Hc, Hp.
      + rewrite land_1_odd in Hc, Hp.
        split; [intros f [= <-]; exact Hc|].
        split; [discriminate | rewrite Hc; exact Hp].
      + split; [discriminate|].
        split; [intros; exact Hc | rewrite Hc; exact Hp].
    - split.
      + intros ->. destruct Ht'; discriminate.
      + intros Hx. exfalso. destruct Ht' as [-> | ->]; discriminate Hx. }
  destruct (t =? "SPLINE")%string eqn:E3.
  { apply String.eqb_eq in E3. subst t.
    split; [discriminate|]. split; [discriminate|]. split.
    - intros _.
      destruct (DxfParser.closed_attr e) as [b|err]; cbn [catch] in Hc, Hp;
        cbn [fst snd] in Hc, Hp.
      + split; [intros b' [= <-]; exact Hc|].
        split; [discriminate | rewrite Hc; exact Hp].
      + split; [discriminate|].
        split; [intros; exact Hc | rewrite Hc; exact Hp].
    - discriminate. }
  cbn [fst snd] in Hc, Hp.
  split; [discriminate|]. split; [discriminate|]. split.
  - intros ->. discriminate E3.
  - intros _. auto.
Qed.

Lemma dxf_closure_rules_witness :
  exists t,
    DxfParser.dxftype MoreExamples.polyline_partial = Ok t
    /\ let pts := [(0, 0); (1, 0); (1, 1)]%float in
       let same := point_eqb (0, 0)%float (last pts (0, 0)%float) in
       let ring := if same then pts else pts ++ [(0, 0)%float] in
       let p := Examples.first_path
                  (DxfParser.load_dxf MoreExamples.dxf_env_files "b.dxf" "mm") in
       (str_in t ring_types = true ->
        closed p = true /\ points p = scale_points 1 ring)
       /\ (str_in t polyline_types = true ->
           (forall flags,
               DxfParser.dxf_flags MoreExamples.polyline_partial = Ok flags ->
               closed p = Z.odd flags)
           /\ (forall err,
                  DxfParser.dxf_flags MoreExamples.polyline_partial
                  = Raise err ->
                  closed p = same)
           /\ points p = scale_points 1 (if closed p then ring else pts))
       /\ (t = "SPLINE" ->
           (forall b,
               DxfParser.closed_attr MoreExamples.polyline_partial = Ok b ->
               closed p = b)
           /\ (forall err,
                  DxfParser.closed_attr MoreExamples.polyline_partial
                  = Raise err ->
                  closed p = same)
           /\ points p = scale_points 1 (if closed p then ring else pts))
       /\ (str_in t (ring_types ++ polyline_types ++ ["SPLINE"]) = false ->
           closed p = same /\ points p = scale_points 1 pts).
Proof.
  apply (dxf_closure_rules Examples.glibc 1 0.25 MoreExamples.polyline_partial
           (Examples.first_path
              (DxfParser.load_dxf MoreExamples.dxf_env_files "b.dxf" "mm"))
           (0, 0)%float [(1, 0); (1, 1)]%float).
  - vm_compute. reflexivity.
  - vm_compute. reflexivity.
  - reflexivity.
Defined.



Lemma flatten_fallback_line (m : Libm) (e : DxfParser.Entity) (tol : float) :
  DxfParser.dxftype e = Ok "LINE" ->
  DxfParser.flatten_fallback m e tol
  = catch (s <- DxfParser.dxf_start e ;;
           t <- DxfParser.dxf_end e ;;
           Ok [(DxfParser.vx s, DxfParser.vy s);
               (DxfParser.vx t, DxfParser.vy t)])
          [].
Proof.
  intros H. unfold DxfParser.flatten_fallback. rewrite H. reflexivity.
Qed.

(** X5.  The sizes of the type-specific fallbacks.  Without adaptive
    flattening a LINE gives two points or none, an ARC thirteen points or
    more or none, and a CIRCLE sixty-five points or none: a fallback that
    fails part-way keeps nothing. *)
Theorem fallback_point_counts :
  forall (m : Libm) (e : DxfParser.Entity) (tol : float),
    no_adaptive_flattening e tol ->
    let n := List.length (DxfParser._flatten_entity m e tol) in
    (DxfParser.dxftype e = Ok "LINE" -> n = 0 \/ n = 2)%nat
    /\ (DxfParser.dxftype e = Ok "ARC" -> n = 0 \/ 13 <= n)%nat
    /\ (DxfParser.dxftype e = Ok "CIRCLE" -> n = 0 \/ n = 65)%nat.
Proof.
  intros m e tol Hf n. subst n.
  rewrite (flatten_entity_fallback m e tol Hf). repeat split; intros Ht.
  - rewrite (flatten_fallback_line m e tol Ht).
    destruct (DxfParser.dxf_start e); [|now left].
    destruct (DxfParser.dxf_end e); [now right | now left].
  - rewrite (flatten_fallback_arc m e tol Ht). unfold DxfParser.flatten_arc.
    destruct (DxfParser.dxf_center e); [|now left].
    destruct (DxfParser.dxf_radius e); [|now left].
    destruct (DxfParser.dxf_start_angle e); [|now left].
    destruct (DxfParser.dxf_end_angle e); [|now left]. cbn [bind].
    destruct (int_of_float _) as [k|]; [|now left]. cbn [bind].
    destruct (for_each _ _) as [pts|] eqn:E; [|now left].
    right. cbn [catch]. pose proof (for_each_length _ _ _ E) as Hl.
    rewrite range_length in Hl. unfold Point in *. lia.
  - rewrite (flatten_fallback_circle m e tol Ht). unfold DxfParser.flatten_circle.
    destruct (DxfParser.dxf_center e); [|now left].
    destruct (DxfParser.dxf_radius e); [|now left]. cbn [bind].
    destruct (for_each _ _) as [pts|] eqn:E; [|now left].
    right. cbn [catch]. pose proof (for_each_length _ _ _ E) as Hl.
    rewrite range_length in Hl. unfold Point in *. exact Hl.
Qed.

Lemma fallback_point_counts_witness :
  (List.length (DxfParser._flatten_entity Examples.glibc MoreExamples.line10
                  0.25) = 0
   \/ List.length (DxfParser._flatten_entity Examples.glibc MoreExamples.line10
                     0.25) = 2)%nat
  /\ (List.length (DxfParser._flatten_entity Examples.glibc Examples.arc30
                     0.25) = 0
      \/ 13 <= List.length (DxfParser._flatten_entity Examples.glibc
                              Examples.arc30 0.25))%nat
  /\ (List.length (DxfParser._flatten_entity Examples.glibc Examples.circle10
                     0.25) = 0
      \/ List.length (DxfParser._flatten_entity Examples.glibc
                        Examples.circle10 0.25) = 65)%nat.
Proof.
  assert (Hl : no_adaptive_flattening MoreExamples.line10 0.25)
    by (left; discriminate).
  assert (Ha : no_adaptive_flattening Examples.arc30 0.25)
    by (left; discriminate).
  assert (Hc : no_adaptive_flattening Examples.circle10 0.25)
    by (left; discriminate).
  pose proof (fallback_point_counts Examples.glibc MoreExamples.line10 0.25 Hl)
    as H1.
  pose proof (fallback_point_counts Examples.glibc Examples.arc30 0.25 Ha)
    as H2.
  pose proof (fallback_point_counts Examples.glibc Examples.circle10 0.25 Hc)
    as H3.
  cbv zeta in H1, H2, H3.
  destruct H1 as (H1 & _). destruct H2 as (_ & H2 & _).
  destruct H3 as (_ & _ & H3).
  refine (conj (H1 _) (conj (H2 _) (H3 _))); reflexivity.
Defined.

(** X6.  A LINE without adaptive flattening whose ends are readable becomes
    the record of its two ends, each coordinate multiplied by the unit
    scale, in the order start, end.  When its start holds no NaN (the
    comparison of the ends is then the same whether or not their
    coordinates are one object), it is closed exactly when the two ends
    are equal. *)
Theorem line_record :
  forall (m : Libm) (scale tol : float) (e : DxfParser.Entity)
         (s t : DxfParser.Vec),
    DxfParser.dxftype e = Ok "LINE" ->
    no_adaptive_flattening e tol ->
    DxfParser.dxf_start e = Ok s ->
    DxfParser.dxf_end e = Ok t ->
    exists p,
      DxfParser.load_dxf_entity m scale tol e = Some p
      /\ points p
         = [(DxfParser.vx s * scale, DxfParser.vy s * scale);
            (DxfParser.vx t * scale, DxfParser.vy t * scale)]%float
      /\ (has_nan (DxfParser.vx s, DxfParser.vy s) = false ->
          closed p
          = point_eqb (DxfParser.vx s, DxfParser.vy s)
                      (DxfParser.vx t, DxfParser.vy t)).
Proof.
  intros m scale tol e s t Ht Hf Hs He.
  unfold DxfParser.load_dxf_entity.
  rewrite Ht, (flatten_entity_fallback m e tol Hf),
    (flatten_fallback_line m e tol Ht), Hs, He.
  cbn [bind catch]. eexists. split; [reflexivity|]. split; [reflexivity|].
  intros _. reflexivity.
Qed.

Lemma line_record_witness :
  exists p,
    DxfParser.load_dxf_entity Examples.glibc 25.4 (0.25 / 25.4)
      MoreExamples.line10 = Some p
    /\ points p
       = [(DxfParser.vx (Examples.vec 0 0) * 25.4,
           DxfParser.vy (Examples.vec 0 0) * 25.4);
          (DxfParser.vx (Examples.vec 10 0) * 25.4,
           DxfParser.vy (Examples.vec 10 0) * 25.4)]%float
    /\ closed p
       = point_eqb (DxfParser.vx (Examples.vec 0 0),
                    DxfParser.vy (Examples.vec 0 0))
                   (DxfParser.vx (Examples.vec 10 0),
                    DxfParser.vy (Examples.vec 10 0)).
Proof.
  assert (Hf : no_adaptive_flattening MoreExamples.line10 (0.25 / 25.4))
    by (left; discriminate).
  destruct (line_record Examples.glibc 25.4 (0.25 / 25.4) MoreExamples.line10
              (Examples.vec 0 0) (Examples.vec 10 0) eq_refl Hf eq_refl eq_refl)
    as (p & H1 & H2 & H3).
  exists p. refine (conj H1 (conj H2 (H3 _))). reflexivity.
Defined.

Lemma flatten_fallback_polyline (m : Libm) (e : DxfParser.Entity) (tol : float)
    (t : string) :
  DxfParser.dxftype e = Ok t ->
  str_in t polyline_types = true ->
  DxfParser.flatten_fallback m e tol
  = catch (DxfParser.flatten_polyline e tol) [].
Proof.
  intros H Ht. unfold DxfParser.flatten_fallback. rewrite H.
  apply str_in_In in Ht. simpl in Ht.
  destruct Ht as [<- | [<- | []]]; reflexivity.
Qed.

(** X7.  The adaptive flattening comes first, and a broken one is handled by
    type.  When it completes with at least one point, its points are the
    result, whatever the type and the other attributes.  When it raises
    after some points, a polyline keeps the points produced so far, while
    a LINE ignores them and gives its two ends (or nothing when they are
    unreadable); and when the type itself cannot be read nothing is
    returned. *)
Theorem adaptive_flattening_precedence :
  forall (m : Libm) (e : DxfParser.Entity) (tol : float),
    let run := DxfParser.flattening e tol in
    (failure run = None -> yielded run <> [] ->
     DxfParser._flatten_entity m e tol = yielded run)
    /\ (forall t,
           failure run <> None -> yielded run <> [] ->
           DxfParser.dxftype e = Ok t -> str_in t polyline_types = true ->
           DxfParser._flatten_entity m e tol = yielded run)
    /\ (failure run <> None ->
        DxfParser.dxftype e = Ok "LINE" ->
        DxfParser._flatten_entity m e tol
        = match DxfParser.dxf_start e, DxfParser.dxf_end e with
          | Ok s, Ok t => [(DxfParser.vx s, DxfParser.vy s);
                           (DxfParser.vx t, DxfParser.vy t)]
          | _, _ => []
          end)
    /\ (forall err,
           failure run <> None \/ yielded run = [] ->
           DxfParser.dxftype e = Raise err ->
           DxfParser._flatten_entity m e tol = []).
Proof.
  intros m e tol run. subst run. repeat split.
  - intros Hf Hy. unfold DxfParser._flatten_entity. rewrite Hf.
    destruct (yielded (DxfParser.flattening e tol)); congruence.
  - intros t Hf Hy Ht Hp.
    rewrite (flatten_entity_fallback m e tol (or_introl Hf)).
    rewrite (flatten_fallback_polyline m e tol t Ht Hp).
    unfold DxfParser.flatten_polyline.
    destruct (yielded (DxfParser.flattening e tol)); [congruence|reflexivity].
  - intros Hf Ht.
    rewrite (flatten_entity_fallback m e tol (or_introl Hf)).
    rewrite (flatten_fallback_line m e tol Ht).
    destruct (DxfParser.dxf_start e); [|reflexivity].
    destruct (DxfParser.dxf_end e); reflexivity.
  - intros err Hf Ht. rewrite (flatten_entity_fallback m e tol Hf).
    unfold DxfParser.flatten_fallback. now rewrite Ht.
Qed.

Lemma adaptive_flattening_precedence_witness :
  DxfParser._flatten_entity Examples.glibc Examples.circle_nan 0.25
  = yielded (DxfParser.flattening Examples.circle_nan 0.25)
  /\ DxfParser._flatten_entity Examples.glibc MoreExamples.polyline_partial 0.25
     = yielded (DxfParser.flattening MoreExamples.polyline_partial 0.25).
Proof.
  pose proof (adaptive_flattening_precedence Examples.glibc
                Examples.circle_nan 0.25) as H1.
  pose proof (adaptive_flattening_precedence Examples.glibc
                MoreExamples.polyline_partial 0.25) as H2.
  cbv zeta in H1, H2. destruct H1 as (H1 & _). destruct H2 as (_ & H2 & _).
  split.
  - apply H1; [reflexivity | discriminate].
  - apply (H2 "LWPOLYLINE"); first [reflexivity | discriminate].
Defined.

(* ================================================================== *)
(** ** Further properties of svg_parser.py *)
(* ================================================================== *)

Lemma is_nan_false_Prim2SF (x : float) :
  Prim2SF x <> S754_nan -> is_nan x = false.
Proof.
  intros H. destruct (is_nan x) eqn:E; [|reflexivity].
  apply is_nan_Prim2SF in E. contradiction.
Qed.

(** [int(x)] by the class of [x]. *)
Lemma int_of_float_cases (x : float) :
  (is_nan x = true /\ int_of_float x = Raise ValueError)
  \/ (is_infinity x = true /\ int_of_float x = Raise OverflowError)
  \/ (is_finite x = true /\ exists k, int_of_float x = Ok k).
Proof.
  unfold int_of_float, is_finite, is_infinity.
  rewrite eqb_spec, abs_spec.
  destruct (Prim2SF x) as [s|s| |s m e] eqn:E.
  - right. right. rewrite is_nan_false_Prim2SF by congruence.
    split; [reflexivity | eauto].
  - right. left. split; reflexivity.
  - left. split; [now apply is_nan_Prim2SF | reflexivity].
  - right. right. rewrite is_nan_false_Prim2SF by congruence.
    split; [reflexivity | eauto].
Qed.

Lemma flatten_path_points_unfold (path : SvgParser.PathObj) (tol_mm : float) :
  SvgParser._flatten_path_points true (Some path) tol_mm
  = (k <- int_of_float (length_quotient path tol_mm) ;;
     Ok (collect
           (fun i =>
              match SvgParser.point path (int_truediv i (Z.max 64 k)) with
              | Ok p => Some p
              | Raise _ => None
              end)
           (range (Z.max 64 k + 1)))).
Proof. reflexivity. Qed.

(** X8.  What [_flatten_path_points] does with the quotient of the path length
    by the tolerance: it raises [ValueError] when the quotient is NaN and
    [OverflowError] when it is infinite; when the quotient is finite it
    returns at most [segs + 1] points, [segs] being the larger of 64 and
    the truncated quotient, and exactly that many, so 65 or more, when
    every sample evaluates.  Without svgpathtools or without a path it
    returns the empty list. *)
Theorem flatten_path_points_behaviour :
  forall (path : SvgParser.PathObj) (tol_mm : float),
    let q := length_quotient path tol_mm in
    let out := SvgParser._flatten_path_points true (Some path) tol_mm in
    (is_nan q = true -> out = Raise ValueError)
    /\ (is_infinity q = true -> out = Raise OverflowError)
    /\ (is_finite q = true ->
        exists k pts,
          int_of_float q = Ok k
          /\ out = Ok pts
          /\ (List.length pts <= Z.to_nat (Z.max 64 k + 1))%nat
          /\ ((forall i, (0 <= i <= Z.max 64 k)%Z ->
                 exists pt,
                   SvgParser.point path (int_truediv i (Z.max 64 k)) = Ok pt) ->
              List.length pts = Z.to_nat (Z.max 64 k + 1)
              /\ (65 <= List.length pts)%nat))
    /\ SvgParser._flatten_path_points false (Some path) tol_mm = Ok []
    /\ SvgParser._flatten_path_points true None tol_mm = Ok [].
Proof.
  intros path tol_mm q out. subst out.
  rewrite flatten_path_points_unfold. fold q.
  destruct (int_of_float_cases q) as [[Hn Hi] | [[Hinf Hi] | [Hfin (k & Hi)]]];
    rewrite Hi; cbn [bind].
  - repeat split; try reflexivity.
    + intros H. unfold is_infinity in *.
      assert (is_finite q = false)
        by (unfold is_finite; rewrite Hn; reflexivity).
      apply is_nan_Prim2SF in Hn. rewrite eqb_spec, abs_spec, Hn in H.
      discriminate H.
    + intros H. unfold is_finite in H. rewrite Hn in H. discriminate H.
  - repeat split; try reflexivity.
    + intros H. apply is_nan_Prim2SF in H. unfold is_infinity in Hinf.
      rewrite eqb_spec, abs_spec, H in Hinf. discriminate Hinf.
    + intros H. unfold is_finite in H. rewrite Hinf, orb_true_r in H.
      discriminate H.
  - destruct (is_finite_parts q Hfin) as [Hn Hinf].
    repeat split; try reflexivity; try congruence.
    intros _. exists k. eexists. split; [reflexivity|]. split; [reflexivity|].
    split.
    + etransitivity; [apply collect_length|]. now rewrite range_length.
    + intros Hall.
      assert (Hg : exists g, forall i, In i (range (Z.max 64 k + 1)) ->
                      SvgParser.point path (int_truediv i (Z.max 64 k))
                      = Ok (g i)).
      { exists (fun i => match SvgParser.point path
                                 (int_truediv i (Z.max 64 k)) with
                         | Ok p => p
                         | Raise _ => (0, 0)%float
                         end).
        intros i Hi'. apply in_range in Hi'.
        destruct (Hall i ltac:(lia)) as (pt & ->). reflexivity. }
      destruct Hg as (g & Hg).
      rewrite (collect_all _ g).
      * rewrite length_map, range_length. split; [reflexivity | lia].
      * intros i Hi'. now rewrite (Hg i Hi').
Qed.

Lemma flatten_path_points_behaviour_witness :
  SvgParser._flatten_path_points true
    (Some (Examples.segment 0 infinity false)) 0.05
  = Raise OverflowError
  /\ exists k pts,
       int_of_float (length_quotient (Examples.segment 0 10 false) 0.05) = Ok k
       /\ SvgParser._flatten_path_points true
            (Some (Examples.segment 0 10 false)) 0.05 = Ok pts
       /\ (List.length pts <= Z.to_nat (Z.max 64 k + 1))%nat
       /\ ((forall i, (0 <= i <= Z.max 64 k)%Z ->
              exists pt,
                SvgParser.point (Examples.segment 0 10 false)
                  (int_truediv i (Z.max 64 k)) = Ok pt) ->
           List.length pts = Z.to_nat (Z.max 64 k + 1)
           /\ (65 <= List.length pts)%nat).
Proof.
  pose proof (flatten_path_points_behaviour
                (Examples.segment 0 infinity false) 0.05) as H1.
  pose proof (flatten_path_points_behaviour
                (Examples.segment 0 10 false) 0.05) as H2.
  cbv zeta in H1, H2.
  destruct H1 as (_ & H1 & _). destruct H2 as (_ & _ & H2 & _).
  split; [apply H1 | apply H2]; vm_compute; reflexivity.
Defined.

Lemma has_path_data_spec (path_attrs_str : string) :
  has_path_data path_attrs_str = true
  <-> exists d,
        SvgParser.dict_get "d" (SvgParser.parse_attrs path_attrs_str) = Some d
        /\ d <> EmptyString.
Proof.
  unfold has_path_data.
  destruct (SvgParser.dict_get "d" (SvgParser.parse_attrs path_attrs_str))
    as [[|c d]|]; split; try discriminate.
  - intros (d & [= <-] & H). now destruct H.
  - intros _. exists (String c d). split; [reflexivity | discriminate].
  - reflexivity.
  - intros (d & [=] & _).
Qed.

(** X9.  [load_svg], as the source has it, never returns a record.  The only
    exception it raises is the [re.error] of the splitter, and it raises
    it exactly when svgpathtools is there, the file can be read and the
    pattern finds a path element whose [d] attribute is not empty; in
    every other case it returns the empty list. *)
Theorem load_svg_returns_no_record :
  forall (env : SvgParser.Env) (filepath : string),
    emitted (snd (SvgParser.load_svg env filepath)) = []
    /\ (forall e, snd (SvgParser.load_svg env filepath) = Raise e ->
                  e = ReError)
    /\ (snd (SvgParser.load_svg env filepath) = Raise ReError
        <-> exists lib content path_attrs_str d,
              SvgParser.svgpathtools env = Some lib
              /\ SvgParser.read_text env filepath = Ok content
              /\ In path_attrs_str (SvgParser.findall_path content)
              /\ SvgParser.dict_get "d" (SvgParser.parse_attrs path_attrs_str)
                 = Some d
              /\ d <> EmptyString)
    /\ (snd (SvgParser.load_svg env filepath) <> Raise ReError ->
        snd (SvgParser.load_svg env filepath) = Ok []).
Proof.
  intros env filepath. split; [apply load_svg_emits_nothing|].
  destruct (SvgParser.svgpathtools env) as [lib|] eqn:El.
  - destruct (SvgParser.read_text env filepath) as [content|err] eqn:Er.
    + rewrite (load_svg_result env lib filepath content El Er). cbn [snd].
      destruct (existsb has_path_data (SvgParser.findall_path content))
        eqn:Ex.
      * split; [intros e [= <-]; reflexivity|]. split; [|congruence].
        split; [intros _ | reflexivity].
        apply existsb_exists in Ex. destruct Ex as (s & Hin & Hs).
        apply has_path_data_spec in Hs. destruct Hs as (d & Hd & Hne).
        exists lib, content, s, d. auto.
      * split; [discriminate|]. split; [|reflexivity].
        split; [discriminate|].
        intros (lib' & content' & s & d & _ & [= <-] & Hin & Hd & Hne).
        assert (Hx : existsb has_path_data (SvgParser.findall_path content)
                     = true).
        { apply existsb_exists. exists s. split; [exact Hin|].
          apply has_path_data_spec. eauto. }
        congruence.
    + rewrite (load_svg_unreadable env lib filepath err El Er). cbn [snd].
      split; [discriminate|]. split; [|reflexivity].
      split; [discriminate|]. intros (_ & c & _ & _ & _ & H & _). congruence.
  - assert (E : SvgParser.load_svg env filepath = ([], Ok []))
      by (unfold SvgParser.load_svg; now rewrite El).
    rewrite E. cbn [snd].
    split; [discriminate|]. split; [|reflexivity].
    split; [discriminate|]. intros (l & _ & _ & _ & H & _). discriminate.
Qed.

(* ================================================================== *)
(** ** The attribute dictionary and the two patterns *)
(* ================================================================== *)

Section Attributes.

Import SvgParser.

Lemma dict_get_filter (k k' : string) (d : dict) :
  (k' =? k)%string = false ->
  dict_get k (filter (fun kv => negb (fst kv =? k')%string) d) = dict_get k d.
Proof.
  intros Hk. induction d as [|[a v] d IH]; simpl; [reflexivity|].
  destruct (a =? k')%string eqn:Ea; simpl.
  - apply String.eqb_eq in Ea. subst a. now rewrite Hk.
  - now rewrite IH.
Qed.

Lemma dict_get_set (k k' v : string) (d : dict) :
  dict_get k (dict_set k' v d)
  = if (k' =? k)%string then Some v else dict_get k d.
Proof.
  unfold dict_set. simpl. destruct (k' =? k)%string eqn:E; [reflexivity|].
  now apply dict_get_filter.
Qed.

Lemma latest_snoc (k : string) (ms : list (string * string))
    (kv : string * string) :
  latest k (ms ++ [kv])
  = if (fst kv =? k)%string then Some (snd kv) else latest k ms.
Proof.
  unfold latest. rewrite rev_app_distr. simpl.
  destruct (fst kv =? k)%string; reflexivity.
Qed.

Lemma dict_get_fold (k : string) (ms : list (string * string)) (d : dict) :
  dict_get k (fold_left (fun d kv => dict_set (fst kv) (snd kv) d) ms d)
  = match latest k ms with
    | Some v => Some v
    | None => dict_get k d
    end.
Proof.
  induction ms as [|kv ms IH] using rev_ind; [reflexivity|].
  rewrite fold_left_app, latest_snoc. cbn [fold_left].
  rewrite dict_get_set. destruct (fst kv =? k)%string; [reflexivity|exact IH].
Qed.

Lemma latest_in (k v : string) (ms : list (string * string)) :
  latest k ms = Some v -> In (k, v) ms.
Proof.
  unfold latest. destruct (find _ (rev ms)) as [[a b]|] eqn:E; [|discriminate].
  apply find_some in E as [Hin Hk]. simpl in Hk. apply String.eqb_eq in Hk.
  subst a. intros [= <-]. now apply in_rev.
Qed.

Lemma scan_in {A : Type} (match_at : string -> option (A * nat)) (a : A)
    (s : string) (skip : nat) :
  In a (scan match_at skip s) ->
  exists pre t len, s = (pre ++ t)%string /\ match_at t = Some (a, len).
Proof.
  revert skip. induction s as [|c s IH]; simpl; intros skip Hin; [destruct Hin|].
  assert (Hrec : forall n, In a (scan match_at n s) ->
            exists pre t len,
              String c s = (pre ++ t)%string /\ match_at t = Some (a, len)).
  { intros n H. destruct (IH n H) as (pre & t & len & -> & Hm).
    exists (String c pre), t, len. auto. }
  destruct skip as [|n]; [|eauto].
  destruct (match_at (String c s)) as [[a' len]|] eqn:E; [|eauto].
  destruct Hin as [<- | Hin]; [|eauto].
  exists EmptyString, (String c s), len. auto.
Qed.

Lemma all_chars_take_while (p : ascii -> bool) (s : string) :
  all_chars p (take_while p s) = true.
Proof.
  induction s as [|c s IH]; simpl; [reflexivity|].
  destruct (p c) eqn:E; simpl; [now rewrite E|reflexivity].
Qed.

Lemma match_attr_at_groups (s k v : string) (len : nat) :
  match_attr_at s = Some (k, v, len) ->
  k <> EmptyString
  /\ all_chars is_word k = true
  /\ all_chars (fun c => negb (is_char dquote c)) v = true.
Proof.
  unfold match_attr_at.
  pose proof (all_chars_take_while is_word s) as Hk.
  destruct (take_while is_word s) as [|c0 k0] eqn:Ek; [discriminate|].
  destruct (drop_while isspace (drop_while is_word s)) as [|c s2];
    [discriminate|].
  destruct (is_char "=" c); [|discriminate].
  destruct (drop_while isspace s2) as [|q s3]; [discriminate|].
  destruct (is_char dquote q); [|discriminate].
  destruct (drop_while _ s3); [discriminate|].
  intros [= <- <- _]. repeat split; [discriminate|exact Hk|].
  apply all_chars_take_while.
Qed.

Lemma string_app_assoc (s t u : string) :
  ((s ++ t) ++ u = s ++ t ++ u)%string.
Proof.
  induction s as [|c s IH]; simpl; [reflexivity | now rewrite IH].
Qed.

Lemma take_drop_while (p : ascii -> bool) (s : string) :
  s = (take_while p s ++ drop_while p s)%string.
Proof.
  induction s as [|c s IH]; simpl; [reflexivity|].
  destruct (p c); simpl; [now rewrite <- IH | reflexivity].
Qed.

Lemma drop_while_head (p : ascii -> bool) (s : string) (c : ascii)
    (s' : string) :
  drop_while p s = String c s' -> p c = false.
Proof.
  induction s as [|a s IH]; simpl; [discriminate|].
  destruct (p a) eqn:E; [exact IH|]. intros [= <- _]. exact E.
Qed.

Lemma but_last_last (s : string) (c : ascii) :
  last_char s = Some c -> s = (but_last s ++ String c EmptyString)%string.
Proof.
  induction s as [|a s IH]; simpl; [discriminate|].
  destruct s as [|b s]; [intros [= <-]; reflexivity|].
  intros H. cbn [append]. f_equal. exact (IH H).
Qed.

Lemma all_chars_app (p : ascii -> bool) (s t : string) :
  all_chars p (s ++ t) = all_chars p s && all_chars p t.
Proof.
  induction s as [|c s IH]; simpl; [reflexivity|].
  now rewrite IH, andb_assoc.
Qed.

Lemma all_chars_but_last (p : ascii -> bool) (s : string) :
  all_chars p s = true -> all_chars p (but_last s) = true.
Proof.
  induction s as [|a s IH]; [reflexivity|].
  destruct s as [|b s]; [reflexivity|].
  change (but_last (String a (String b s)))
    with (String a (but_last (String b s))).
  cbn [all_chars] in *. intros H. apply andb_true_iff in H as [Ha Hs].
  now rewrite Ha, (IH Hs).
Qed.

Lemma space_not_gt (c : ascii) :
  isspace c = true -> negb (is_char ">" c) = true.
Proof.
  destruct c as [[] [] [] [] [] [] [] []]; try reflexivity;
    intros H; vm_compute in H; discriminate.
Qed.

Lemma is_gt (c : ascii) : negb (is_char ">" c) = false -> c = ">"%char.
Proof.
  unfold is_char. rewrite negb_false_iff. intros H.
  symmetry. now apply Ascii.eqb_eq.
Qed.

Lemma is_blank (c : ascii) : is_char " " c = true -> c = " "%char.
Proof.
  unfold is_char. intros H. symmetry. now apply Ascii.eqb_eq.
Qed.

(** The text of a match of the path pattern: the tag, white space, the
    group, a blank and ['>']. *)
Lemma match_path_at_shape (s g : string) (len : nat) :
  match_path_at s = Some (g, len) ->
  exists tag ws rest,
    s = (tag ++ ws ++ g ++ " >" ++ rest)%string
    /\ lower tag = "<path"
    /\ ws <> EmptyString
    /\ all_chars isspace ws = true
    /\ g <> EmptyString
    /\ all_chars (fun c => negb (is_char ">" c)) g = true.
Proof.
  unfold match_path_at.
  destruct s as [|c0 [|c1 [|c2 [|c3 [|c4 rest]]]]]; try discriminate.
  destruct (is_char "<" c0 && _ && _ && _ && _) eqn:Etag; [|discriminate].
  cbv zeta.
  assert (Htag : lower (String c0 (String c1 (String c2 (String c3
                          (String c4 EmptyString))))) = "<path").
  { repeat (apply andb_true_iff in Etag as [Etag ?]).
    unfold is_char in *.
    repeat match goal with
           | H : Ascii.eqb _ _ = true |- _ => apply Ascii.eqb_eq in H
           end.
    cbn [lower]. subst c0.
    repeat match goal with
           | H : _ = lower_char _ |- _ => rewrite <- H; clear H
           end.
    reflexivity. }
  pose proof (take_drop_while isspace rest) as Hrest.
  pose proof (all_chars_take_while isspace rest) as Hws.
  set (ws := take_while isspace rest) in *.
  set (r := drop_while isspace rest) in *.
  pose proof (take_drop_while (fun c => negb (is_char ">" c)) r) as Hr.
  pose proof (all_chars_take_while (fun c => negb (is_char ">" c)) r) as Hb.
  set (body := take_while (fun c => negb (is_char ">" c)) r) in *.
  destruct (drop_while (fun c => negb (is_char ">" c)) r) as [|gt tail] eqn:Et;
    [discriminate|].
  apply drop_while_head in Et. apply is_gt in Et. subst gt.
  destruct ws as [|w0 ws'] eqn:Ews; [discriminate|].
  destruct body as [|b0 [|b1 body']] eqn:Eb.
  - (* only white space before the closing character *)
    destruct ws' as [|w1 [|w2 ws'']]; try discriminate.
    set (ws0 := String w0 (String w1 (String w2 ws''))) in *.
    destruct (last_char ws0) as [c|] eqn:El; [|discriminate].
    destruct (last_char (but_last ws0)) as [g0|] eqn:Eg; [|discriminate].
    destruct (is_char " " c) eqn:Ec; [|discriminate].
    apply is_blank in Ec. subst c. intros [= <- _].
    pose proof (but_last_last _ _ El) as H1.
    pose proof (but_last_last _ _ Eg) as H2.
    exists (String c0 (String c1 (String c2 (String c3
              (String c4 EmptyString))))),
           (but_last (but_last ws0)), tail.
    assert (Hall : all_chars isspace (but_last ws0) = true)
      by (now apply all_chars_but_last).
    split.
    { cbn [append]. do 5 f_equal. rewrite Hrest, Hr. cbn [append].
      rewrite H1 at 1. rewrite H2 at 1.
      rewrite !string_app_assoc. reflexivity. }
    split; [exact Htag|]. split; [unfold ws0; discriminate|].
    split; [now apply all_chars_but_last|].
    split; [discriminate|].
    rewrite H2, all_chars_app in Hall. apply andb_true_iff in Hall.
    destruct Hall as [_ Hg]. cbn [all_chars] in *.
    rewrite andb_true_r in *. now apply space_not_gt.
  - discriminate.
  - set (body0 := String b0 (String b1 body')) in *.
    destruct (last_char body0) as [c|] eqn:El; [|discriminate].
    destruct (is_char " " c) eqn:Ec; [|discriminate].
    apply is_blank in Ec. subst c. intros [= <- _].
    pose proof (but_last_last _ _ El) as H1.
    exists (String c0 (String c1 (String c2 (String c3
              (String c4 EmptyString))))),
           (String w0 ws'), tail.
    split.
    { cbn [append]. do 5 f_equal. rewrite Hrest, Hr.
      rewrite H1 at 1. rewrite !string_app_assoc. reflexivity. }
    split; [exact Htag|]. split; [discriminate|]. split; [exact Hws|].
    split; [unfold body0; destruct body'; discriminate|].
    exact (all_chars_but_last (fun c => negb (is_char ">" c)) body0 Hb).
Qed.

End Attributes.

(** X16.  The attribute dictionary of a path element maps a key to the value
    of the last attribute match with that key: among repeated attributes
    the latest one is used, and a key without a match has no entry. *)
Theorem parse_attrs_latest_binding :
  forall (path_attrs_str k : string),
    SvgParser.dict_get k (SvgParser.parse_attrs path_attrs_str)
    = latest k (SvgParser.scan SvgParser.match_attr_at 0 path_attrs_str).
Proof.
  intros s k. unfold SvgParser.parse_attrs. rewrite dict_get_fold.
  destruct (latest k _); reflexivity.
Qed.

(** X17.  An entry of the attribute dictionary has a key that is a run of one
    or more word characters and a value free of double quotes, and both
    are read at some position of the element's text. *)
Theorem parse_attrs_entries :
  forall (path_attrs_str k v : string),
    SvgParser.dict_get k (SvgParser.parse_attrs path_attrs_str) = Some v ->
    k <> EmptyString
    /\ all_chars SvgParser.is_word k = true
    /\ all_chars (fun c => negb (SvgParser.is_char SvgParser.dquote c)) v = true
    /\ exists before rest len,
         path_attrs_str = (before ++ rest)%string
         /\ SvgParser.match_attr_at rest = Some (k, v, len).
Proof.
  intros s k v H. unfold SvgParser.parse_attrs in H. rewrite dict_get_fold in H.
  destruct (latest k _) as [v'|] eqn:E; [|discriminate].
  injection H as ->. apply latest_in in E.
  destruct (scan_in _ _ _ _ E) as (pre & t & len & Hs & Hm).
  destruct (match_attr_at_groups _ _ _ _ Hm) as (H1 & H2 & H3).
  repeat split; auto. exists pre, t, len. auto.
Qed.

Lemma parse_attrs_entries_witness :
  "stroke" <> EmptyString
  /\ all_chars SvgParser.is_word "stroke" = true
  /\ all_chars (fun c => negb (SvgParser.is_char SvgParser.dquote c)) "red"
     = true
  /\ exists before rest len,
       hd EmptyString (tl (SvgParser.findall_path MoreExamples.svg_styled))
       = (before ++ rest)%string
       /\ SvgParser.match_attr_at rest = Some ("stroke", "red", len).
Proof.
  apply (parse_attrs_entries
           (hd EmptyString (tl (SvgParser.findall_path MoreExamples.svg_styled)))
           "stroke" "red").
  vm_compute. reflexivity.
Defined.

(** X18.  Every attribute text that [load_svg] takes from the document for a
    path element is non-empty and holds no ['>'], and it stands in the
    document between a path tag opening ([<path] in any letter case)
    followed by white space, and a blank followed by ['>'].  A path
    element whose ['>'] does not come after a blank is not found. *)
Theorem findall_path_groups :
  forall (svg_content g : string),
    In g (SvgParser.findall_path svg_content) ->
    g <> EmptyString
    /\ all_chars (fun c => negb (SvgParser.is_char ">" c)) g = true
    /\ exists before tag ws rest,
         svg_content = (before ++ tag ++ ws ++ g ++ " >" ++ rest)%string
         /\ lower tag = "<path"
         /\ ws <> EmptyString
         /\ all_chars isspace ws = true.
Proof.
  intros s g Hin. unfold SvgParser.findall_path in Hin.
  destruct (scan_in _ _ _ _ Hin) as (pre & t & len & Hs & Hm).
  destruct (match_path_at_shape _ _ _ Hm)
    as (tag & ws & rest & Ht & Htag & Hne & Hws & Hg & Hgt).
  split; [exact Hg|]. split; [exact Hgt|].
  exists pre, tag, ws, rest. rewrite Hs, Ht. auto.
Qed.

Lemma findall_path_groups_witness :
  hd EmptyString (SvgParser.findall_path MoreExamples.svg_styled)
  <> EmptyString
  /\ all_chars (fun c => negb (SvgParser.is_char ">" c))
       (hd EmptyString (SvgParser.findall_path MoreExamples.svg_styled))
     = true
  /\ exists before tag ws rest,
       MoreExamples.svg_styled
       = (before ++ tag ++ ws
          ++ hd EmptyString (SvgParser.findall_path MoreExamples.svg_styled)
          ++ " >" ++ rest)%string
       /\ lower tag = "<path"
       /\ ws <> EmptyString
       /\ all_chars isspace ws = true.
Proof.
  apply (findall_path_groups MoreExamples.svg_styled).
  vm_compute. left. reflexivity.
Defined.

(* ================================================================== *)
(** ** The records of the subpath loop of load_svg *)
(* ================================================================== *)






(* ================================================================== *)
(** ** The tolerance of load_svg and the loading step of main.py *)
(* ================================================================== *)

Lemma float_neq_of_SF (x y : float) : Prim2SF x <> Prim2SF y -> x <> y.
Proof. intros H E. apply H. now rewrite E. Qed.

(** X19.  The flattening tolerance of [load_svg] is 0.05 or 0.002.  It is 0.002
    exactly when the units setting could be read and is a non-empty
    string that does not start with [met]; without PyQt6, with a failed
    read or with an empty setting it is 0.05.  Either value is above the
    floor of [1e-3] that [_flatten_path_points] applies, which therefore
    never changes it. *)
Theorem svg_tolerance_setting :
  forall env : SvgParser.Env,
    (SvgParser.tolerance env = 0.05%float
     \/ SvgParser.tolerance env = 0.002%float)
    /\ (SvgParser.tolerance env = 0.002%float
        <-> exists u,
              SvgParser.qsettings_units env = Some (Ok u)
              /\ u <> EmptyString /\ startswith u "met" = false)
    /\ max_float (SvgParser.tolerance env) 1e-3 = SvgParser.tolerance env.
Proof.
  intros env.
  assert (Hne : 0.05%float <> 0.002%float).
  { apply float_neq_of_SF. vm_compute. discriminate. }
  unfold SvgParser.tolerance, SvgParser.current_units.
  destruct (SvgParser.qsettings_units env) as [[u|e]|]; cbv zeta.
  - destruct u as [|c u].
    + change (startswith "metric" "met") with true. cbv iota.
      repeat split; auto.
      * intros H. now destruct Hne.
      * intros (u & [= <-] & H & _). now destruct H.
    + destruct (startswith (String c u) "met") eqn:E.
      * repeat split; auto.
        -- intros H. now destruct Hne.
        -- intros (u' & [= <-] & _ & H). congruence.
      * repeat split; auto. intros _. exists (String c u).
        repeat split; auto. discriminate.
  - change (startswith "metric" "met") with true. cbv iota.
    repeat split; auto.
    + intros H. now destruct Hne.
    + intros (u & [=] & _).
  - change (startswith "metric" "met") with true. cbv iota.
    repeat split; auto.
    + intros H. now destruct Hne.
    + intros (u & [=] & _).
Qed.

Section OpenFile.

Import Main.

Lemma parsers_load_dxf_raise (env : Parsers.Env) (filename units : string)
    (e : exn) :
  snd (Parsers.load_dxf env filename units) = Raise e ->
  exists m lib doc msp,
    Parsers.import_dxf_parser env = Ok m
    /\ DxfParser.ezdxf m = Some lib
    /\ DxfParser.readfile lib filename = Ok doc
    /\ DxfParser.modelspace doc = Ok msp
    /\ failure msp = Some e.
Proof.
  unfold Parsers.load_dxf.
  destruct (Parsers.import_dxf_parser env) as [m|]; [|discriminate].
  intros H. apply load_dxf_raise in H.
  destruct H as (lib & doc & msp & H). exists m, lib, doc, msp. tauto.
Qed.

Lemma parsers_load_svg_raise (env : Parsers.Env) (filepath : string) (e : exn) :
  snd (Parsers.load_svg env filepath) = Raise e -> e = ReError.
Proof.
  unfold Parsers.load_svg.
  destruct (Parsers.import_svg_parser env) as [m|]; [|discriminate].
  intros H. unfold SvgParser.load_svg in H.
  destruct (SvgParser.svgpathtools m) as [lib|]; [|discriminate].
  cbn [snd] in H.
  destruct (SvgParser.read_text m filepath) as [content|]; [|discriminate].
  cbv zeta in H. rewrite load_svg_elements in H.
  destruct (existsb _ _); congruence.
Qed.

Lemma parsers_load_svg_emits_nothing (env : Parsers.Env) (filepath : string) :
  emitted (snd (Parsers.load_svg env filepath)) = [].
Proof.
  unfold Parsers.load_svg.
  destruct (Parsers.import_svg_parser env) as [m|]; [|reflexivity].
  apply load_svg_emits_nothing.
Qed.

Lemma parsers_load_dxf_source (env : Parsers.Env) (filename units : string) :
  Forall (fun p => source p = dxf)
         (emitted (snd (Parsers.load_dxf env filename units))).
Proof.
  apply Forall_forall. intros p. unfold Parsers.load_dxf.
  destruct (Parsers.import_dxf_parser env) as [m|]; [|intros []].
  intros Hin. destruct (load_dxf_emitted _ _ _ _ Hin) as (e & He).
  unfold DxfParser.load_dxf_entity in He.
  destruct (DxfParser.dxftype e) as [t|]; [|discriminate].
  destruct (DxfParser._flatten_entity _ e _) as [|p0 [|p1 rest]];
    try discriminate.
  destruct (DxfParser.classify e t p0 (p0 :: p1 :: rest)) as [c pts].
  now injection He as <-.
Qed.

Lemma parsers_load_svg_source (env : Parsers.Env) (filepath : string) :
  Forall (fun p => source p = svg)
         (emitted (snd (Parsers.load_svg env filepath))).
Proof.
  rewrite parsers_load_svg_emits_nothing. constructor.
Qed.

Lemma parsers_load_dxf_events (env : Parsers.Env) (filename units : string) :
  fst (Parsers.load_dxf env filename units) = []
  \/ fst (Parsers.load_dxf env filename units) = [ReadDxf filename].
Proof.
  unfold Parsers.load_dxf, DxfParser.load_dxf.
  destruct (Parsers.import_dxf_parser env) as [m|]; [|now left].
  destruct (DxfParser.ezdxf m); [now right | now left].
Qed.

Lemma parsers_load_svg_events (env : Parsers.Env) (filepath : string) :
  fst (Parsers.load_svg env filepath) = []
  \/ fst (Parsers.load_svg env filepath) = [OpenText filepath].
Proof.
  unfold Parsers.load_svg, SvgParser.load_svg.
  destruct (Parsers.import_svg_parser env) as [m|]; [|now left].
  destruct (SvgParser.svgpathtools m); [now right | now left].
Qed.

Lemma attempt_spec (mk : exn -> load_error)
    (r : list event * result (list Path)) :
  attempt mk r = (fst r, (emitted (snd r), errors_of mk (snd r))).
Proof.
  unfold attempt. destruct (snd r); reflexivity.
Qed.

(** The loading step, case by case. *)
Lemma on_open_file_paths_cases (env : Parsers.Env) (suffix file_path : string) :
  let dxf_run := Parsers.load_dxf env file_path "mm" in
  let svg_run := Parsers.load_svg env file_path in
  (suffix = ".dxf"
   /\ on_open_file_paths env suffix file_path
      = (fst dxf_run,
         (emitted (snd dxf_run), errors_of DxfLoadFailed (snd dxf_run))))
  \/ (suffix = ".svg"
      /\ on_open_file_paths env suffix file_path
         = (fst svg_run,
            (emitted (snd svg_run), errors_of SvgLoadFailed (snd svg_run))))
  \/ (suffix <> ".dxf" /\ suffix <> ".svg"
      /\ emitted (snd dxf_run) <> []
      /\ on_open_file_paths env suffix file_path
         = (fst dxf_run,
            (emitted (snd dxf_run), errors_of DxfLoadFailed (snd dxf_run))))
  \/ (suffix <> ".dxf" /\ suffix <> ".svg"
      /\ emitted (snd dxf_run) = []
      /\ on_open_file_paths env suffix file_path
         = (fst dxf_run ++ fst svg_run,
            (emitted (snd svg_run),
             errors_of DxfLoadFailed (snd dxf_run)
             ++ errors_of SvgLoadFailed (snd svg_run)))).
Proof.
  cbv zeta. unfold on_open_file_paths.
  destruct (suffix =? ".dxf")%string eqn:Ed.
  { left. apply String.eqb_eq in Ed. split; [exact Ed|]. apply attempt_spec. }
  apply String.eqb_neq in Ed.
  destruct (suffix =? ".svg")%string eqn:Es.
  { right; left. apply String.eqb_eq in Es. split; [exact Es|].
    apply attempt_spec. }
  apply String.eqb_neq in Es. right; right.
  rewrite !attempt_spec.
  destruct (emitted (snd (Parsers.load_dxf env file_path "mm"))) as [|p ps];
    [right | left]; repeat split; auto. discriminate.
Qed.

End OpenFile.

(** X20.  The errors that the loading step of [on_open_file] records.  There is
    at most one for each loader, the one of the DXF loader first.  The
    exception of the DXF loader is the one raised while the model space
    was iterated; the exception of the SVG loader is [re.error].
    Whenever an error is recorded no path is handed on, so that the
    failure message listing the errors is the one shown.  A file with
    the suffix [.svg] never gives a path. *)
Theorem open_file_errors :
  forall (env : Parsers.Env) (suffix file_path : string),
    let r := Main.on_open_file_paths env suffix file_path in
    let dxf_errors :=
      match snd (Parsers.load_dxf env file_path "mm") with
      | Ok _ => []
      | Raise e => [Main.DxfLoadFailed e]
      end in
    (snd (snd r) = [] \/ snd (snd r) = dxf_errors
     \/ snd (snd r) = [Main.SvgLoadFailed ReError]
     \/ snd (snd r) = dxf_errors ++ [Main.SvgLoadFailed ReError])
    /\ (List.length (snd (snd r)) <= 2)%nat
    /\ (suffix = ".dxf" \/ suffix = ".svg" ->
        (List.length (snd (snd r)) <= 1)%nat)
    /\ (forall e,
           In (Main.DxfLoadFailed e) (snd (snd r)) ->
           exists m lib doc msp,
             Parsers.import_dxf_parser env = Ok m
             /\ DxfParser.ezdxf m = Some lib
             /\ DxfParser.readfile lib file_path = Ok doc
             /\ DxfParser.modelspace doc = Ok msp
             /\ failure msp = Some e)
    /\ (forall e, In (Main.SvgLoadFailed e) (snd (snd r)) -> e = ReError)
    /\ (snd (snd r) <> [] -> fst (snd r) = [])
    /\ (suffix = ".svg" -> fst (snd r) = []).
Proof.
  intros env suffix file_path. cbv zeta.
  pose proof (parsers_load_dxf_raise env file_path "mm") as Hd.
  pose proof (parsers_load_svg_raise env file_path) as Hs.
  pose proof (parsers_load_svg_emits_nothing env file_path) as Hn.
  destruct (on_open_file_paths_cases env suffix file_path)
    as [(H1 & ->) | [(H1 & ->) | [(H1 & H2 & H3 & ->) | (H1 & H2 & H3 & ->)]]];
    cbn [fst snd]; unfold errors_of; rewrite ?Hn;
    destruct (snd (Parsers.load_dxf env file_path "mm")) as [ps|e];
    try (destruct (snd (Parsers.load_svg env file_path)) as [qs|e'];
         [|rewrite (Hs e' eq_refl)]);
    cbn [app emitted List.length] in *;
    (split; [tauto|]);
    (split; [lia|]);
    (split; [first [intros _; lia | intros [Hx | Hx]; contradiction]|]);
    (split; [intros e0 Hin; cbn [In] in Hin;
             repeat (destruct Hin as [Hin | Hin];
                     [try discriminate Hin;
                      try (injection Hin as <-; now apply Hd)|]);
             try contradiction|]);
    (split; [intros e0 Hin; cbn [In] in Hin;
             repeat (destruct Hin as [Hin | Hin];
                     [try discriminate Hin;
                      try (injection Hin as <-; reflexivity)|]);
             try contradiction|]);
    (split; [intros Hne; try reflexivity; try congruence;
             try (exfalso; apply Hne; reflexivity)|]);
    try (intros ->; first [reflexivity | congruence]).
Qed.

(** X21.  The paths handed on by the loading step all come from one loader:
    they are all tagged [dxf] or all tagged [svg].  The file is opened as
    text only when the suffix is not [.dxf], and then the paths are those
    of the SVG loader; with an unknown suffix this happens only when the
    DXF loader gave no path.  With the suffix [.svg] the DXF reader is
    never called. *)
Theorem open_file_single_source :
  forall (env : Parsers.Env) (suffix file_path : string),
    let r := Main.on_open_file_paths env suffix file_path in
    (Forall (fun p => source p = dxf) (fst (snd r))
     \/ Forall (fun p => source p = svg) (fst (snd r)))
    /\ (In (OpenText file_path) (fst r) ->
        suffix <> ".dxf"
        /\ Forall (fun p => source p = svg) (fst (snd r))
        /\ (suffix = ".svg"
            \/ emitted (snd (Parsers.load_dxf env file_path "mm")) = []))
    /\ (suffix = ".svg" -> fst r = [] \/ fst r = [OpenText file_path]).
Proof.
  intros env suffix file_path. cbv zeta.
  pose proof (parsers_load_dxf_source env file_path "mm") as Hd.
  pose proof (parsers_load_svg_source env file_path) as Hs.
  pose proof (parsers_load_dxf_events env file_path "mm") as Ed.
  pose proof (parsers_load_svg_events env file_path) as Es.
  destruct (on_open_file_paths_cases env suffix file_path)
    as [(H1 & ->) | [(H1 & ->) | [(H1 & H2 & H3 & ->) | (H1 & H2 & H3 & ->)]]];
    cbn [fst snd].
  - split; [now left|]. split.
    + intros Hin. destruct Ed as [E | E]; rewrite E in Hin.
      * destruct Hin.
      * destruct Hin as [H | []]. discriminate.
    + intros ->. discriminate.
  - split; [now right|]. split.
    + intros _. subst suffix. repeat split; auto. discriminate.
    + intros _. exact Es.
  - split; [now left|]. split.
    + intros Hin. destruct Ed as [E | E]; rewrite E in Hin.
      * destruct Hin.
      * destruct Hin as [H | []]. discriminate.
    + intros E. contradiction.
  - split; [now right|]. split.
    + intros _. repeat split; auto.
    + intros E. contradiction.
Qed.

Lemma open_file_single_source_witness :
  ".txt" <> ".dxf"
  /\ Forall (fun p => source p = svg)
       (fst (snd (Main.on_open_file_paths
                    (MoreExamples.pkg MoreExamples.svg_styled)
                    ".txt" "drawing.txt")))
  /\ (".txt" = ".svg"
      \/ emitted (snd (Parsers.load_dxf
                         (MoreExamples.pkg MoreExamples.svg_styled)
                         "drawing.txt" "mm")) = []).
Proof.
  destruct (open_file_single_source
              (MoreExamples.pkg MoreExamples.svg_styled) ".txt" "drawing.txt")
    as (_ & H & _).
  assert (Hin : In (OpenText "drawing.txt")
                   (fst (Main.on_open_file_paths
                           (MoreExamples.pkg MoreExamples.svg_styled)
                           ".txt" "drawing.txt"))).
  { vm_compute. right. left. reflexivity. }
  destruct (H Hin) as (_ & H2 & H3).
  split; [discriminate|]. split; [exact H2 | exact H3].
Defined.

(* ================================================================== *)
(** ** The other fallbacks of _flatten_entity *)
(* ================================================================== *)

Lemma for_each_fails {A B : Type} (f : A -> result B) (xs : list A) (x : A) :
  In x xs -> (exists e, f x = Raise e) -> exists e, for_each f xs = Raise e.
Proof.
  induction xs as [|y xs IH]; simpl; [intros []|].
  intros [-> | Hin] Hx.
  - destruct Hx as (e & ->). simpl. eauto.
  - destruct (f y) as [b|e]; simpl; [|eauto].
    destruct (IH Hin Hx) as (e & ->). simpl. eauto.
Qed.

Lemma flatten_fallback_ellipse (m : Libm) (e : DxfParser.Entity) (tol : float) :
  DxfParser.dxftype e = Ok "ELLIPSE" ->
  DxfParser.flatten_fallback m e tol = catch (DxfParser.flatten_ellipse e) [].
Proof.
  intros H. unfold DxfParser.flatten_fallback. rewrite H. reflexivity.
Qed.

Lemma load_dxf_entity_no_points (m : Libm) (scale tol : float)
    (e : DxfParser.Entity) :
  DxfParser._flatten_entity m e tol = [] ->
  DxfParser.load_dxf_entity m scale tol e = None.
Proof.
  intros H. unfold DxfParser.load_dxf_entity. rewrite H.
  destruct (DxfParser.dxftype e); reflexivity.
Qed.

(** X22.  The ARC fallback, for an arc whose centre, radius and angles are
    readable.  The sweep is the end angle minus the start angle, the end
    angle being raised by 360 when it is below the start angle, and the
    number of steps is [max(12, int(sweep / max(tol, 1e-4)))].  When
    that quotient is not finite the conversion fails and the arc gives
    no point; when it is finite and every cosine and sine returns, the
    points are the samples at the step angles, one more than the number
    of steps; and a single cosine or sine that raises loses the whole
    arc. *)
Theorem arc_fallback_samples :
  forall (m : Libm) (e : DxfParser.Entity) (tol : float)
         (c : DxfParser.Vec) (r a1 a2 : float),
    DxfParser.dxftype e = Ok "ARC" ->
    no_adaptive_flattening e tol ->
    DxfParser.dxf_center e = Ok c ->
    DxfParser.dxf_radius e = Ok r ->
    DxfParser.dxf_start_angle e = Ok a1 ->
    DxfParser.dxf_end_angle e = Ok a2 ->
    let sw := ((if a2 <? a1 then a2 + 360 else a2) - a1)%float in
    let q := (sw / max_float tol 1e-4)%float in
    let ang := fun (n i : Z) =>
      radians (a1 + sw * float_of_int i / float_of_int n)%float in
    (is_finite q = false -> DxfParser._flatten_entity m e tol = [])
    /\ (is_finite q = true -> exists k, int_of_float q = Ok k)
    /\ (forall k co si,
           int_of_float q = Ok k ->
           (forall i, (0 <= i <= Z.max 12 k)%Z ->
                      math_cos m (ang (Z.max 12 k) i) = Ok (co i)
                      /\ math_sin m (ang (Z.max 12 k) i) = Ok (si i)) ->
           DxfParser._flatten_entity m e tol
           = map (fun i => (DxfParser.vx c + r * co i,
                            DxfParser.vy c + r * si i)%float)
                 (range (Z.max 12 k + 1)))
    /\ (forall k i,
           int_of_float q = Ok k ->
           (0 <= i <= Z.max 12 k)%Z ->
           (exists err, math_cos m (ang (Z.max 12 k) i) = Raise err)
           \/ (exists err, math_sin m (ang (Z.max 12 k) i) = Raise err) ->
           DxfParser._flatten_entity m e tol = []).
Proof.
  intros m e tol c r a1 a2 Ht Hf Hc Hr H1 H2 sw q ang.
  assert (Hfl : DxfParser._flatten_entity m e tol
                = catch (k <- int_of_float q ;;
                         for_each
                           (fun i =>
                              co <- math_cos m (ang (Z.max 12 k) i) ;;
                              si <- math_sin m (ang (Z.max 12 k) i) ;;
                              Ok (DxfParser.vx c + r * co,
                                  DxfParser.vy c + r * si)%float)
                           (range (Z.max 12 k + 1)))
                        []).
  { rewrite (flatten_entity_fallback m e tol Hf).
    rewrite (flatten_fallback_arc m e tol Ht).
    unfold DxfParser.flatten_arc. rewrite Hc, Hr, H1, H2. reflexivity. }
  split; [|split; [|split]].
  - intros Hq. rewrite Hfl.
    destruct (int_of_float_cases q) as [[_ ->] | [[_ ->] | [Hq' _]]];
      [reflexivity | reflexivity | congruence].
  - intros Hq.
    destruct (int_of_float_cases q) as [[Hn _] | [[Hi _] | [_ Hk]]];
      [| |exact Hk]; unfold is_finite in Hq.
    + rewrite Hn in Hq. discriminate.
    + rewrite Hi, orb_true_r in Hq. discriminate.
  - intros k co si Hk Hcs. rewrite Hfl, Hk. cbn [bind].
    rewrite (for_each_all _ (fun i => (DxfParser.vx c + r * co i,
                                      DxfParser.vy c + r * si i)%float));
      [reflexivity|].
    intros i Hi. apply in_range in Hi.
    destruct (Hcs i ltac:(lia)) as (-> & ->). reflexivity.
  - intros k i Hk Hi Herr. rewrite Hfl, Hk. cbn [bind].
    match goal with
    | |- catch (for_each ?f ?xs) [] = [] =>
        destruct (for_each_fails f xs i) as (err & ->); [| |reflexivity]
    end.
    + apply in_range. lia.
    + destruct Herr as [(err & ->) | (err & Hs)]; [simpl; eauto|].
      destruct (math_cos m (ang (Z.max 12 k) i)); [|simpl; eauto].
      rewrite Hs. simpl. eauto.
Qed.

Lemma arc_fallback_samples_witness :
  DxfParser._flatten_entity Examples.glibc Examples.arc_inf_angle 0.25 = []
  /\ DxfParser._flatten_entity Examples.glibc Examples.arc30 0.25
     = map (fun _ : Z =>
              (DxfParser.vx (Examples.vec 0 0)
               + 5 * c_cos Examples.glibc (radians 30),
               DxfParser.vy (Examples.vec 0 0)
               + 5 * c_sin Examples.glibc (radians 30))%float)
           (range (Z.max 12 0 + 1)).
Proof.
  split.
  - pose proof (arc_fallback_samples Examples.glibc Examples.arc_inf_angle
                  0.25 (Examples.vec 0 0) 5 infinity infinity eq_refl) as H.
    cbv zeta in H.
    assert (Hf : no_adaptive_flattening Examples.arc_inf_angle 0.25)
      by (left; discriminate).
    destruct (H Hf eq_refl eq_refl eq_refl eq_refl) as (H1 & _).
    apply H1. vm_compute. reflexivity.
  - pose proof (arc_fallback_samples Examples.glibc Examples.arc30
                  0.25 (Examples.vec 0 0) 5 30 30 eq_refl) as H.
    cbv zeta in H.
    assert (Hf : no_adaptive_flattening Examples.arc30 0.25)
      by (left; discriminate).
    destruct (H Hf eq_refl eq_refl eq_refl eq_refl) as (_ & _ & H3 & _).
    apply (H3 0%Z (fun _ => c_cos Examples.glibc (radians 30))
              (fun _ => c_sin Examples.glibc (radians 30))).
    + vm_compute. reflexivity.
    + intros i Hi.
      assert (Hin : In i (range 13)) by (apply in_range; lia).
      vm_compute in Hin.
      repeat (destruct Hin as [<- | Hin];
              [split; vm_compute; reflexivity|]).
      destruct Hin.
Defined.

(** X23.  The ELLIPSE fallback is all or nothing: the points are those the
    construction tool yields for 64 segments when the approximation runs
    to its end, and none when it raises part-way or when the tool cannot
    be read, in which case the entity gives no record. *)
Theorem ellipse_fallback_all_or_nothing :
  forall (m : Libm) (scale tol : float) (e : DxfParser.Entity),
    DxfParser.dxftype e = Ok "ELLIPSE" ->
    no_adaptive_flattening e tol ->
    (forall tool,
        DxfParser.construction_tool e = Ok tool ->
        failure (DxfParser.approximate tool 64) = None ->
        DxfParser._flatten_entity m e tol
        = yielded (DxfParser.approximate tool 64))
    /\ (forall tool,
           DxfParser.construction_tool e = Ok tool ->
           failure (DxfParser.approximate tool 64) <> None ->
           DxfParser._flatten_entity m e tol = []
           /\ DxfParser.load_dxf_entity m scale tol e = None)
    /\ (forall err,
           DxfParser.construction_tool e = Raise err ->
           DxfParser._flatten_entity m e tol = []
           /\ DxfParser.load_dxf_entity m scale tol e = None).
Proof.
  intros m scale tol e Ht Hf.
  assert (Hfl : DxfParser._flatten_entity m e tol
                = catch (DxfParser.flatten_ellipse e) []).
  { rewrite (flatten_entity_fallback m e tol Hf).
    apply (flatten_fallback_ellipse m e tol Ht). }
  split; [|split].
  - intros tool Hc Hn. rewrite Hfl. unfold DxfParser.flatten_ellipse.
    rewrite Hc. cbn [bind]. now rewrite Hn.
  - intros tool Hc Hn.
    assert (H0 : DxfParser._flatten_entity m e tol = []).
    { rewrite Hfl. unfold DxfParser.flatten_ellipse. rewrite Hc. cbn [bind].
      destruct (failure (DxfParser.approximate tool 64)); [reflexivity|].
      congruence. }
    split; [exact H0 | now apply load_dxf_entity_no_points].
  - intros err Hc.
    assert (H0 : DxfParser._flatten_entity m e tol = []).
    { rewrite Hfl. unfold DxfParser.flatten_ellipse. now rewrite Hc. }
    split; [exact H0 | now apply load_dxf_entity_no_points].
Qed.

Lemma ellipse_fallback_all_or_nothing_witness :
  DxfParser._flatten_entity Examples.glibc MoreExamples.ellipse_whole 0.25
  = [(2, 0); (0, 1); (-2, 0); (0, -1); (2, 0)]%float
  /\ DxfParser._flatten_entity Examples.glibc MoreExamples.ellipse_broken 0.25
     = []
  /\ DxfParser.load_dxf_entity Examples.glibc 1 0.25
       MoreExamples.ellipse_broken = None.
Proof.
  assert (Hw : no_adaptive_flattening MoreExamples.ellipse_whole 0.25)
    by (left; discriminate).
  assert (Hb : no_adaptive_flattening MoreExamples.ellipse_broken 0.25)
    by (left; discriminate).
  destruct (ellipse_fallback_all_or_nothing Examples.glibc 1 0.25
              MoreExamples.ellipse_whole eq_refl Hw) as (H1 & _).
  destruct (ellipse_fallback_all_or_nothing Examples.glibc 1 0.25
              MoreExamples.ellipse_broken eq_refl Hb) as (_ & H2 & _).
  split.
  - exact (H1 _ eq_refl eq_refl).
  - apply (H2 _ eq_refl). discriminate.
Defined.

(** X24.  An entity of a type without a fallback gives a record only through
    adaptive flattening: when that is unavailable or empty the flattener
    returns no point and [load_dxf] skips the entity.  The type tags are
    compared exactly, so a lower-case tag has no fallback. *)
Theorem unsupported_entity_dropped :
  forall (m : Libm) (scale tol : float) (e : DxfParser.Entity) (t : string),
    DxfParser.dxftype e = Ok t ->
    str_in t fallback_types = false ->
    no_adaptive_flattening e tol ->
    DxfParser._flatten_entity m e tol = []
    /\ DxfParser.load_dxf_entity m scale tol e = None.
Proof.
  intros m scale tol e t Ht Hs Hf.
  assert (H0 : DxfParser._flatten_entity m e tol = []).
  { rewrite (flatten_entity_fallback m e tol Hf).
    unfold DxfParser.flatten_fallback. rewrite Ht.
    unfold fallback_types in Hs. cbn [str_in existsb] in Hs.
    repeat (apply orb_false_iff in Hs as [? Hs]).
    cbn [str_in existsb].
    repeat match goal with
           | H : (_ =? _)%string = false |- _ =>
               first [rewrite H | rewrite String.eqb_sym, H]; clear H
           end.
    reflexivity. }
  split; [exact H0 | now apply load_dxf_entity_no_points].
Qed.

Lemma unsupported_entity_dropped_witness :
  DxfParser._flatten_entity Examples.glibc (Examples.bare_entity "line") 0.25
  = []
  /\ DxfParser.load_dxf_entity Examples.glibc 1 0.25
       (Examples.bare_entity "line") = None.
Proof.
  apply (unsupported_entity_dropped Examples.glibc 1 0.25
           (Examples.bare_entity "line") "line").
  - reflexivity.
  - reflexivity.
  - left. discriminate.
Defined.
